(** * voco.base.base_trainer: the training supervisor

    A shallow embedding of [BaseTrainer] (src/voco/base/base_trainer.py):
    the epoch loop with its monitoring and early-stop policy, checkpoint
    persistence, and resume-from-checkpoint.

    Conventions of the embedding.
    - The trainer object is a record; a method is a function from the record
      to the record after the call, the exception raised if any, and the
      effects it performed on the outside world (logger calls and
      [torch.save]), in order.
    - The abstract method [_train_epoch] and the contents of the file system
      read by [torch.load] are the variables of the section [Trainer].
    - A [KeyboardInterrupt] either comes out of the call of [_train_epoch]
      ([train]) or arrives between two statements of the loop
      ([interrupted_train]).
    - Metric values are Python numbers: unbounded integers or binary64
      floats, compared exactly as Python compares them. *)

From Stdlib Require Import ZArith Floats Lia Ascii String.
From stdpp Require Import gmap strings list fin_maps pretty.

Open Scope Z_scope.

(** ** Python numbers and strings *)

Module Py.

Inductive num :=
| Int (z : Z)
| Float (f : float).

(** [numpy.inf] and its negation. *)
Definition inf : num := Float infinity.
Definition neg_inf : num := Float neg_infinity.

(** The exact order of an integer and a float, as Python decides it
    (no rounding of the integer); [None] when the float is NaN. *)
Definition compare_int_float (a : Z) (f : float) : option comparison :=
  match Prim2SF f with
  | S754_nan => None
  | S754_infinity s => Some (if s then Gt else Lt)
  | S754_zero _ => Some (a ?= 0)
  | S754_finite s m e =>
      let m' := if s then Z.neg m else Z.pos m in
      Some (if 0 <=? e then a ?= m' * 2 ^ e else a * 2 ^ (- e) ?= m')
  end.

(** [x <= y] *)
Definition le (x y : num) : bool :=
  match x, y with
  | Int a, Int b => a <=? b
  | Float a, Float b => PrimFloat.leb a b
  | Int a, Float b =>
      match compare_int_float a b with
      | Some Lt | Some Eq => true
      | _ => false
      end
  | Float a, Int b =>
      match compare_int_float b a with
      | Some Gt | Some Eq => true
      | _ => false
      end
  end.

(** [x < y] *)
Definition lt (x y : num) : bool :=
  match x, y with
  | Int a, Int b => a <? b
  | Float a, Float b => PrimFloat.ltb a b
  | Int a, Float b =>
      match compare_int_float a b with
      | Some Lt => true
      | _ => false
      end
  | Float a, Int b =>
      match compare_int_float b a with
      | Some Gt => true
      | _ => false
      end
  end.

(** [x >= y] and [x > y] *)
Definition ge (x y : num) : bool := le y x.
Definition gt (x y : num) : bool := lt y x.

(** The characters [str.split()] treats as separators (ASCII range). *)
Definition isspace (c : ascii) : bool :=
  let n := nat_of_ascii c in
  ((9 <=? n)%nat && (n <=? 13)%nat) || ((28 <=? n)%nat && (n <=? 32)%nat).

Fixpoint split_from (cur : string) (s : string) : list string :=
  match s with
  | EmptyString => if String.eqb cur "" then [] else [cur]
  | String c s' =>
      if isspace c
      then (if String.eqb cur "" then split_from "" s'
            else cur :: split_from "" s')
      else split_from (cur ++ String c "") s'
  end.

(** [s.split()]: the maximal runs of non-space characters. *)
Definition split (s : string) : list string := split_from "" s.

(** [range(a, b)] *)
Definition range (a b : Z) : list Z := seqZ a (b - a).

End Py.

(** ** Data model *)

(** What [state_dict()] returns and [load_state_dict] takes. The trainer
    only moves these values between objects and checkpoints. *)
Definition state_dict : Type := Z.

(** A network: its class name ([type(m).__name__]) and its parameters. *)
Record nn_module := {
  class_name : string;
  parameters : state_dict
}.

Definition load_state_dict (m : nn_module) (s : state_dict) : nn_module :=
  {| class_name := class_name m; parameters := s |}.

(** An entry of the configuration that resume compares with [!=] / [==]
    (a nested structure in Python, kept here as its text). *)
Definition entry : Type := string.

(** [config["trainer"]]; [None] is an absent key. *)
Record trainer_config := {
  cfg_epochs : Z;
  cfg_save_dir : string;
  cfg_save_period : Z;
  cfg_monitor : option string;
  cfg_early_stop : option Py.num
}.

Record Config := {
  cfg_trainer : trainer_config;
  cfg_generator : entry;
  cfg_discriminator : entry;
  cfg_g_optimizer : entry;
  cfg_d_optimizer : entry;
  cfg_g_lr_scheduler : entry;
  cfg_d_lr_scheduler : entry;
  cfg_resume : option string
}.

(** The dictionary written by [_save_checkpoint]. The two scheduler keys are
    present only when the scheduler attribute was. *)
Record CheckpointRecord := {
  ck_g_arch : string;
  ck_d_arch : string;
  ck_epoch : Z;
  ck_generator_state_dict : state_dict;
  ck_discriminator_state_dict : state_dict;
  ck_g_optimizer : state_dict;
  ck_d_optimizer : state_dict;
  ck_monitor_best : Py.num;
  ck_config : Config;
  ck_d_lr_scheduler : option state_dict;
  ck_g_lr_scheduler : option state_dict
}.

(** A [pathlib] path, kept as the expression that built it. *)
Inductive Path :=
| PathOf (s : string)
| PathDiv (p : Path) (name : string).

(** The objects the trainer holds and the hook trains. A scheduler is an
    attribute set by the concrete trainer: [None] when [hasattr] is false. *)
Record objects := {
  generator : nn_module;
  discriminator : nn_module;
  g_optimizer : state_dict;
  d_optimizer : state_dict;
  g_lr_scheduler : option state_dict;
  d_lr_scheduler : option state_dict
}.

(** The attributes of [self]. When monitoring is off from the start the
    source leaves [mnt_metric] and [early_stop] unset and never reads them;
    the record then holds a placeholder. *)
Record trainer := {
  objs : objects;
  _last_epoch : Z;
  config : Config;
  epochs : Z;
  save_period : Z;
  mnt_mode : string;
  mnt_metric : string;
  mnt_best : Py.num;
  early_stop : Py.num;
  start_epoch : Z;
  checkpoint_dir : Path
}.

(** An epoch's metrics, and the [log] dictionary built from them. *)
Abbreviation EpochResult := (gmap string Py.num).

(** What a call of [_train_epoch] can do: return the metrics, or be
    interrupted by the user; either way the objects may have changed.
    (An interrupt outside the call is modelled with [interrupted_train].) *)
Inductive epoch_outcome :=
| Returned (result : EpochResult) (o : objects)
| Interrupted (o : objects).

Inductive exn :=
| KeyboardInterrupt
| ZeroDivisionError
| AttributeError
| KeyError
| AssertionError
| ValueError
| FileNotFoundError.

(** Logger messages, by format string. *)
Inductive message :=
| MsgLogLine (key : string) (value : Py.num)
| MsgMetricNotFound (metric : string)
| MsgTrainingStops (patience : Py.num)
| MsgSavingCheckpoint (filename : Path)
| MsgKeyboardInterrupt
| MsgLoadingCheckpoint (resume_path : string)
| MsgArchitectureDiffers
| MsgOptimizerDiffers
| MsgCheckpointLoaded (start_epoch : Z).

Inductive event :=
| Info (m : message)
| Warning (m : message)
| TorchSave (state : CheckpointRecord) (filename : Path).

(** How a block of statements ends. *)
Inductive flow :=
| Continue
| Break
| Raise (e : exn).

(** The state after a piece of the epoch loop: the trainer, the local
    variable [not_improved_count], how control left, what was emitted. *)
Record step := {
  st_trainer : trainer;
  st_count : Z;
  st_flow : flow;
  st_events : list event
}.

(** Attribute assignments. *)
Definition set_objs (o : objects) (t : trainer) : trainer :=
  {| objs := o; _last_epoch := _last_epoch t; config := config t;
     epochs := epochs t; save_period := save_period t;
     mnt_mode := mnt_mode t; mnt_metric := mnt_metric t;
     mnt_best := mnt_best t; early_stop := early_stop t;
     start_epoch := start_epoch t; checkpoint_dir := checkpoint_dir t |}.

Definition set_last_epoch (e : Z) (t : trainer) : trainer :=
  {| objs := objs t; _last_epoch := e; config := config t;
     epochs := epochs t; save_period := save_period t;
     mnt_mode := mnt_mode t; mnt_metric := mnt_metric t;
     mnt_best := mnt_best t; early_stop := early_stop t;
     start_epoch := start_epoch t; checkpoint_dir := checkpoint_dir t |}.

Definition set_mnt_mode (m : string) (t : trainer) : trainer :=
  {| objs := objs t; _last_epoch := _last_epoch t; config := config t;
     epochs := epochs t; save_period := save_period t;
     mnt_mode := m; mnt_metric := mnt_metric t;
     mnt_best := mnt_best t; early_stop := early_stop t;
     start_epoch := start_epoch t; checkpoint_dir := checkpoint_dir t |}.

Definition set_mnt_best (v : Py.num) (t : trainer) : trainer :=
  {| objs := objs t; _last_epoch := _last_epoch t; config := config t;
     epochs := epochs t; save_period := save_period t;
     mnt_mode := mnt_mode t; mnt_metric := mnt_metric t;
     mnt_best := v; early_stop := early_stop t;
     start_epoch := start_epoch t; checkpoint_dir := checkpoint_dir t |}.

Definition set_start_epoch (e : Z) (t : trainer) : trainer :=
  {| objs := objs t; _last_epoch := _last_epoch t; config := config t;
     epochs := epochs t; save_period := save_period t;
     mnt_mode := mnt_mode t; mnt_metric := mnt_metric t;
     mnt_best := mnt_best t; early_stop := early_stop t;
     start_epoch := e; checkpoint_dir := checkpoint_dir t |}.

Definition set_generator (m : nn_module) (o : objects) : objects :=
  {| generator := m; discriminator := discriminator o;
     g_optimizer := g_optimizer o; d_optimizer := d_optimizer o;
     g_lr_scheduler := g_lr_scheduler o; d_lr_scheduler := d_lr_scheduler o |}.

Definition set_discriminator (m : nn_module) (o : objects) : objects :=
  {| generator := generator o; discriminator := m;
     g_optimizer := g_optimizer o; d_optimizer := d_optimizer o;
     g_lr_scheduler := g_lr_scheduler o; d_lr_scheduler := d_lr_scheduler o |}.

Definition set_g_optimizer (s : state_dict) (o : objects) : objects :=
  {| generator := generator o; discriminator := discriminator o;
     g_optimizer := s; d_optimizer := d_optimizer o;
     g_lr_scheduler := g_lr_scheduler o; d_lr_scheduler := d_lr_scheduler o |}.

Definition set_d_optimizer (s : state_dict) (o : objects) : objects :=
  {| generator := generator o; discriminator := discriminator o;
     g_optimizer := g_optimizer o; d_optimizer := s;
     g_lr_scheduler := g_lr_scheduler o; d_lr_scheduler := d_lr_scheduler o |}.

Definition set_g_lr_scheduler (s : option state_dict) (o : objects) : objects :=
  {| generator := generator o; discriminator := discriminator o;
     g_optimizer := g_optimizer o; d_optimizer := d_optimizer o;
     g_lr_scheduler := s; d_lr_scheduler := d_lr_scheduler o |}.

Definition set_d_lr_scheduler (s : option state_dict) (o : objects) : objects :=
  {| generator := generator o; discriminator := discriminator o;
     g_optimizer := g_optimizer o; d_optimizer := d_optimizer o;
     g_lr_scheduler := g_lr_scheduler o; d_lr_scheduler := s |}.

(** ** The methods of [BaseTrainer] *)

Section Trainer.

(** The abstract method: the epoch number and the objects as they are
    when it is called. *)
Variable _train_epoch : Z -> objects -> epoch_outcome.

(** [torch.load]: the record stored at a path, if the path can be read. *)
Variable torch_load : string -> option CheckpointRecord.

(** [_save_checkpoint(epoch, save_best, only_best)] (lines 140-166). *)
Definition _save_checkpoint (t : trainer) (epoch : Z)
    (save_best only_best : bool) : list event :=
  let g_arch := class_name (generator (objs t)) in
  let d_arch := class_name (discriminator (objs t)) in
  let state :=
    {| ck_g_arch := g_arch;
       ck_d_arch := d_arch;
       ck_epoch := epoch;
       ck_generator_state_dict := parameters (generator (objs t));
       ck_discriminator_state_dict := parameters (discriminator (objs t));
       ck_g_optimizer := g_optimizer (objs t);
       ck_d_optimizer := d_optimizer (objs t);
       ck_monitor_best := mnt_best t;
       ck_config := config t;
       ck_d_lr_scheduler := d_lr_scheduler (objs t);
       ck_g_lr_scheduler := g_lr_scheduler (objs t) |} in
  let filename :=
    PathDiv (checkpoint_dir t) ("checkpoint-epoch" ++ pretty epoch ++ ".pth") in
  [TorchSave state filename; Info (MsgSavingCheckpoint filename)].

(** Lines 93-98: the log dictionary, and one logger line per key. The
    map does not keep the insertion order of the Python dictionary, so
    the lines come in the order of the map. *)
Definition make_log (epoch : Z) (result : EpochResult) : gmap string Py.num :=
  result ∪ {[ "epoch" := Py.Int epoch ]}.

Definition log_lines (log : gmap string Py.num) : list event :=
  (fun kv => Info (MsgLogLine (fst kv) (snd kv))) <$> map_to_list log.

(** Lines 104-121: the test of improvement. A [KeyError] of the lookup
    is caught: warning, monitoring switched off, not improved. *)
Definition check_improved (t : trainer) (log : gmap string Py.num)
    : trainer * bool * list event :=
  let on_key_error :=
    (set_mnt_mode "off" t, false,
     [Warning (MsgMetricNotFound (mnt_metric t))]) in
  if String.eqb (mnt_mode t) "min" then
    match log !! mnt_metric t with
    | Some v => (t, Py.le v (mnt_best t), [])
    | None => on_key_error
    end
  else if String.eqb (mnt_mode t) "max" then
    match log !! mnt_metric t with
    | Some v => (t, Py.ge v (mnt_best t), [])
    | None => on_key_error
    end
  else (t, false, []).

(** Lines 137-138. [epoch % 0] raises. *)
Definition save_if_due (t : trainer) (not_improved_count : Z) (epoch : Z)
    (best : bool) (emitted : list event) : step :=
  if save_period t =? 0 then
    {| st_trainer := t; st_count := not_improved_count;
       st_flow := Raise ZeroDivisionError; st_events := emitted |}
  else if (epoch mod save_period t =? 0) || best then
    {| st_trainer := t; st_count := not_improved_count;
       st_flow := Continue;
       st_events := emitted ++ _save_checkpoint t epoch best true |}
  else
    {| st_trainer := t; st_count := not_improved_count;
       st_flow := Continue; st_events := emitted |}.

(** Lines 102-135, entered when [mnt_mode != "off"]: the monitoring
    policy. The result is the step so far and the local [best]. *)
Definition monitor (t : trainer) (not_improved_count : Z)
    (log : gmap string Py.num) : step * bool :=
  let '(t, improved, warned) := check_improved t log in
  let updated :=
    if improved then
      match log !! mnt_metric t with
      | Some v => inr (set_mnt_best v t, 0, true)
      | None => inl KeyError
      end
    else inr (t, not_improved_count + 1, false) in
  match updated with
  | inl e =>
      ({| st_trainer := t; st_count := not_improved_count;
          st_flow := Raise e; st_events := warned |}, false)
  | inr (t, not_improved_count, best) =>
      if Py.gt (Py.Int not_improved_count) (early_stop t) then
        ({| st_trainer := t; st_count := not_improved_count;
            st_flow := Break;
            st_events :=
              warned ++ [Info (MsgTrainingStops (early_stop t))] |}, best)
      else
        ({| st_trainer := t; st_count := not_improved_count;
            st_flow := Continue; st_events := warned |}, best)
  end.

(** Lines 89-138: the body of the [for] loop. *)
Definition loop_body (t : trainer) (not_improved_count : Z) (epoch : Z)
    : step :=
  let t := set_last_epoch epoch t in
  match _train_epoch epoch (objs t) with
  | Interrupted o =>
      {| st_trainer := set_objs o t; st_count := not_improved_count;
         st_flow := Raise KeyboardInterrupt; st_events := [] |}
  | Returned result o =>
      let t := set_objs o t in
      let log := make_log epoch result in
      if negb (String.eqb (mnt_mode t) "off") then
        let '(m, best) := monitor t not_improved_count log in
        match st_flow m with
        | Continue =>
            save_if_due (st_trainer m) (st_count m) epoch best
              (log_lines log ++ st_events m)
        | _ =>
            {| st_trainer := st_trainer m; st_count := st_count m;
               st_flow := st_flow m;
               st_events := log_lines log ++ st_events m |}
        end
      else
        save_if_due t not_improved_count epoch false (log_lines log)
  end.

(** The [for] statement over a list of epoch numbers. *)
Fixpoint for_epochs (es : list Z) (t : trainer) (not_improved_count : Z)
    : step :=
  match es with
  | [] =>
      {| st_trainer := t; st_count := not_improved_count;
         st_flow := Continue; st_events := [] |}
  | epoch :: es' =>
      let s := loop_body t not_improved_count epoch in
      match st_flow s with
      | Continue =>
          let s' := for_epochs es' (st_trainer s) (st_count s) in
          {| st_trainer := st_trainer s'; st_count := st_count s';
             st_flow := st_flow s';
             st_events := st_events s ++ st_events s' |}
      | _ => s
      end
  end.

(** [_train_process()] (lines 83-138). It returns normally when the flow
    of the result is [Continue] (range exhausted) or [Break]. *)
Definition _train_process (t : trainer) : step :=
  let not_improved_count := 0 in
  for_epochs (Py.range (start_epoch t) (epochs t + 1)) t not_improved_count.

(** [train()] (lines 75-81), when an interrupt, if there is one, comes
    out of the call of [_train_epoch]; an interrupt that arrives between
    two statements of the loop is [interrupted_train] below. *)
Definition train (t : trainer) : step :=
  let s := _train_process t in
  match st_flow s with
  | Raise KeyboardInterrupt =>
      {| st_trainer := st_trainer s; st_count := st_count s;
         st_flow := Raise KeyboardInterrupt;
         st_events :=
           st_events s ++ Info MsgKeyboardInterrupt ::
           _save_checkpoint (st_trainer s) (_last_epoch (st_trainer s))
             false false |}
  | _ => s
  end.

(** *** An interrupt between two statements of the loop

    [KeyboardInterrupt] is raised where the interpreter notices the
    signal: inside [_train_epoch], or between any two statements of the
    body of the loop; the [try] of [train] (lines 76-81) guards all of
    them. The body of the loop (lines 89-138) is listed here as its
    effects, in the order of the source: the assignments to attributes
    of the trainer, and what is logged and written. An interrupt that
    arrives after the first [i] effects leaves the trainer as these [i]
    effects made it; the locals ([not_improved_count], [best]) are lost. *)
Inductive effect :=
| Assign (f : trainer -> trainer)
| Emit (ev : event).

Definition perform (t : trainer) (a : effect) : trainer :=
  match a with
  | Assign f => f t
  | Emit _ => t
  end.

Definition performed (effects : list effect) (t : trainer) : trainer :=
  fold_left perform effects t.

Definition emitted_by (effects : list effect) : list event :=
  omap (fun a => match a with
                 | Emit ev => Some ev
                 | Assign _ => None
                 end) effects.

(** Lines 102-135, entered when [mnt_mode != "off"]: the warning and
    [self.mnt_mode = "off"] of the [except] block (lines 114-120),
    [self.mnt_best = log[self.mnt_metric]] (line 124), the stop notice
    (line 131). *)
Definition monitor_effects (t : trainer) (not_improved_count : Z)
    (log : gmap string Py.num) : list effect :=
  let on_key_error :=
    [Emit (Warning (MsgMetricNotFound (mnt_metric t)));
     Assign (set_mnt_mode "off")] in
  let looked_up :=
    if String.eqb (mnt_mode t) "min" || String.eqb (mnt_mode t) "max" then
      match log !! mnt_metric t with
      | Some _ => []
      | None => on_key_error
      end
    else [] in
  let '(t, improved, _) := check_improved t log in
  let updated :=
    if improved then
      match log !! mnt_metric t with
      | Some v => inr ([Assign (set_mnt_best v)], 0)
      | None => inl KeyError
      end
    else inr ([], not_improved_count + 1) in
  match updated with
  | inl _ => looked_up
  | inr (assigned, not_improved_count) =>
      looked_up ++ assigned ++
      if Py.gt (Py.Int not_improved_count) (early_stop t) then
        [Emit (Info (MsgTrainingStops (early_stop t)))]
      else []
  end.

(** Lines 137-138, with the two effects of [_save_checkpoint] (lines
    165-166). *)
Definition save_effects (t : trainer) (epoch : Z) (best : bool)
    : list effect :=
  if save_period t =? 0 then []
  else if (epoch mod save_period t =? 0) || best then
    Emit <$> _save_checkpoint t epoch best true
  else [].

(** Lines 89-138: the effects of one iteration, in order. When the hook
    is interrupted the list ends with the hook. *)
Definition body_effects (t : trainer) (not_improved_count : Z) (epoch : Z)
    : list effect :=
  Assign (set_last_epoch epoch) ::
  match _train_epoch epoch (objs t) with
  | Interrupted o => [Assign (set_objs o)]
  | Returned result o =>
      let t := set_objs o (set_last_epoch epoch t) in
      let log := make_log epoch result in
      Assign (set_objs o) :: (Emit <$> log_lines log) ++
      if negb (String.eqb (mnt_mode t) "off") then
        let '(m, best) := monitor t not_improved_count log in
        monitor_effects t not_improved_count log ++
        match st_flow m with
        | Continue => save_effects (st_trainer m) epoch best
        | _ => []
        end
      else save_effects t epoch false
  end.

(** [train()] (lines 75-81) when the interrupt arrives in the iteration
    of [epoch], after the first [i] effects of its body, the iterations
    before it having run to their end: with [i = 0] before line 89, with
    [i = 1] after it, and so on; with [i] the number of the effects or
    more, after the last of them (when the hook is interrupted, that is
    the interrupt of the hook). The handler logs, saves and raises
    again. *)
Definition interrupted_train (t : trainer) (epoch : Z) (i : nat) : step :=
  let not_improved_count := 0 in
  let before :=
    for_epochs (Py.range (start_epoch t) epoch) t not_improved_count in
  let done :=
    take i (body_effects (st_trainer before) (st_count before) epoch) in
  let t := performed done (st_trainer before) in
  {| st_trainer := t; st_count := st_count before;
     st_flow := Raise KeyboardInterrupt;
     st_events :=
       st_events before ++ emitted_by done ++
       Info MsgKeyboardInterrupt ::
       _save_checkpoint t (_last_epoch t) false false |}.

(** The state after a call made at construction time: the trainer, the
    exception that left the call (if one did), what was emitted. *)
Record call := {
  after : trainer;
  raised : option exn;
  emitted : list event
}.

(** Lines 190-201: the generator's optimizer and scheduler. *)
Definition resume_g_optimizer (t : trainer) (checkpoint : CheckpointRecord)
    : call :=
  if negb (String.eqb (cfg_g_optimizer (ck_config checkpoint))
                      (cfg_g_optimizer (config t))) then
    {| after := t; raised := None;
       emitted := [Warning MsgOptimizerDiffers] |}
  else
    let t := set_objs (set_g_optimizer (ck_g_optimizer checkpoint) (objs t)) t in
    if String.eqb (cfg_g_lr_scheduler (ck_config checkpoint))
                  (cfg_g_lr_scheduler (config t)) then
      match g_lr_scheduler (objs t) with
      | None => {| after := t; raised := Some AttributeError; emitted := [] |}
      | Some _ =>
          match ck_g_lr_scheduler checkpoint with
          | None => {| after := t; raised := Some KeyError; emitted := [] |}
          | Some s =>
              {| after := set_objs (set_g_lr_scheduler (Some s) (objs t)) t;
                 raised := None; emitted := [] |}
          end
      end
    else {| after := t; raised := None; emitted := [] |}.

(** Lines 203-214: the discriminator's optimizer and scheduler. *)
Definition resume_d_optimizer (t : trainer) (checkpoint : CheckpointRecord)
    : call :=
  if negb (String.eqb (cfg_d_optimizer (ck_config checkpoint))
                      (cfg_d_optimizer (config t))) then
    {| after := t; raised := None;
       emitted := [Warning MsgOptimizerDiffers] |}
  else
    let t := set_objs (set_d_optimizer (ck_d_optimizer checkpoint) (objs t)) t in
    if negb (String.eqb (cfg_d_lr_scheduler (ck_config checkpoint))
                        (cfg_d_lr_scheduler (config t))) then
      match d_lr_scheduler (objs t) with
      | None => {| after := t; raised := Some AttributeError; emitted := [] |}
      | Some _ =>
          match ck_d_lr_scheduler checkpoint with
          | None => {| after := t; raised := Some KeyError; emitted := [] |}
          | Some s =>
              {| after := set_objs (set_d_lr_scheduler (Some s) (objs t)) t;
                 raised := None; emitted := [] |}
          end
      end
    else {| after := t; raised := None; emitted := [] |}.

(** Lines 177-188: the epoch, the best value and both networks'
    parameters. *)
Definition resume_networks (t : trainer) (checkpoint : CheckpointRecord) : call :=
  let t := set_start_epoch (ck_epoch checkpoint + 1) t in
  let t := set_mnt_best (ck_monitor_best checkpoint) t in
  let warned :=
    if negb (String.eqb (cfg_generator (ck_config checkpoint))
                        (cfg_generator (config t)))
       || negb (String.eqb (cfg_discriminator (ck_config checkpoint))
                           (cfg_discriminator (config t)))
    then [Warning MsgArchitectureDiffers] else [] in
  let t :=
    set_objs (set_generator
                (load_state_dict (generator (objs t))
                   (ck_generator_state_dict checkpoint)) (objs t)) t in
  let t :=
    set_objs (set_discriminator
                (load_state_dict (discriminator (objs t))
                   (ck_discriminator_state_dict checkpoint)) (objs t)) t in
  {| after := t; raised := None; emitted := warned |}.

(** Lines 177-216: resume from a loaded checkpoint. *)
Definition resume_from (t : trainer) (checkpoint : CheckpointRecord) : call :=
  let n := resume_networks t checkpoint in
  let g := resume_g_optimizer (after n) checkpoint in
  match raised g with
  | Some e =>
      {| after := after g; raised := Some e; emitted := emitted n ++ emitted g |}
  | None =>
      let d := resume_d_optimizer (after g) checkpoint in
      match raised d with
      | Some e =>
          {| after := after d; raised := Some e;
             emitted := emitted n ++ emitted g ++ emitted d |}
      | None =>
          {| after := after d; raised := None;
             emitted :=
               emitted n ++ emitted g ++ emitted d ++
               [Info (MsgCheckpointLoaded (start_epoch (after d)))] |}
      end
  end.

(** [_resume_checkpoint(resume_path)] (lines 168-218). *)
Definition _resume_checkpoint (t : trainer) (resume_path : string) : call :=
  let loading := Info (MsgLoadingCheckpoint resume_path) in
  match torch_load resume_path with
  | None =>
      {| after := t; raised := Some FileNotFoundError; emitted := [loading] |}
  | Some checkpoint =>
      let c := resume_from t checkpoint in
      {| after := after c; raised := raised c;
         emitted := loading :: emitted c |}
  end.

(** Lines 39-52: the monitoring attributes read from the configuration:
    [mnt_mode], [mnt_metric], [mnt_best], [early_stop]. *)
Definition init_monitor (cfg : trainer_config)
    : exn + (string * string * Py.num * Py.num) :=
  let monitor := default "off" (cfg_monitor cfg) in
  if String.eqb monitor "off" then
    inr ("off", "", Py.Int 0, Py.inf)
  else
    match Py.split monitor with
    | [mnt_mode; mnt_metric] =>
        if String.eqb mnt_mode "min" || String.eqb mnt_mode "max" then
          let mnt_best :=
            if String.eqb mnt_mode "min" then Py.inf else Py.neg_inf in
          let early_stop := default Py.inf (cfg_early_stop cfg) in
          let early_stop :=
            if Py.le early_stop (Py.Int 0) then Py.inf else early_stop in
          inr (mnt_mode, mnt_metric, mnt_best, early_stop)
        else inl AssertionError
    | _ => inl ValueError
    end.

(** [__init__] (lines 19-64). The loss functions, metrics collection,
    device, logger and visualizer are not part of the model; the
    schedulers are the attributes present when the constructor runs. *)
Definition __init__ (generator discriminator : nn_module)
    (g_optimizer d_optimizer : state_dict)
    (g_lr_scheduler d_lr_scheduler : option state_dict)
    (config : Config) : exn + call :=
  match init_monitor (cfg_trainer config) with
  | inl e => inl e
  | inr (mnt_mode, mnt_metric, mnt_best, early_stop) =>
      let t :=
        {| objs :=
             {| generator := generator; discriminator := discriminator;
                g_optimizer := g_optimizer; d_optimizer := d_optimizer;
                g_lr_scheduler := g_lr_scheduler;
                d_lr_scheduler := d_lr_scheduler |};
           _last_epoch := 0;
           config := config;
           epochs := cfg_epochs (cfg_trainer config);
           save_period := cfg_save_period (cfg_trainer config);
           mnt_mode := mnt_mode;
           mnt_metric := mnt_metric;
           mnt_best := mnt_best;
           early_stop := early_stop;
           start_epoch := 1;
           checkpoint_dir := PathOf (cfg_save_dir (cfg_trainer config)) |} in
      match cfg_resume config with
      | Some resume_path => inr (_resume_checkpoint t resume_path)
      | None => inr {| after := t; raised := None; emitted := [] |}
      end
  end.

End Trainer.


(** ** Observations on effects *)

(** The epochs of the checkpoints written, in order. *)
Definition saved_epochs (evs : list event) : list Z :=
  omap (fun ev => match ev with
                  | TorchSave state _ => Some (ck_epoch state)
                  | _ => None
                  end) evs.

(** The paths written to, in order. *)
Definition saved_paths (evs : list event) : list Path :=
  omap (fun ev => match ev with
                  | TorchSave _ filename => Some filename
                  | _ => None
                  end) evs.


(** The records written, in order. *)
Definition saved_records (evs : list event) : list CheckpointRecord :=
  omap (fun ev => match ev with
                  | TorchSave state _ => Some state
                  | _ => None
                  end) evs.

(** Line 164: the path of the checkpoint of an epoch. *)
Definition checkpoint_file (dir : Path) (epoch : Z) : Path :=
  PathDiv dir ("checkpoint-epoch" ++ pretty epoch ++ ".pth").


(** What the checkpoints of one run share: each is written to the file of
    its own epoch under the directory, and records the configuration. *)
Definition placed (dir : Path) (cfg : Config) (ev : event) : Prop :=
  match ev with
  | TorchSave state filename =>
      filename = checkpoint_file dir (ck_epoch state) /\ ck_config state = cfg
  | _ => True
  end.


(** The monitoring state two trainers share. *)
Definition same_monitor (t t' : trainer) : Prop :=
  mnt_mode t' = mnt_mode t /\ mnt_metric t' = mnt_metric t /\
  mnt_best t' = mnt_best t /\ early_stop t' = early_stop t /\
  save_period t' = save_period t.

(** The value does not improve on the best of the trainer. *)
Definition not_better (t : trainer) (v : Py.num) : Prop :=
  (mnt_mode t = "min" /\ Py.le v (mnt_best t) = false) \/
  (mnt_mode t = "max" /\ Py.ge v (mnt_best t) = false).


(** What the checkpoints written in one epoch hold: the epoch number, the
    state of the objects and the best value so far. *)
Definition records (epoch : Z) (o : objects) (best : Py.num) (ev : event) : Prop :=
  match ev with
  | TorchSave state _ =>
      ck_epoch state = epoch /\
      ck_g_arch state = class_name (generator o) /\
      ck_d_arch state = class_name (discriminator o) /\
      ck_generator_state_dict state = parameters (generator o) /\
      ck_discriminator_state_dict state = parameters (discriminator o) /\
      ck_g_optimizer state = g_optimizer o /\
      ck_d_optimizer state = d_optimizer o /\
      ck_g_lr_scheduler state = g_lr_scheduler o /\
      ck_d_lr_scheduler state = d_lr_scheduler o /\
      ck_monitor_best state = best
  | _ => True
  end.


(** The number is a float NaN. *)
Definition is_nan (v : Py.num) : Prop :=
  match v with
  | Py.Float f => Prim2SF f = S754_nan
  | Py.Int _ => False
  end.

(** The monitoring state of a fresh run (lines 46-49). *)
Definition fresh_best (t : trainer) : Prop :=
  (mnt_mode t = "min" /\ mnt_best t = Py.inf) \/
  (mnt_mode t = "max" /\ mnt_best t = Py.neg_inf).


(** The effect leaves the settings of the run and the recorded epoch as
    they are. *)
Definition keeps_run (a : effect) : Prop :=
  forall t : trainer,
    config (perform t a) = config t /\
    checkpoint_dir (perform t a) = checkpoint_dir t /\
    save_period (perform t a) = save_period t /\
    _last_epoch (perform t a) = _last_epoch t.


(** The warnings logged, in order. *)
Definition warnings (evs : list event) : list message :=
  omap (fun ev => match ev with Warning m => Some m | _ => None end) evs.

(** The value of the local [best] when line 137 is reached (false when the
    hook was interrupted). *)
Definition marked_best (_train_epoch : Z -> objects -> epoch_outcome)
    (t : trainer) (not_improved_count : Z) (epoch : Z) : bool :=
  match _train_epoch epoch (objs t) with
  | Returned result o =>
      negb (String.eqb (mnt_mode t) "off")
      && snd (monitor (set_objs o (set_last_epoch epoch t))
                not_improved_count (make_log epoch result))
  | Interrupted _ => false
  end.

(** ** Example runs *)

Module Sample.

Definition net (name : string) (p : state_dict) : nn_module :=
  {| class_name := name; parameters := p |}.

Definition trainer_section (monitor : option string)
    (early_stop : option Py.num) (epochs save_period : Z) : trainer_config :=
  {| cfg_epochs := epochs; cfg_save_dir := "saved";
     cfg_save_period := save_period; cfg_monitor := monitor;
     cfg_early_stop := early_stop |}.

Definition cfg (tc : trainer_config) (g_opt d_opt g_sched d_sched : entry)
    (resume : option string) : Config :=
  {| cfg_trainer := tc; cfg_generator := "HiFiGenerator";
     cfg_discriminator := "HiFiDiscriminator";
     cfg_g_optimizer := g_opt; cfg_d_optimizer := d_opt;
     cfg_g_lr_scheduler := g_sched; cfg_d_lr_scheduler := d_sched;
     cfg_resume := resume |}.

(** A trainer as [__init__] leaves it for the given monitoring fields,
    with both schedulers attached. *)
Definition a_trainer (c : Config) (mode metric : string) (best patience : Py.num)
    : trainer :=
  {| objs :=
       {| generator := net "Generator" 1; discriminator := net "Discriminator" 2;
          g_optimizer := 3; d_optimizer := 4;
          g_lr_scheduler := Some 5; d_lr_scheduler := Some 6 |};
     _last_epoch := 0; config := c;
     epochs := cfg_epochs (cfg_trainer c);
     save_period := cfg_save_period (cfg_trainer c);
     mnt_mode := mode; mnt_metric := metric; mnt_best := best;
     early_stop := patience; start_epoch := 1;
     checkpoint_dir := PathOf (cfg_save_dir (cfg_trainer c)) |}.

(** A hook that trains nothing and reports the same loss every epoch. *)
Definition constant_loss (v : Py.num) (epoch : Z) (o : objects) : epoch_outcome :=
  Returned {[ "loss" := v ]} o.

(** A hook that reports no metric at all. *)
Definition no_metrics (epoch : Z) (o : objects) : epoch_outcome :=
  Returned ∅ o.

(** A hook interrupted by the user in epoch [k]. *)
Definition interrupted_at (k : Z) (epoch : Z) (o : objects) : epoch_outcome :=
  if epoch =? k then Interrupted o else Returned {[ "loss" := Py.Int epoch ]} o.

Definition no_files (path : string) : option CheckpointRecord := None.

(** The trainer [__init__] builds from a configuration, when it returns. *)
Definition fresh (torch_load : string -> option CheckpointRecord) (c : Config)
    : option trainer :=
  match __init__ torch_load (net "Generator" 1) (net "Discriminator" 2)
          3 4 (Some 5) (Some 6) c with
  | inr r => match raised r with
             | None => Some (after r)
             | Some _ => None
             end
  | inl _ => None
  end.

Definition optimizers_config (tc : trainer_config) (resume : option string) : Config :=
  cfg tc "Adam lr=2e-4" "Adam lr=2e-4" "ExponentialLR 0.999" "ExponentialLR 0.999"
    resume.

(** [monitor: "min loss"], no patience given, a checkpoint every [save_period]. *)
Definition min_loss_config (epochs save_period : Z) : Config :=
  optimizers_config (trainer_section (Some "min loss") None epochs save_period) None.

(** [monitor: "max epoch"]: the monitored name is the key the trainer adds
    to the log itself. *)
Definition max_epoch_config : Config :=
  optimizers_config (trainer_section (Some "max epoch") None 3 10) None.

Definition max_epoch_trainer : trainer :=
  a_trainer max_epoch_config "max" "epoch" Py.neg_inf Py.inf.

(** A file system holding one checkpoint. *)
Definition one_file (path : string) (checkpoint : CheckpointRecord)
    (p : string) : option CheckpointRecord :=
  if String.eqb p path then Some checkpoint else None.

(** The current configuration of a resumed run, and the one recorded in the
    checkpoint it resumes from: the generator's optimizer was changed, every
    other entry is the same. *)
Definition resumed_config : Config :=
  cfg (trainer_section (Some "min loss") (Some (Py.Int 2)) 10 5)
    "AdamW lr=1e-4" "Adam lr=2e-4" "ExponentialLR 0.999" "ExponentialLR 0.999"
    (Some "saved/checkpoint-epoch5.pth").

Definition recorded_config : Config :=
  cfg (trainer_section (Some "min loss") (Some (Py.Int 2)) 10 5)
    "Adam lr=2e-4" "Adam lr=2e-4" "ExponentialLR 0.999" "ExponentialLR 0.999"
    None.

Definition checkpoint5 : CheckpointRecord :=
  {| ck_g_arch := "Generator"; ck_d_arch := "Discriminator"; ck_epoch := 5;
     ck_generator_state_dict := 10; ck_discriminator_state_dict := 20;
     ck_g_optimizer := 30; ck_d_optimizer := 40;
     ck_monitor_best := Py.Float 0.5; ck_config := recorded_config;
     ck_d_lr_scheduler := Some 60; ck_g_lr_scheduler := Some 50 |}.

(** The trainer of the resumed run just before [_resume_checkpoint]. *)
Definition resuming_trainer : trainer :=
  a_trainer resumed_config "min" "loss" Py.inf (Py.Int 2).

(** A hook that trains nothing and reports a loss that grows with the
    epoch number. *)
Definition growing_loss (epoch : Z) (o : objects) : epoch_outcome :=
  Returned {[ "loss" := Py.Int epoch ]} o.

(** [monitor: "min loss"] with [early_stop: 0]. *)
Definition zero_patience_config : Config :=
  optimizers_config
    (trainer_section (Some "min loss") (Some (Py.Int 0)) 3 1) None.

(** No [monitor] key: monitoring is off; a checkpoint every second epoch. *)
Definition unmonitored_config : Config :=
  optimizers_config (trainer_section None None 4 2) None.

End Sample.

(** ** More example runs *)

Module Runs.

(** Monitoring "min loss" with patience 2, ten epochs, a save period that
    no epoch of the run reaches. *)
Definition patient_config : Config :=
  Sample.optimizers_config
    (Sample.trainer_section (Some "min loss") (Some (Py.Int 2)) 10 100) None.

(** A trainer in the middle of such a run: the best loss so far is 0.5. *)
Definition patient_trainer : trainer :=
  Sample.a_trainer patient_config "min" "loss" (Py.Float 0.5) (Py.Int 2).

(** No monitoring and a save period of 0. *)
Definition zero_period_trainer : trainer :=
  Sample.a_trainer
    (Sample.optimizers_config (Sample.trainer_section None None 3 0) None)
    "off" "" (Py.Int 0) Py.inf.

(** A schedule of five epochs. *)
Definition five_epochs_trainer : trainer :=
  Sample.a_trainer (Sample.min_loss_config 5 1) "min" "loss" Py.inf Py.inf.

(** Objects after some training. *)
Definition trained : objects :=
  {| generator := Sample.net "Generator" 11;
     discriminator := Sample.net "Discriminator" 12;
     g_optimizer := 13; d_optimizer := 14;
     g_lr_scheduler := Some 15; d_lr_scheduler := Some 16 |}.

(** The trainer that writes a checkpoint at epoch 7, and the record it
    writes. *)
Definition writer : trainer :=
  set_mnt_best (Py.Float 0.25) (set_objs trained Sample.resuming_trainer).

Definition checkpoint7 : CheckpointRecord :=
  {| ck_g_arch := "Generator"; ck_d_arch := "Discriminator"; ck_epoch := 7;
     ck_generator_state_dict := 11; ck_discriminator_state_dict := 12;
     ck_g_optimizer := 13; ck_d_optimizer := 14;
     ck_monitor_best := Py.Float 0.25; ck_config := Sample.resumed_config;
     ck_d_lr_scheduler := Some 16; ck_g_lr_scheduler := Some 15 |}.

(** A trainer with the recorded configuration and no generator scheduler. *)
Definition bare_trainer : trainer :=
  let t := Sample.a_trainer Sample.recorded_config "min" "loss" Py.inf (Py.Int 2) in
  set_objs (set_g_lr_scheduler None (objs t)) t.

End Runs.


(** ** Properties *)

Section Properties.

Variable _train_epoch : Z -> objects -> epoch_outcome.
Variable torch_load : string -> option CheckpointRecord.

(** *** Python comparisons *)

Lemma gt_int_inf (n : Z) : Py.gt (Py.Int n) Py.inf = false.
Proof. reflexivity. Qed.

Lemma lt_le (x : Py.num) (b : Z) :
  Py.lt x (Py.Int b) = true -> Py.le x (Py.Int b) = true.
Proof.
  destruct x as [a|f]; simpl.
  - intros H. apply Z.ltb_lt in H. apply Z.leb_le. lia.
  - destruct (Py.compare_int_float b f) as [[]|]; congruence.
Qed.

(** [n > x] stays true when the integer [n] grows. *)
Lemma gt_int_mono (a b : Z) (x : Py.num) :
  a <= b -> Py.gt (Py.Int a) x = true -> Py.gt (Py.Int b) x = true.
Proof.
  intros Hab. unfold Py.gt. destruct x as [c|f]; simpl.
  - intros H. apply Z.ltb_lt in H. apply Z.ltb_lt. lia.
  - unfold Py.compare_int_float.
    destruct (Prim2SF f) as [s|s| |s m e]; try congruence.
    + destruct (a ?= 0) eqn:Ha; try congruence. intros _.
      apply Z.compare_gt_iff in Ha.
      assert (Hb : (b ?= 0) = Gt) by (apply Z.compare_gt_iff; lia).
      now rewrite Hb.
    + destruct (0 <=? e) eqn:He.
      * set (r := (if s then Z.neg m else Z.pos m) * 2 ^ e).
        destruct (a ?= r) eqn:Ha; try congruence. intros _.
        apply Z.compare_gt_iff in Ha.
        assert (Hb : (b ?= r) = Gt) by (apply Z.compare_gt_iff; lia).
        now rewrite Hb.
      * set (r := if s then Z.neg m else Z.pos m).
        destruct (a * 2 ^ (- e) ?= r) eqn:Ha; try congruence. intros _.
        apply Z.compare_gt_iff in Ha.
        assert (Hp : 0 < 2 ^ (- e)) by (apply Z.pow_pos_nonneg; lia).
        assert (Hb : (b * 2 ^ (- e) ?= r) = Gt).
        { apply Z.compare_gt_iff. nia. }
        now rewrite Hb.
Qed.

(** *** The log dictionary *)

Lemma make_log_result (epoch : Z) (result : EpochResult) (k : string) (v : Py.num) :
  result !! k = Some v -> make_log epoch result !! k = Some v.
Proof. intros H. unfold make_log. by apply lookup_union_Some_l. Qed.

Lemma make_log_other (epoch : Z) (result : EpochResult) (k : string) :
  result !! k = None -> k <> "epoch" -> make_log epoch result !! k = None.
Proof.
  intros H Hk. unfold make_log. apply lookup_union_None. split; [done|].
  by apply lookup_singleton_ne.
Qed.

Lemma make_log_epoch (epoch : Z) (result : EpochResult) :
  result !! "epoch" = None -> make_log epoch result !! "epoch" = Some (Py.Int epoch).
Proof.
  intros H. unfold make_log. rewrite lookup_union_r by done.
  apply lookup_singleton_eq.
Qed.

(** *** The monitoring policy, one epoch *)

(** Case analysis over every test made by [monitor]. *)
Ltac monitor_cases t log :=
  unfold monitor, check_improved;
  destruct (String.eqb (mnt_mode t) "min") eqn:?Hmin;
  [| destruct (String.eqb (mnt_mode t) "max") eqn:?Hmax];
  (destruct (log !! mnt_metric t) as [?v|] eqn:?Hlog; simpl;
   rewrite ?Hlog; simpl);
  repeat match goal with
         | |- context [if Py.le ?a ?b then _ else _] =>
             destruct (Py.le a b) eqn:?Hle; simpl; rewrite ?Hlog; simpl
         | |- context [if Py.ge ?a ?b then _ else _] =>
             destruct (Py.ge a b) eqn:?Hge; simpl; rewrite ?Hlog; simpl
         | |- context [if Py.gt ?a ?b then _ else _] =>
             destruct (Py.gt a b) eqn:?Hgt; simpl
         end.

(** The lookup of line 124 cannot fail: [monitor] raises nothing. *)
Lemma monitor_flow (t : trainer) (cnt : Z) (log : gmap string Py.num) :
  st_flow (fst (monitor t cnt log)) =
    if Py.gt (Py.Int (st_count (fst (monitor t cnt log)))) (early_stop t)
    then Break else Continue.
Proof. monitor_cases t log; try reflexivity; congruence. Qed.


(** [monitor] writes [mnt_mode] and [mnt_best] only. *)
Lemma monitor_frame (t : trainer) (cnt : Z) (log : gmap string Py.num) :
  let t' := st_trainer (fst (monitor t cnt log)) in
  early_stop t' = early_stop t /\ objs t' = objs t /\ config t' = config t /\
  epochs t' = epochs t /\ save_period t' = save_period t /\
  start_epoch t' = start_epoch t /\ checkpoint_dir t' = checkpoint_dir t /\
  mnt_metric t' = mnt_metric t /\ _last_epoch t' = _last_epoch t.
Proof. monitor_cases t log; repeat split; reflexivity. Qed.

Lemma monitor_found_min (t : trainer) (cnt : Z) (log : gmap string Py.num) (v : Py.num) :
  mnt_mode t = "min" -> log !! mnt_metric t = Some v ->
  snd (monitor t cnt log) = Py.le v (mnt_best t) /\
  st_trainer (fst (monitor t cnt log)) =
    (if Py.le v (mnt_best t) then set_mnt_best v t else t) /\
  st_count (fst (monitor t cnt log)) =
    (if Py.le v (mnt_best t) then 0 else cnt + 1) /\
  warnings (st_events (fst (monitor t cnt log))) = [].
Proof.
  intros Hm Hv. monitor_cases t log; rewrite Hm in *; simplify_eq;
    try congruence; rewrite ?Hle; repeat split; reflexivity.
Qed.

Lemma monitor_found_max (t : trainer) (cnt : Z) (log : gmap string Py.num) (v : Py.num) :
  mnt_mode t = "max" -> log !! mnt_metric t = Some v ->
  snd (monitor t cnt log) = Py.ge v (mnt_best t) /\
  st_trainer (fst (monitor t cnt log)) =
    (if Py.ge v (mnt_best t) then set_mnt_best v t else t) /\
  st_count (fst (monitor t cnt log)) =
    (if Py.ge v (mnt_best t) then 0 else cnt + 1) /\
  warnings (st_events (fst (monitor t cnt log))) = [].
Proof.
  intros Hm Hv. monitor_cases t log; rewrite Hm in *; simplify_eq;
    try congruence; rewrite ?Hge; repeat split; reflexivity.
Qed.

Lemma monitor_missing (t : trainer) (cnt : Z) (log : gmap string Py.num) :
  mnt_mode t = "min" \/ mnt_mode t = "max" -> log !! mnt_metric t = None ->
  snd (monitor t cnt log) = false /\
  st_trainer (fst (monitor t cnt log)) = set_mnt_mode "off" t /\
  st_count (fst (monitor t cnt log)) = cnt + 1 /\
  warnings (st_events (fst (monitor t cnt log))) =
    [MsgMetricNotFound (mnt_metric t)].
Proof.
  intros [Hm|Hm] Hv; monitor_cases t log; rewrite Hm in *; simplify_eq;
    try congruence; repeat split; reflexivity.
Qed.

(** The counter is reset or advanced by one. *)
Lemma monitor_count (t : trainer) (cnt : Z) (log : gmap string Py.num) :
  st_count (fst (monitor t cnt log)) = 0 \/
  st_count (fst (monitor t cnt log)) = cnt + 1.
Proof. monitor_cases t log; auto. Qed.

Lemma monitor_no_save (t : trainer) (cnt : Z) (log : gmap string Py.num) :
  saved_epochs (st_events (fst (monitor t cnt log))) = [].
Proof. monitor_cases t log; reflexivity. Qed.

(** The counter decides the early stop and nothing else. *)
Lemma monitor_count_free (t : trainer) (c1 c2 : Z) (log : gmap string Py.num) :
  st_trainer (fst (monitor t c1 log)) = st_trainer (fst (monitor t c2 log)) /\
  snd (monitor t c1 log) = snd (monitor t c2 log) /\
  warnings (st_events (fst (monitor t c1 log))) =
    warnings (st_events (fst (monitor t c2 log))).
Proof.
  unfold monitor, check_improved;
  destruct (String.eqb (mnt_mode t) "min");
  [| destruct (String.eqb (mnt_mode t) "max")];
  (destruct (log !! mnt_metric t) as [v|] eqn:Hlog; simpl; rewrite ?Hlog; simpl);
  repeat match goal with
         | |- context [if ?b then _ else _] => destruct b; simpl; rewrite ?Hlog; simpl
         end;
  repeat split; reflexivity.
Qed.


(** *** The loop body *)

Lemma saved_epochs_app (l1 l2 : list event) :
  saved_epochs (l1 ++ l2) = saved_epochs l1 ++ saved_epochs l2.
Proof. apply omap_app. Qed.

Lemma warnings_app (l1 l2 : list event) :
  warnings (l1 ++ l2) = warnings l1 ++ warnings l2.
Proof. apply omap_app. Qed.

Lemma log_lines_no_save (log : gmap string Py.num) :
  saved_epochs (log_lines log) = [].
Proof.
  unfold log_lines, saved_epochs.
  induction (map_to_list log) as [|kv l IH]; [reflexivity | exact IH].
Qed.

Lemma log_lines_no_warning (log : gmap string Py.num) :
  warnings (log_lines log) = [].
Proof.
  unfold log_lines, warnings.
  induction (map_to_list log) as [|kv l IH]; [reflexivity | exact IH].
Qed.

Lemma save_checkpoint_epochs (t : trainer) (epoch : Z) (b1 b2 : bool) :
  saved_epochs (_save_checkpoint t epoch b1 b2) = [epoch].
Proof. reflexivity. Qed.

Lemma loop_body_interrupted (t : trainer) (cnt epoch : Z) (o : objects) :
  _train_epoch epoch (objs t) = Interrupted o ->
  loop_body _train_epoch t cnt epoch =
    {| st_trainer := set_objs o (set_last_epoch epoch t); st_count := cnt;
       st_flow := Raise KeyboardInterrupt; st_events := [] |}.
Proof. intros H. unfold loop_body. simpl. rewrite H. reflexivity. Qed.

Lemma loop_body_off (t : trainer) (cnt epoch : Z) (result : EpochResult) (o : objects) :
  _train_epoch epoch (objs t) = Returned result o ->
  mnt_mode t = "off" ->
  loop_body _train_epoch t cnt epoch =
    save_if_due (set_objs o (set_last_epoch epoch t)) cnt epoch false
      (log_lines (make_log epoch result)).
Proof.
  intros H Hoff. unfold loop_body. simpl. rewrite H. simpl. rewrite Hoff.
  reflexivity.
Qed.

Lemma loop_body_on (t : trainer) (cnt epoch : Z) (result : EpochResult) (o : objects) :
  _train_epoch epoch (objs t) = Returned result o ->
  mnt_mode t <> "off" ->
  let m := monitor (set_objs o (set_last_epoch epoch t)) cnt
             (make_log epoch result) in
  loop_body _train_epoch t cnt epoch =
    match st_flow (fst m) with
    | Continue =>
        save_if_due (st_trainer (fst m)) (st_count (fst m)) epoch (snd m)
          (log_lines (make_log epoch result) ++ st_events (fst m))
    | _ =>
        {| st_trainer := st_trainer (fst m); st_count := st_count (fst m);
           st_flow := st_flow (fst m);
           st_events := log_lines (make_log epoch result) ++ st_events (fst m) |}
    end.
Proof.
  intros H Hon. unfold loop_body. simpl. rewrite H. simpl.
  apply String.eqb_neq in Hon. rewrite Hon. simpl.
  destruct (monitor _ _ _) as [m best]. reflexivity.
Qed.

(** [save_if_due] leaves the trainer and the counter alone. *)
Lemma save_if_due_frame (t : trainer) (cnt epoch : Z) (best : bool) (evs : list event) :
  st_trainer (save_if_due t cnt epoch best evs) = t /\
  st_count (save_if_due t cnt epoch best evs) = cnt /\
  st_flow (save_if_due t cnt epoch best evs) <> Break /\
  warnings (st_events (save_if_due t cnt epoch best evs)) = warnings evs.
Proof.
  unfold save_if_due.
  destruct (save_period t =? 0); [|destruct ((epoch mod save_period t =? 0) || best)];
    simpl; repeat split; try discriminate.
  rewrite warnings_app. simpl. apply app_nil_r.
Qed.

Lemma save_if_due_epochs (t : trainer) (cnt epoch : Z) (best : bool) (evs : list event) :
  st_flow (save_if_due t cnt epoch best evs) = Continue ->
  saved_epochs (st_events (save_if_due t cnt epoch best evs)) =
    saved_epochs evs ++
    (if (epoch mod save_period t =? 0) || best then [epoch] else []).
Proof.
  unfold save_if_due.
  destruct (save_period t =? 0); [discriminate|].
  destruct ((epoch mod save_period t =? 0) || best); simpl; intros _.
  - by rewrite saved_epochs_app.
  - by rewrite app_nil_r.
Qed.

(** The monitored fields and the counter after one epoch in which the
    metric was reported. *)
Lemma loop_body_found (t : trainer) (cnt epoch : Z) (result : EpochResult)
    (o : objects) (v : Py.num) (improved : bool) :
  _train_epoch epoch (objs t) = Returned result o ->
  result !! mnt_metric t = Some v ->
  (mnt_mode t = "min" /\ improved = Py.le v (mnt_best t)) \/
  (mnt_mode t = "max" /\ improved = Py.ge v (mnt_best t)) ->
  marked_best _train_epoch t cnt epoch = improved /\
  mnt_best (st_trainer (loop_body _train_epoch t cnt epoch)) =
    (if improved then v else mnt_best t) /\
  st_count (loop_body _train_epoch t cnt epoch) =
    (if improved then 0 else cnt + 1).
Proof.
  intros Hhook Hv Hmode.
  assert (Hon : mnt_mode t <> "off") by (destruct Hmode as [[-> _]|[-> _]]; discriminate).
  set (T := set_objs o (set_last_epoch epoch t)).
  assert (Hlog : make_log epoch result !! mnt_metric T = Some v)
    by (apply make_log_result; exact Hv).
  assert (Hm : snd (monitor T cnt (make_log epoch result)) = improved /\
               st_trainer (fst (monitor T cnt (make_log epoch result))) =
                 (if improved then set_mnt_best v T else T) /\
               st_count (fst (monitor T cnt (make_log epoch result))) =
                 (if improved then 0 else cnt + 1)).
  { destruct Hmode as [[Hmin ->]|[Hmax ->]].
    - destruct (monitor_found_min T cnt _ v Hmin Hlog) as (H1 & H2 & H3 & _). auto.
    - destruct (monitor_found_max T cnt _ v Hmax Hlog) as (H1 & H2 & H3 & _). auto. }
  destruct Hm as (Hb & Ht & Hc).
  split.
  { unfold marked_best. rewrite Hhook. apply String.eqb_neq in Hon.
    rewrite Hon. simpl. exact Hb. }
  rewrite (loop_body_on t cnt epoch result o Hhook Hon). fold T.
  destruct (st_flow (fst (monitor T cnt (make_log epoch result)))); simpl.
  - destruct (save_if_due_frame (st_trainer (fst (monitor T cnt (make_log epoch result))))
               (st_count (fst (monitor T cnt (make_log epoch result)))) epoch
               (snd (monitor T cnt (make_log epoch result)))
               (log_lines (make_log epoch result) ++
                st_events (fst (monitor T cnt (make_log epoch result)))))
      as (-> & -> & _).
    rewrite Ht, Hc. destruct improved; split; reflexivity.
  - rewrite Ht, Hc. destruct improved; split; reflexivity.
  - rewrite Ht, Hc. destruct improved; split; reflexivity.
Qed.


(** *** C1: the improvement test *)

(** C1. In an epoch whose result holds the monitored metric, with value [v]:
    in mode "min" the epoch is marked best iff [v <= mnt_best], in mode
    "max" iff [v >= mnt_best]; when it is, [mnt_best] becomes [v] and the
    not-improved counter becomes 0; when it is not, [mnt_best] stays and
    the counter grows by one. In mode "min", three epochs reporting 2.0
    leave the counter at 0 after the first, the second and the third. *)
Theorem C1_improved_iff_not_worse :
  (forall (t : trainer) (cnt epoch : Z) (result : EpochResult) (o : objects)
          (v : Py.num),
     _train_epoch epoch (objs t) = Returned result o ->
     result !! mnt_metric t = Some v ->
     let s := loop_body _train_epoch t cnt epoch in
     (mnt_mode t = "min" ->
        marked_best _train_epoch t cnt epoch = Py.le v (mnt_best t) /\
        mnt_best (st_trainer s) = (if Py.le v (mnt_best t) then v else mnt_best t) /\
        st_count s = (if Py.le v (mnt_best t) then 0 else cnt + 1)) /\
     (mnt_mode t = "max" ->
        marked_best _train_epoch t cnt epoch = Py.ge v (mnt_best t) /\
        mnt_best (st_trainer s) = (if Py.ge v (mnt_best t) then v else mnt_best t) /\
        st_count s = (if Py.ge v (mnt_best t) then 0 else cnt + 1))) /\
  (let count_after (n : Z) :=
     (fun t => st_count (train (Sample.constant_loss (Py.Float 2)) t))
       <$> Sample.fresh Sample.no_files (Sample.min_loss_config n 1) in
   count_after 1 = Some 0 /\ count_after 2 = Some 0 /\ count_after 3 = Some 0).
Proof.
  split.
  - intros t cnt epoch result o v Hhook Hv s. subst s. split; intros Hm.
    + apply (loop_body_found t cnt epoch result o v _ Hhook Hv). left. auto.
    + apply (loop_body_found t cnt epoch result o v _ Hhook Hv). right. auto.
  - vm_compute. repeat split; reflexivity.
Qed.


(** *** The loop body, all cases *)

(** Split on what the hook did and on whether monitoring is on. *)
Ltac loop_cases t cnt epoch :=
  let result := fresh "result" in
  let o := fresh "o" in
  let Hhook := fresh "Hhook" in
  let Hoff := fresh "Hoff" in
  destruct (_train_epoch epoch (objs t)) as [result o|o] eqn:Hhook;
  [ destruct (String.eqb (mnt_mode t) "off") eqn:Hoff;
    [ apply String.eqb_eq in Hoff;
      rewrite (loop_body_off t cnt epoch result o Hhook Hoff)
    | apply String.eqb_neq in Hoff;
      rewrite (loop_body_on t cnt epoch result o Hhook Hoff) ]
  | rewrite (loop_body_interrupted t cnt epoch o Hhook) ].

(** The loop body writes [_last_epoch], the objects, [mnt_mode] and
    [mnt_best] only. *)
Lemma loop_body_frame (t : trainer) (cnt epoch : Z) :
  let t' := st_trainer (loop_body _train_epoch t cnt epoch) in
  early_stop t' = early_stop t /\ config t' = config t /\
  epochs t' = epochs t /\ save_period t' = save_period t /\
  start_epoch t' = start_epoch t /\ checkpoint_dir t' = checkpoint_dir t /\
  mnt_metric t' = mnt_metric t /\ _last_epoch t' = epoch.
Proof.
  loop_cases t cnt epoch.
  - destruct (save_if_due_frame (set_objs o (set_last_epoch epoch t)) cnt epoch
                false (log_lines (make_log epoch result))) as (H & _).
    simpl. rewrite H. simpl. repeat split; reflexivity.
  - pose proof (monitor_frame (set_objs o (set_last_epoch epoch t)) cnt
                  (make_log epoch result)) as Hf.
    simpl in Hf. destruct Hf as (H1 & _ & H3 & H4 & H5 & H6 & H7 & H8 & H9).
    simpl. destruct (st_flow _); simpl;
      [match goal with
       | |- context [save_if_due ?a ?b ?c ?d ?e] =>
           destruct (save_if_due_frame a b c d e) as (-> & _)
       end|..]; repeat split; assumption.
  - simpl. repeat split; reflexivity.
Qed.

(** With monitoring off an epoch changes neither [mnt_best] nor the
    counter, logs no warning and does not stop the loop. *)
Lemma loop_body_unmonitored (t : trainer) (cnt epoch : Z) :
  mnt_mode t = "off" ->
  let s := loop_body _train_epoch t cnt epoch in
  mnt_mode (st_trainer s) = "off" /\ mnt_best (st_trainer s) = mnt_best t /\
  st_count s = cnt /\ st_flow s <> Break /\ warnings (st_events s) = [].
Proof.
  intros Hm. loop_cases t cnt epoch.
  - destruct (save_if_due_frame (set_objs o (set_last_epoch epoch t)) cnt epoch
                false (log_lines (make_log epoch result))) as (H1 & H2 & H3 & H4).
    simpl. rewrite H1, H2, H4, log_lines_no_warning. simpl. auto.
  - contradiction.
  - simpl. repeat split; [assumption | discriminate].
Qed.

(** The counter after an epoch: untouched, reset, or advanced by one. *)
Lemma loop_body_count (t : trainer) (cnt epoch : Z) :
  let s := loop_body _train_epoch t cnt epoch in
  st_count s = cnt \/ st_count s = 0 \/ st_count s = cnt + 1.
Proof.
  loop_cases t cnt epoch; simpl.
  - left. apply save_if_due_frame.
  - right.
    destruct (st_flow _); simpl;
      [match goal with
       | |- context [save_if_due ?a ?b ?c ?d ?e] =>
           destruct (save_if_due_frame a b c d e) as (_ & -> & _)
       end|..]; apply monitor_count.
  - left. reflexivity.
Qed.

(** The loop is left by [break] exactly in a monitored epoch after which
    the counter exceeds the patience. *)
Lemma loop_body_break (t : trainer) (cnt epoch : Z) :
  let s := loop_body _train_epoch t cnt epoch in
  st_flow s = Break <->
  (exists result o, _train_epoch epoch (objs t) = Returned result o) /\
  mnt_mode t <> "off" /\
  Py.gt (Py.Int (st_count s)) (early_stop t) = true.
Proof.
  loop_cases t cnt epoch; simpl.
  - split.
    + intros H. exfalso. revert H. apply save_if_due_frame.
    + intros (_ & H & _). contradiction.
  - pose proof (monitor_flow (set_objs o (set_last_epoch epoch t)) cnt
                  (make_log epoch result)) as Hflow. simpl in Hflow.
    destruct (Py.gt _ _) eqn:Hgt; rewrite Hflow; simpl.
    + rewrite Hgt. split; [intros _|reflexivity].
      split; [eauto|]. split; [assumption|reflexivity].
    + match goal with
      | |- context [save_if_due ?a ?b ?c ?d ?e] =>
          destruct (save_if_due_frame a b c d e) as (_ & Hc & Hb & _)
      end.
      rewrite Hc, Hgt. split; [intros H; contradiction|].
      intros (_ & _ & H). discriminate.
  - split; [discriminate|]. intros ((r & o' & H) & _). discriminate.
Qed.

(** When the loop goes on, a counter above the patience was above it
    before the epoch (which then ran with monitoring off). *)
Lemma loop_body_continue (t : trainer) (cnt epoch : Z) :
  let s := loop_body _train_epoch t cnt epoch in
  st_flow s = Continue ->
  Py.gt (Py.Int (st_count s)) (early_stop t) = true ->
  Py.gt (Py.Int cnt) (early_stop t) = true.
Proof.
  loop_cases t cnt epoch; simpl.
  - destruct (save_if_due_frame (set_objs o (set_last_epoch epoch t)) cnt epoch
                false (log_lines (make_log epoch result))) as (_ & -> & _).
    auto.
  - pose proof (monitor_flow (set_objs o (set_last_epoch epoch t)) cnt
                  (make_log epoch result)) as Hflow. simpl in Hflow.
    destruct (Py.gt _ _) eqn:Hgt; rewrite Hflow; simpl.
    + discriminate.
    + match goal with
      | |- context [save_if_due ?a ?b ?c ?d ?e] =>
          destruct (save_if_due_frame a b c d e) as (_ & Hc & _)
      end.
      rewrite Hc, Hgt. discriminate.
  - discriminate.
Qed.

(** The checkpoints an epoch writes. *)
Lemma loop_body_saved (t : trainer) (cnt epoch : Z) :
  let s := loop_body _train_epoch t cnt epoch in
  (st_flow s = Continue ->
   saved_epochs (st_events s) =
     if (epoch mod save_period t =? 0) || marked_best _train_epoch t cnt epoch
     then [epoch] else []) /\
  (st_flow s <> Continue -> saved_epochs (st_events s) = []).
Proof.
  unfold marked_best. loop_cases t cnt epoch; simpl.
  - split.
    + intros H. rewrite (save_if_due_epochs _ _ _ _ _ H), log_lines_no_save.
      reflexivity.
    + unfold save_if_due. simpl.
      destruct (save_period t =? 0); [intros _; apply log_lines_no_save|].
      destruct (_ || _); simpl; intros H; contradiction.
  - pose proof (monitor_frame (set_objs o (set_last_epoch epoch t)) cnt
                  (make_log epoch result)) as Hf.
    simpl in Hf. destruct Hf as (_ & _ & _ & _ & Hsp & _).
    pose proof (monitor_no_save (set_objs o (set_last_epoch epoch t)) cnt
                  (make_log epoch result)) as Hns.
    destruct (st_flow (fst _)) eqn:Hfl; simpl.
    + split.
      * intros H. rewrite (save_if_due_epochs _ _ _ _ _ H), saved_epochs_app,
          log_lines_no_save, Hns, Hsp. reflexivity.
      * unfold save_if_due. rewrite Hsp.
        destruct (save_period t =? 0);
          [intros _; simpl; by rewrite saved_epochs_app, log_lines_no_save, Hns|].
        destruct (_ || _); simpl; intros H; contradiction.
    + split; [discriminate|]. intros _.
      by rewrite saved_epochs_app, log_lines_no_save, Hns.
    + split; [discriminate|]. intros _.
      by rewrite saved_epochs_app, log_lines_no_save, Hns.
  - split; [discriminate|reflexivity].
Qed.


(** *** The loop *)

Lemma for_epochs_app (es1 es2 : list Z) (t : trainer) (cnt : Z) :
  for_epochs _train_epoch (es1 ++ es2) t cnt =
    let s := for_epochs _train_epoch es1 t cnt in
    match st_flow s with
    | Continue =>
        let s' := for_epochs _train_epoch es2 (st_trainer s) (st_count s) in
        {| st_trainer := st_trainer s'; st_count := st_count s';
           st_flow := st_flow s'; st_events := st_events s ++ st_events s' |}
    | _ => s
    end.
Proof.
  revert t cnt. induction es1 as [|e es1 IH]; intros t cnt; simpl.
  - destruct (for_epochs _train_epoch es2 t cnt); reflexivity.
  - destruct (st_flow (loop_body _train_epoch t cnt e)) eqn:Hfl; simpl;
      rewrite ?Hfl; try reflexivity.
    rewrite IH. simpl.
    destruct (st_flow (for_epochs _train_epoch es1 _ _)) eqn:Hfl1; simpl;
      rewrite ?Hfl1, ?app_assoc; reflexivity.
Qed.

Lemma for_epochs_frame (es : list Z) (t : trainer) (cnt : Z) :
  let t' := st_trainer (for_epochs _train_epoch es t cnt) in
  early_stop t' = early_stop t /\ config t' = config t /\
  epochs t' = epochs t /\ save_period t' = save_period t /\
  start_epoch t' = start_epoch t /\ checkpoint_dir t' = checkpoint_dir t /\
  mnt_metric t' = mnt_metric t.
Proof.
  revert t cnt. induction es as [|e es IH]; intros t cnt; simpl.
  - repeat split; reflexivity.
  - pose proof (loop_body_frame t cnt e) as Hb. simpl in Hb.
    destruct Hb as (H1 & H2 & H3 & H4 & H5 & H6 & H7 & _).
    destruct (st_flow (loop_body _train_epoch t cnt e)); simpl;
      [|repeat split; assumption..].
    specialize (IH (st_trainer (loop_body _train_epoch t cnt e))
                  (st_count (loop_body _train_epoch t cnt e))).
    simpl in IH. destruct IH as (I1 & I2 & I3 & I4 & I5 & I6 & I7).
    repeat split; congruence.
Qed.

(** Once monitoring is off it stays off: later epochs leave [mnt_best] and
    the counter as they are, log no warning and never stop the loop. *)
Lemma for_epochs_unmonitored (es : list Z) (t : trainer) (cnt : Z) :
  mnt_mode t = "off" ->
  let r := for_epochs _train_epoch es t cnt in
  mnt_mode (st_trainer r) = "off" /\ mnt_best (st_trainer r) = mnt_best t /\
  st_count r = cnt /\ st_flow r <> Break /\ warnings (st_events r) = [].
Proof.
  revert t cnt. induction es as [|e es IH]; intros t cnt Hm; simpl.
  - repeat split; [assumption | discriminate].
  - destruct (loop_body_unmonitored t cnt e Hm) as (H1 & H2 & H3 & H4 & H5).
    destruct (st_flow (loop_body _train_epoch t cnt e)) eqn:Hfl; simpl;
      [|repeat split; congruence..].
    destruct (IH _ (st_count (loop_body _train_epoch t cnt e)) H1)
      as (I1 & I2 & I3 & I4 & I5).
    rewrite warnings_app, H5, I5. repeat split; congruence.
Qed.

(** The loop stops early only with the counter above the patience, and runs
    to the end only with the counter not above it (unless it started so). *)
Lemma for_epochs_patience (es : list Z) (t : trainer) (cnt : Z) :
  let r := for_epochs _train_epoch es t cnt in
  (st_flow r = Break -> Py.gt (Py.Int (st_count r)) (early_stop t) = true) /\
  (st_flow r = Continue ->
   Py.gt (Py.Int (st_count r)) (early_stop t) = true ->
   Py.gt (Py.Int cnt) (early_stop t) = true).
Proof.
  revert t cnt. induction es as [|e es IH]; intros t cnt; simpl.
  - split; [discriminate | auto].
  - pose proof (loop_body_break t cnt e) as Hb. simpl in Hb.
    pose proof (loop_body_continue t cnt e) as Hc. simpl in Hc.
    pose proof (loop_body_frame t cnt e) as Hf. simpl in Hf.
    destruct Hf as (Hes & _).
    destruct (st_flow (loop_body _train_epoch t cnt e)) eqn:Hfl; simpl.
    + destruct (IH (st_trainer (loop_body _train_epoch t cnt e))
                  (st_count (loop_body _train_epoch t cnt e))) as (I1 & I2).
      rewrite Hes in I1, I2. split; [exact I1|].
      intros H1 H2. apply Hc; [reflexivity|]. apply I2; assumption.
    + rewrite Hfl. split; [intros _|discriminate]. apply Hb. reflexivity.
    + rewrite Hfl. split; discriminate.
Qed.

(** When the loop is left before the end, it is in some epoch of the
    list, the last one attempted, and the counter is at most what it was
    at the start plus the number of epochs attempted. *)
Lemma for_epochs_left (es : list Z) (t : trainer) (cnt : Z) :
  let r := for_epochs _train_epoch es t cnt in
  st_flow r <> Continue ->
  exists pre e post,
    es = pre ++ e :: post /\ _last_epoch (st_trainer r) = e /\
    st_count r <= Z.max 0 cnt + Z.of_nat (length pre) + 1.
Proof.
  revert t cnt. induction es as [|e es IH]; intros t cnt; simpl.
  - intros H. contradiction.
  - pose proof (loop_body_frame t cnt e) as Hf. simpl in Hf.
    destruct Hf as (_ & _ & _ & _ & _ & _ & _ & Hlast).
    pose proof (loop_body_count t cnt e) as Hcnt. simpl in Hcnt.
    destruct (st_flow (loop_body _train_epoch t cnt e)) eqn:Hfl; simpl.
    + intros H. destruct (IH _ _ H) as (pre & e' & post & -> & Hl & Hc).
      exists (e :: pre), e', post. split; [reflexivity|]. split; [exact Hl|].
      simpl length. lia.
    + intros _. exists [], e, es. split; [reflexivity|]. split; [exact Hlast|].
      simpl. lia.
    + intros _. exists [], e, es. split; [reflexivity|]. split; [exact Hlast|].
      simpl. lia.
Qed.

(** Every checkpoint written by the loop is for an epoch of the list. *)
Lemma for_epochs_saved (es : list Z) (t : trainer) (cnt : Z) (k : Z) :
  k ∈ saved_epochs (st_events (for_epochs _train_epoch es t cnt)) -> k ∈ es.
Proof.
  revert t cnt. induction es as [|e es IH]; intros t cnt; simpl.
  - intros H. inversion H.
  - pose proof (loop_body_saved t cnt e) as (Hs1 & Hs2).
    assert (Hone : k ∈ saved_epochs (st_events (loop_body _train_epoch t cnt e)) ->
                   k = e).
    { destruct (st_flow (loop_body _train_epoch t cnt e)) eqn:Hfl.
      - rewrite (Hs1 eq_refl). destruct (_ || _); intros H.
        + by apply list_elem_of_singleton in H.
        + inversion H.
      - rewrite Hs2 by discriminate. intros H. inversion H.
      - rewrite Hs2 by discriminate. intros H. inversion H. }
    destruct (st_flow (loop_body _train_epoch t cnt e)) eqn:Hfl; simpl.
    + rewrite saved_epochs_app, elem_of_app. intros [H|H].
      * rewrite (Hone H). apply list_elem_of_here.
      * apply list_elem_of_further. eapply IH. exact H.
    + intros H. rewrite (Hone H). apply list_elem_of_here.
    + intros H. rewrite (Hone H). apply list_elem_of_here.
Qed.


(** *** Construction and resume: what they leave alone *)

Lemma init_monitor_patience (cfg : trainer_config) (mode metric : string)
    (best patience : Py.num) :
  init_monitor cfg = inr (mode, metric, best, patience) ->
  Py.gt (Py.Int 0) patience = false /\
  (forall v, cfg_early_stop cfg = Some v -> Py.le v (Py.Int 0) = true ->
             patience = Py.inf).
Proof.
  unfold init_monitor.
  destruct (String.eqb (default "off" (cfg_monitor cfg)) "off").
  { intros H. inversion H. split; [reflexivity | auto]. }
  destruct (Py.split (default "off" (cfg_monitor cfg))) as [|a [|b [|? ?]]];
    try discriminate.
  destruct (String.eqb a "min" || String.eqb a "max"); [|discriminate].
  destruct (cfg_early_stop cfg) as [v|]; simpl.
  - destruct (Py.le v (Py.Int 0)) eqn:Hle; intros H; inversion H; subst.
    + split; [reflexivity | auto].
    + split.
      * destruct (Py.gt (Py.Int 0) patience) eqn:Hgt; [|reflexivity].
        apply lt_le in Hgt. congruence.
      * intros v' Hv' Hle'. inversion Hv'. congruence.
  - intros H. inversion H. split; [reflexivity | discriminate].
Qed.

(** The blocks of resume, one by one. *)
Ltac resume_block_cases :=
  repeat match goal with
         | |- context [if ?b then _ else _] => destruct b; simpl
         | |- context [match ?x with Some _ => _ | None => _ end] =>
             destruct x; simpl
         end.

Lemma resume_networks_after (t : trainer) (checkpoint : CheckpointRecord) :
  let t' := after (resume_networks t checkpoint) in
  start_epoch t' = ck_epoch checkpoint + 1 /\
  mnt_best t' = ck_monitor_best checkpoint /\
  parameters (generator (objs t')) = ck_generator_state_dict checkpoint /\
  parameters (discriminator (objs t')) = ck_discriminator_state_dict checkpoint /\
  g_optimizer (objs t') = g_optimizer (objs t) /\
  d_optimizer (objs t') = d_optimizer (objs t) /\
  g_lr_scheduler (objs t') = g_lr_scheduler (objs t) /\
  d_lr_scheduler (objs t') = d_lr_scheduler (objs t).
Proof. repeat split; reflexivity. Qed.

Lemma resume_networks_fields (t : trainer) (checkpoint : CheckpointRecord) :
  let t' := after (resume_networks t checkpoint) in
  early_stop t' = early_stop t /\ config t' = config t /\
  epochs t' = epochs t /\ save_period t' = save_period t /\
  mnt_mode t' = mnt_mode t /\ mnt_metric t' = mnt_metric t /\
  checkpoint_dir t' = checkpoint_dir t /\ _last_epoch t' = _last_epoch t.
Proof. repeat split; reflexivity. Qed.

Lemma resume_g_optimizer_fields (t : trainer) (checkpoint : CheckpointRecord) :
  let t' := after (resume_g_optimizer t checkpoint) in
  early_stop t' = early_stop t /\ config t' = config t /\
  epochs t' = epochs t /\ save_period t' = save_period t /\
  mnt_mode t' = mnt_mode t /\ mnt_metric t' = mnt_metric t /\
  checkpoint_dir t' = checkpoint_dir t /\ _last_epoch t' = _last_epoch t /\
  start_epoch t' = start_epoch t /\ mnt_best t' = mnt_best t.
Proof.
  unfold resume_g_optimizer. resume_block_cases; repeat split; reflexivity.
Qed.

Lemma resume_d_optimizer_fields (t : trainer) (checkpoint : CheckpointRecord) :
  let t' := after (resume_d_optimizer t checkpoint) in
  early_stop t' = early_stop t /\ config t' = config t /\
  epochs t' = epochs t /\ save_period t' = save_period t /\
  mnt_mode t' = mnt_mode t /\ mnt_metric t' = mnt_metric t /\
  checkpoint_dir t' = checkpoint_dir t /\ _last_epoch t' = _last_epoch t /\
  start_epoch t' = start_epoch t /\ mnt_best t' = mnt_best t.
Proof.
  unfold resume_d_optimizer. resume_block_cases; repeat split; reflexivity.
Qed.

(** The trainer resume leaves is the one left by the last block reached. *)
Lemma resume_from_after (t : trainer) (checkpoint : CheckpointRecord) :
  let g := resume_g_optimizer (after (resume_networks t checkpoint)) checkpoint in
  after (resume_from t checkpoint) =
    match raised g with
    | Some _ => after g
    | None => after (resume_d_optimizer (after g) checkpoint)
    end.
Proof.
  intros g. unfold resume_from. cbv zeta. fold g.
  destruct (raised g); [reflexivity|].
  destruct (raised (resume_d_optimizer (after g) checkpoint)); reflexivity.
Qed.

(** Resume writes [start_epoch], [mnt_best] and the objects only. *)
Lemma resume_from_frame (t : trainer) (checkpoint : CheckpointRecord) :
  let t' := after (resume_from t checkpoint) in
  early_stop t' = early_stop t /\ config t' = config t /\
  epochs t' = epochs t /\ save_period t' = save_period t /\
  mnt_mode t' = mnt_mode t /\ mnt_metric t' = mnt_metric t /\
  checkpoint_dir t' = checkpoint_dir t /\ _last_epoch t' = _last_epoch t /\
  start_epoch t' = ck_epoch checkpoint + 1 /\
  mnt_best t' = ck_monitor_best checkpoint.
Proof.
  cbv zeta. rewrite resume_from_after.
  destruct (resume_networks_fields t checkpoint)
    as (N1 & N2 & N3 & N4 & N5 & N6 & N7 & N8).
  destruct (resume_networks_after t checkpoint) as (N9 & N10 & _).
  set (n := after (resume_networks t checkpoint)) in *.
  destruct (resume_g_optimizer_fields n checkpoint)
    as (G1 & G2 & G3 & G4 & G5 & G6 & G7 & G8 & G9 & G10).
  set (g := resume_g_optimizer n checkpoint) in *.
  destruct (resume_d_optimizer_fields (after g) checkpoint)
    as (D1 & D2 & D3 & D4 & D5 & D6 & D7 & D8 & D9 & D10).
  destruct (raised g); repeat split; congruence.
Qed.

Lemma resume_checkpoint_frame (t : trainer) (resume_path : string) :
  let t' := after (_resume_checkpoint torch_load t resume_path) in
  early_stop t' = early_stop t /\ config t' = config t /\
  epochs t' = epochs t /\ save_period t' = save_period t /\
  mnt_mode t' = mnt_mode t /\ mnt_metric t' = mnt_metric t /\
  checkpoint_dir t' = checkpoint_dir t /\ _last_epoch t' = _last_epoch t.
Proof.
  unfold _resume_checkpoint. destruct (torch_load resume_path) as [ck|]; simpl.
  - pose proof (resume_from_frame t ck) as H. simpl in H.
    destruct H as (H1 & H2 & H3 & H4 & H5 & H6 & H7 & H8 & _).
    repeat split; assumption.
  - repeat split; reflexivity.
Qed.

(** The patience of a constructed trainer is never below its counter's
    initial 0, and is infinite when the configured one is [<= 0]. *)
Lemma init_patience (generator discriminator : nn_module)
    (g_optimizer d_optimizer : state_dict)
    (g_lr_scheduler d_lr_scheduler : option state_dict) (config : Config) (c : call) :
  __init__ torch_load generator discriminator g_optimizer d_optimizer
    g_lr_scheduler d_lr_scheduler config = inr c ->
  Py.gt (Py.Int 0) (early_stop (after c)) = false /\
  (forall v, cfg_early_stop (cfg_trainer config) = Some v ->
             Py.le v (Py.Int 0) = true -> early_stop (after c) = Py.inf).
Proof.
  unfold __init__.
  destruct (init_monitor (cfg_trainer config)) as [e|[[[mode metric] best] patience]] eqn:Hi;
    [discriminate|].
  apply init_monitor_patience in Hi.
  destruct (cfg_resume config) as [p|]; intros H; inversion H; subst; simpl.
  - match goal with
    | |- context [_resume_checkpoint torch_load ?t p] =>
        pose proof (resume_checkpoint_frame t p) as Hf
    end.
    simpl in Hf. destruct Hf as (-> & _). exact Hi.
  - exact Hi.
Qed.

Lemma train_flow (t : trainer) :
  st_flow (train _train_epoch t) = st_flow (_train_process _train_epoch t) /\
  st_count (train _train_epoch t) = st_count (_train_process _train_epoch t) /\
  st_trainer (train _train_epoch t) = st_trainer (_train_process _train_epoch t).
Proof.
  unfold train.
  destruct (st_flow (_train_process _train_epoch t)) as [| |[]] eqn:H; simpl;
    rewrite ?H; repeat split; reflexivity.
Qed.

(** The stop notice is the last thing the loop does when it stops early. *)
Lemma monitor_stop_notice (t : trainer) (cnt : Z) (log : gmap string Py.num) :
  st_flow (fst (monitor t cnt log)) = Break ->
  last (st_events (fst (monitor t cnt log))) =
    Some (Info (MsgTrainingStops (early_stop t))).
Proof. monitor_cases t log; try discriminate; reflexivity. Qed.

Lemma loop_body_stop_notice (t : trainer) (cnt epoch : Z) :
  st_flow (loop_body _train_epoch t cnt epoch) = Break ->
  last (st_events (loop_body _train_epoch t cnt epoch)) =
    Some (Info (MsgTrainingStops (early_stop t))).
Proof.
  loop_cases t cnt epoch; simpl.
  - intros H. exfalso. revert H. apply save_if_due_frame.
  - pose proof (monitor_stop_notice (set_objs o (set_last_epoch epoch t)) cnt
                  (make_log epoch result)) as Hn. simpl in Hn.
    destruct (st_flow (fst _)) eqn:Hfl; simpl.
    + intros H. exfalso. revert H. apply save_if_due_frame.
    + intros _. specialize (Hn eq_refl).
      destruct (st_events (fst (monitor _ _ _))) as [|ev evs] eqn:He;
        [discriminate|].
      rewrite last_app, Hn. reflexivity.
    + discriminate.
  - discriminate.
Qed.

Lemma for_epochs_stop_notice (es : list Z) (t : trainer) (cnt : Z) :
  st_flow (for_epochs _train_epoch es t cnt) = Break ->
  last (st_events (for_epochs _train_epoch es t cnt)) =
    Some (Info (MsgTrainingStops (early_stop t))).
Proof.
  revert t cnt. induction es as [|e es IH]; intros t cnt; simpl.
  - discriminate.
  - pose proof (loop_body_stop_notice t cnt e) as Hn.
    pose proof (loop_body_frame t cnt e) as Hf. simpl in Hf.
    destruct Hf as (Hes & _).
    destruct (st_flow (loop_body _train_epoch t cnt e)) eqn:Hfl; simpl.
    + intros H. specialize (IH _ _ H). rewrite Hes in IH.
      rewrite last_app, IH. reflexivity.
    + intros _. auto.
    + rewrite Hfl. discriminate.
Qed.


(** A configured patience above 0 is the patience of the trainer, and no
    configured patience means infinity, when monitoring is on. *)
Lemma init_monitor_threshold (cfg : trainer_config) (mode metric : string)
    (best patience : Py.num) :
  init_monitor cfg = inr (mode, metric, best, patience) ->
  mode <> "off" ->
  (forall v, cfg_early_stop cfg = Some v -> Py.le v (Py.Int 0) = false ->
             patience = v) /\
  (cfg_early_stop cfg = None -> patience = Py.inf).
Proof.
  unfold init_monitor.
  destruct (String.eqb (default "off" (cfg_monitor cfg)) "off").
  { intros H Hon. inversion H. congruence. }
  destruct (Py.split (default "off" (cfg_monitor cfg))) as [|a [|b [|? ?]]];
    try discriminate.
  destruct (String.eqb a "min" || String.eqb a "max"); [|discriminate].
  destruct (cfg_early_stop cfg) as [v|]; simpl.
  - destruct (Py.le v (Py.Int 0)) eqn:Hle; intros H _; inversion H; subst.
    + split; [|discriminate]. intros v' Hv' Hle'. inversion Hv'. congruence.
    + split; [|discriminate]. intros v' Hv' _. inversion Hv'. reflexivity.
  - intros H _. inversion H. split; [discriminate | reflexivity].
Qed.

Lemma init_threshold (generator discriminator : nn_module)
    (g_optimizer d_optimizer : state_dict)
    (g_lr_scheduler d_lr_scheduler : option state_dict) (config : Config) (c : call) :
  __init__ torch_load generator discriminator g_optimizer d_optimizer
    g_lr_scheduler d_lr_scheduler config = inr c ->
  mnt_mode (after c) <> "off" ->
  (forall v, cfg_early_stop (cfg_trainer config) = Some v ->
             Py.le v (Py.Int 0) = false -> early_stop (after c) = v) /\
  (cfg_early_stop (cfg_trainer config) = None -> early_stop (after c) = Py.inf).
Proof.
  unfold __init__.
  destruct (init_monitor (cfg_trainer config)) as [e|[[[mode metric] best] patience]] eqn:Hi;
    [discriminate|].
  pose proof (init_monitor_threshold _ _ _ _ _ Hi) as Ht.
  destruct (cfg_resume config) as [p|]; intros H; inversion H; subst; simpl.
  - match goal with
    | |- context [_resume_checkpoint torch_load ?t p] =>
        pose proof (resume_checkpoint_frame t p) as Hf
    end.
    simpl in Hf. destruct Hf as (-> & _ & _ & _ & -> & _). exact Ht.
  - exact Ht.
Qed.

(** *** C2: early stop *)

(** C2. An epoch leaves the loop by [break] exactly when it was monitored
    and the not-improved counter, after the epoch's update, is strictly
    above [early_stop]; the stop notice is then the last thing logged and
    nothing is raised. For a trainer built by the constructor, a run
    ends by the early stop only with the counter above the patience and
    runs to the end only with the counter not above it; and a configured
    patience [<= 0] is replaced by infinity, so that the run never stops
    early. With monitoring on, a configured patience that is not [<= 0]
    is that patience itself: the run ends by the early stop only with the
    counter above the configured value and runs to the end only with the
    counter not above it; and with no patience configured the patience
    is infinity. *)
Theorem C2_early_stop_above_patience :
  (forall (t : trainer) (cnt epoch : Z),
     let s := loop_body _train_epoch t cnt epoch in
     (st_flow s = Break <->
      (exists result o, _train_epoch epoch (objs t) = Returned result o) /\
      mnt_mode t <> "off" /\
      Py.gt (Py.Int (st_count s)) (early_stop t) = true) /\
     (st_flow s = Break ->
      last (st_events s) = Some (Info (MsgTrainingStops (early_stop t))))) /\
  (forall (generator discriminator : nn_module)
          (g_optimizer d_optimizer : state_dict)
          (g_lr_scheduler d_lr_scheduler : option state_dict)
          (config : Config) (c : call),
     __init__ torch_load generator discriminator g_optimizer d_optimizer
       g_lr_scheduler d_lr_scheduler config = inr c ->
     let r := train _train_epoch (after c) in
     (st_flow r = Break ->
      Py.gt (Py.Int (st_count r)) (early_stop (after c)) = true /\
      last (st_events r) = Some (Info (MsgTrainingStops (early_stop (after c))))) /\
     (st_flow r = Continue ->
      Py.gt (Py.Int (st_count r)) (early_stop (after c)) = false) /\
     (forall v, cfg_early_stop (cfg_trainer config) = Some v ->
                Py.le v (Py.Int 0) = true ->
                early_stop (after c) = Py.inf /\ st_flow r <> Break) /\
     (mnt_mode (after c) <> "off" ->
      (forall v, cfg_early_stop (cfg_trainer config) = Some v ->
                 Py.le v (Py.Int 0) = false ->
                 early_stop (after c) = v /\
                 (st_flow r = Break -> Py.gt (Py.Int (st_count r)) v = true) /\
                 (st_flow r = Continue -> Py.gt (Py.Int (st_count r)) v = false)) /\
      (cfg_early_stop (cfg_trainer config) = None ->
       early_stop (after c) = Py.inf /\ st_flow r <> Break))).
Proof.
  split.
  - intros t cnt epoch s. subst s. split.
    + apply loop_body_break.
    + apply loop_body_stop_notice.
  - intros g d go do gs ds config c Hinit r.
    pose proof (init_threshold g d go do gs ds config c Hinit) as Hthr.
    destruct (init_patience g d go do gs ds config c Hinit) as (H0 & Hinf).
    destruct (train_flow (after c)) as (Hfl & Hcnt & _).
    pose proof (for_epochs_patience
                  (Py.range (start_epoch (after c)) (epochs (after c) + 1))
                  (after c) 0) as Hp.
    simpl in Hp. destruct Hp as (Hp1 & Hp2).
    fold (_train_process _train_epoch (after c)) in Hp1, Hp2.
    subst r. rewrite Hfl, Hcnt.
    assert (Hbreak : st_flow (_train_process _train_epoch (after c)) = Break ->
                     Py.gt (Py.Int (st_count (_train_process _train_epoch (after c))))
                       (early_stop (after c)) = true) by exact Hp1.
    assert (Hcont : st_flow (_train_process _train_epoch (after c)) = Continue ->
                    Py.gt (Py.Int (st_count (_train_process _train_epoch (after c))))
                      (early_stop (after c)) = false).
    { intros H.
      destruct (Py.gt (Py.Int (st_count (_train_process _train_epoch (after c))))
                  (early_stop (after c))) eqn:Hgt; [|reflexivity].
      rewrite (Hp2 H eq_refl) in H0. discriminate. }
    split; [|split; [|split]].
    + intros H. split; [auto|].
      unfold train. rewrite H.
      apply (for_epochs_stop_notice _ (after c) 0). exact H.
    + exact Hcont.
    + intros v Hv Hle. split; [exact (Hinf v Hv Hle)|].
      intros H. specialize (Hbreak H). rewrite (Hinf v Hv Hle) in Hbreak.
      rewrite gt_int_inf in Hbreak. discriminate.
    + intros Hon. destruct (Hthr Hon) as (Hpos & Hnone). split.
      * intros v Hv Hle. pose proof (Hpos v Hv Hle) as Hes.
        rewrite Hes in Hbreak, Hcont. auto.
      * intros Hv. split; [exact (Hnone Hv)|].
        intros H. specialize (Hbreak H). rewrite (Hnone Hv) in Hbreak.
        rewrite gt_int_inf in Hbreak. discriminate.
Qed.


(** *** C3: a metric missing from the log *)

(** C3 (amended). In a monitored epoch (mode "min" or "max") whose result
    lacks the monitored metric, the metric not being named "epoch" (the
    key the trainer adds to the log itself): exactly one warning is
    logged, [mnt_mode] becomes "off", the epoch is not marked best,
    [mnt_best] stays and the counter grows by one; and whatever epochs
    follow, monitoring stays off: [mnt_best] and the counter keep these
    values, no further warning is logged and the loop does not stop
    early. *)
Theorem C3_missing_metric_turns_monitoring_off
    (t : trainer) (cnt epoch : Z) (result : EpochResult) (o : objects) :
  _train_epoch epoch (objs t) = Returned result o ->
  mnt_mode t = "min" \/ mnt_mode t = "max" ->
  result !! mnt_metric t = None ->
  mnt_metric t <> "epoch" ->
  let s := loop_body _train_epoch t cnt epoch in
  warnings (st_events s) = [MsgMetricNotFound (mnt_metric t)] /\
  mnt_mode (st_trainer s) = "off" /\
  marked_best _train_epoch t cnt epoch = false /\
  mnt_best (st_trainer s) = mnt_best t /\
  st_count s = cnt + 1 /\
  (forall es : list Z,
     let r := for_epochs _train_epoch es (st_trainer s) (st_count s) in
     mnt_mode (st_trainer r) = "off" /\ mnt_best (st_trainer r) = mnt_best t /\
     st_count r = cnt + 1 /\ st_flow r <> Break /\ warnings (st_events r) = []).
Proof.
  intros Hhook Hmode Hres Hname s.
  assert (Hon : mnt_mode t <> "off") by (destruct Hmode as [->| ->]; discriminate).
  set (T := set_objs o (set_last_epoch epoch t)).
  assert (Hlog : make_log epoch result !! mnt_metric T = None)
    by (apply make_log_other; assumption).
  destruct (monitor_missing T cnt (make_log epoch result) Hmode Hlog)
    as (Hb & Ht & Hc & Hw).
  assert (Hs : warnings (st_events s) = [MsgMetricNotFound (mnt_metric t)] /\
               st_trainer s = set_mnt_mode "off" T /\ st_count s = cnt + 1).
  { subst s. rewrite (loop_body_on t cnt epoch result o Hhook Hon). fold T.
    destruct (st_flow (fst (monitor T cnt (make_log epoch result)))); simpl.
    - match goal with
      | |- context [save_if_due ?a ?b ?c ?d ?e] =>
          destruct (save_if_due_frame a b c d e) as (-> & -> & _ & ->)
      end.
      rewrite warnings_app, log_lines_no_warning, Hw. auto.
    - rewrite warnings_app, log_lines_no_warning, Hw. auto.
    - rewrite warnings_app, log_lines_no_warning, Hw. auto. }
  destruct Hs as (Hs1 & Hs2 & Hs3).
  split; [exact Hs1|]. split; [by rewrite Hs2|]. split.
  { unfold marked_best. rewrite Hhook. fold T. rewrite Hb. apply andb_false_r. }
  split; [by rewrite Hs2|]. split; [exact Hs3|].
  intros es r.
  assert (Hoff : mnt_mode (st_trainer s) = "off") by (by rewrite Hs2).
  destruct (for_epochs_unmonitored es (st_trainer s) (st_count s) Hoff)
    as (R1 & R2 & R3 & R4 & R5).
  subst r. repeat split; try assumption.
  - rewrite R2, Hs2. reflexivity.
  - rewrite R3. exact Hs3.
Qed.


(** *** C7: when a checkpoint is written *)

(** C7. After an epoch that runs to its end (no early stop, nothing
    raised), a checkpoint for that epoch has been written if the epoch
    number is a multiple of [save_period] or the epoch was marked best, and
    none has been written otherwise. With monitoring off, an epoch whose
    number is a multiple of the (non-zero) save period runs to its end and
    writes its checkpoint. *)
Theorem C7_checkpoint_iff_due_or_best (t : trainer) (cnt epoch : Z) :
  let s := loop_body _train_epoch t cnt epoch in
  (st_flow s = Continue ->
   (epoch mod save_period t = 0 \/ marked_best _train_epoch t cnt epoch = true ->
    saved_epochs (st_events s) = [epoch]) /\
   (~ (epoch mod save_period t = 0 \/ marked_best _train_epoch t cnt epoch = true) ->
    saved_epochs (st_events s) = [])) /\
  (forall (result : EpochResult) (o : objects),
     _train_epoch epoch (objs t) = Returned result o ->
     mnt_mode t = "off" -> save_period t <> 0 -> epoch mod save_period t = 0 ->
     st_flow s = Continue /\ saved_epochs (st_events s) = [epoch]).
Proof.
  intros s. pose proof (loop_body_saved t cnt epoch) as (Hs & _). fold s in Hs.
  split.
  - intros Hfl. rewrite (Hs Hfl). split.
    + intros [H|H].
      * apply Z.eqb_eq in H. rewrite H. reflexivity.
      * rewrite H, orb_true_r. reflexivity.
    + intros H.
      destruct (epoch mod save_period t =? 0) eqn:H1.
      * exfalso. apply H. left. by apply Z.eqb_eq.
      * destruct (marked_best _train_epoch t cnt epoch) eqn:H2; [|reflexivity].
        exfalso. apply H. by right.
  - intros result o Hhook Hoff Hsp Hdiv.
    assert (Hfl : st_flow s = Continue).
    { subst s. rewrite (loop_body_off t cnt epoch result o Hhook Hoff).
      unfold save_if_due. simpl. apply Z.eqb_neq in Hsp. rewrite Hsp.
      destruct ((epoch mod save_period t =? 0) || false); reflexivity. }
    split; [exact Hfl|]. rewrite (Hs Hfl).
    apply Z.eqb_eq in Hdiv. rewrite Hdiv. reflexivity.
Qed.

(** *** The effects of the loop body, and a prefix of them *)

Lemma omap_take {A B : Type} (f : A -> option B) (l : list A) (i : nat) :
  exists j : nat, omap f (take i l) = take j (omap f l).
Proof.
  revert i. induction l as [|a l IH]; intros i.
  - exists 0%nat. by destruct i.
  - destruct i as [|i]; [by exists 0%nat|].
    destruct (IH i) as (j & Hj). simpl.
    destruct (f a) as [b|].
    + exists (S j). simpl. f_equal. exact Hj.
    + exists j. exact Hj.
Qed.

Lemma performed_app (l1 l2 : list effect) (t : trainer) :
  performed (l1 ++ l2) t = performed l2 (performed l1 t).
Proof. apply fold_left_app. Qed.

Lemma emitted_by_app (l1 l2 : list effect) :
  emitted_by (l1 ++ l2) = emitted_by l1 ++ emitted_by l2.
Proof. apply omap_app. Qed.

Lemma emitted_by_emit (evs : list event) : emitted_by (Emit <$> evs) = evs.
Proof.
  induction evs as [|ev evs IH]; [reflexivity|].
  change (ev :: emitted_by (Emit <$> evs) = ev :: evs). by rewrite IH.
Qed.

Lemma performed_emit (evs : list event) (t : trainer) :
  performed (Emit <$> evs) t = t.
Proof. induction evs as [|ev evs IH]; [reflexivity|]. exact IH. Qed.

(** The list of effects agrees with [monitor]. *)
Lemma monitor_effects_run (t : trainer) (cnt : Z) (log : gmap string Py.num) :
  performed (monitor_effects t cnt log) t = st_trainer (fst (monitor t cnt log)) /\
  emitted_by (monitor_effects t cnt log) = st_events (fst (monitor t cnt log)).
Proof.
  unfold monitor_effects.
  monitor_cases t log; split; reflexivity.
Qed.


Lemma no_save_records (evs : list event) :
  saved_epochs evs = [] -> saved_records evs = [] /\ saved_paths evs = [].
Proof.
  induction evs as [|[m|m|state filename] evs IH]; simpl; auto.
  discriminate.
Qed.

Lemma keeps_run_emit (evs : list event) : Forall keeps_run (Emit <$> evs).
Proof.
  induction evs as [|ev evs IH]; constructor; [|exact IH].
  intros t. repeat split; reflexivity.
Qed.

Lemma keeps_run_monitor (t : trainer) (cnt : Z) (log : gmap string Py.num) :
  Forall keeps_run (monitor_effects t cnt log).
Proof.
  unfold monitor_effects.
  monitor_cases t log;
    repeat (constructor; [intros ?; repeat split; reflexivity|]);
    constructor.
Qed.

Lemma keeps_run_save (t : trainer) (epoch : Z) (best : bool) :
  Forall keeps_run (save_effects t epoch best).
Proof.
  unfold save_effects. destruct (save_period t =? 0); [constructor|].
  destruct (_ || _); [apply keeps_run_emit | constructor].
Qed.

Lemma performed_keeps (effects : list effect) (t : trainer) :
  Forall keeps_run effects ->
  config (performed effects t) = config t /\
  checkpoint_dir (performed effects t) = checkpoint_dir t /\
  save_period (performed effects t) = save_period t /\
  _last_epoch (performed effects t) = _last_epoch t.
Proof.
  intros H. revert t. induction H as [|a l Ha _ IH]; intros t; [auto|].
  change (performed (a :: l) t) with (performed l (perform t a)).
  destruct (IH (perform t a)) as (-> & -> & -> & ->). apply Ha.
Qed.


(** The effects of one iteration: the assignment of line 89, then those
    of lines 90-135, which write no checkpoint, then those of the save of
    lines 137-138, if the epoch is saved. *)
Lemma body_effects_split (t : trainer) (cnt epoch : Z) :
  exists pre sv : list effect,
    body_effects _train_epoch t cnt epoch
      = Assign (set_last_epoch epoch) :: pre ++ sv /\
    Forall keeps_run (pre ++ sv) /\
    saved_epochs (emitted_by pre) = [] /\
    (sv = [] \/
     (st_flow (loop_body _train_epoch t cnt epoch) = Continue /\
      save_period t <> 0 /\
      (epoch mod save_period t = 0 \/
       marked_best _train_epoch t cnt epoch = true) /\
      sv = Emit <$> _save_checkpoint (performed pre (set_last_epoch epoch t))
                      epoch (marked_best _train_epoch t cnt epoch) true)).
Proof.
  unfold body_effects, marked_best.
  destruct (_train_epoch epoch (objs t)) as [result o|o] eqn:Hhook.
  - cbn zeta.
    change (mnt_mode (set_objs o (set_last_epoch epoch t))) with (mnt_mode t).
    destruct (String.eqb (mnt_mode t) "off") eqn:Hoff; cbn [negb andb].
    + apply String.eqb_eq in Hoff.
      exists (Assign (set_objs o) :: (Emit <$> log_lines (make_log epoch result))),
        (save_effects (set_objs o (set_last_epoch epoch t)) epoch false).
      split; [reflexivity|]. split.
      { constructor; [intros ?; repeat split; reflexivity|].
        apply Forall_app. split; [apply keeps_run_emit | apply keeps_run_save]. }
      split.
      { change (saved_epochs (emitted_by (Emit <$> log_lines (make_log epoch result)))
                = []).
        rewrite emitted_by_emit. apply log_lines_no_save. }
      rewrite (loop_body_off t cnt epoch result o Hhook Hoff).
      unfold save_effects, save_if_due.
      change (save_period (set_objs o (set_last_epoch epoch t)))
        with (save_period t).
      destruct (save_period t =? 0) eqn:Hsp; [by left|].
      destruct (epoch mod save_period t =? 0) eqn:Hdue; [|by left].
      right. apply Z.eqb_neq in Hsp. apply Z.eqb_eq in Hdue.
      split; [reflexivity|]. split; [exact Hsp|]. split; [by left|].
      change (performed (Assign (set_objs o) :: (Emit <$> log_lines (make_log epoch result)))
                (set_last_epoch epoch t))
        with (performed (Emit <$> log_lines (make_log epoch result))
                (set_objs o (set_last_epoch epoch t))).
      rewrite performed_emit. reflexivity.
    + apply String.eqb_neq in Hoff.
      pose proof (monitor_effects_run (set_objs o (set_last_epoch epoch t)) cnt
                    (make_log epoch result)) as (Hrun & Hem).
      pose proof (monitor_frame (set_objs o (set_last_epoch epoch t)) cnt
                    (make_log epoch result)) as Hf.
      cbn zeta in Hf. destruct Hf as (_ & _ & _ & _ & Hsp' & _).
      pose proof (monitor_no_save (set_objs o (set_last_epoch epoch t)) cnt
                    (make_log epoch result)) as Hns.
      rewrite (loop_body_on t cnt epoch result o Hhook Hoff).
      destruct (monitor (set_objs o (set_last_epoch epoch t)) cnt
                  (make_log epoch result)) as [m best] eqn:Hm.
      cbn [fst snd] in *.
      exists (Assign (set_objs o) :: (Emit <$> log_lines (make_log epoch result))
                ++ monitor_effects (set_objs o (set_last_epoch epoch t)) cnt
                     (make_log epoch result)),
        (match st_flow m with
         | Continue => save_effects (st_trainer m) epoch best
         | _ => []
         end).
      split; [simpl; by rewrite <- app_assoc|]. split.
      { rewrite <- app_comm_cons.
        constructor; [intros ?; repeat split; reflexivity|].
        rewrite <- app_assoc.
        apply Forall_app. split; [apply keeps_run_emit|].
        apply Forall_app. split; [apply keeps_run_monitor|].
        destruct (st_flow m); [apply keeps_run_save | constructor | constructor]. }
      split.
      { change (saved_epochs
                  (emitted_by ((Emit <$> log_lines (make_log epoch result)) ++
                     monitor_effects (set_objs o (set_last_epoch epoch t)) cnt
                       (make_log epoch result))) = []).
        rewrite emitted_by_app, emitted_by_emit, Hem, saved_epochs_app,
          log_lines_no_save, Hns. reflexivity. }
      destruct (st_flow m) eqn:Hfl; [|by left|by left].
      unfold save_effects, save_if_due. rewrite Hsp'.
      change (save_period (set_objs o (set_last_epoch epoch t)))
        with (save_period t).
      destruct (save_period t =? 0) eqn:Hsp; [by left|].
      destruct ((epoch mod save_period t =? 0) || best) eqn:Hdue; [|by left].
      right. apply Z.eqb_neq in Hsp.
      split; [reflexivity|]. split; [exact Hsp|]. split.
      { apply orb_true_iff in Hdue. destruct Hdue as [H|H];
          [left; by apply Z.eqb_eq | by right]. }
      change (performed
                (Assign (set_objs o) :: (Emit <$> log_lines (make_log epoch result))
                   ++ monitor_effects (set_objs o (set_last_epoch epoch t)) cnt
                        (make_log epoch result))
                (set_last_epoch epoch t))
        with (performed
                ((Emit <$> log_lines (make_log epoch result))
                   ++ monitor_effects (set_objs o (set_last_epoch epoch t)) cnt
                        (make_log epoch result))
                (set_objs o (set_last_epoch epoch t))).
      rewrite performed_app, performed_emit, Hrun. reflexivity.
  - exists [Assign (set_objs o)], []. split; [reflexivity|]. split.
    { repeat constructor. }
    split; [reflexivity | by left].
Qed.


(** The list of effects agrees with [loop_body]. *)
Lemma body_effects_run (t : trainer) (cnt epoch : Z) :
  let s := loop_body _train_epoch t cnt epoch in
  performed (body_effects _train_epoch t cnt epoch) t = st_trainer s /\
  emitted_by (body_effects _train_epoch t cnt epoch) = st_events s.
Proof.
  unfold body_effects. loop_cases t cnt epoch; cbn zeta.
  - change (mnt_mode (set_objs o (set_last_epoch epoch t))) with (mnt_mode t).
    rewrite Hoff, String.eqb_refl. cbn [negb].
    change (performed (Assign (set_last_epoch epoch) :: Assign (set_objs o) :: ?l) t)
      with (performed l (set_objs o (set_last_epoch epoch t))).
    change (emitted_by (Assign (set_last_epoch epoch) :: Assign (set_objs o) :: ?l))
      with (emitted_by l).
    rewrite performed_app, emitted_by_app, performed_emit, emitted_by_emit.
    unfold save_effects, save_if_due.
    destruct (save_period _ =? 0); [by rewrite app_nil_r|].
    destruct (_ || _); cbn [st_trainer st_events].
    + by rewrite performed_emit, emitted_by_emit.
    + by rewrite app_nil_r.
  - change (mnt_mode (set_objs o (set_last_epoch epoch t))) with (mnt_mode t).
    apply String.eqb_neq in Hoff. rewrite Hoff. cbn [negb].
    pose proof (monitor_effects_run (set_objs o (set_last_epoch epoch t)) cnt
                  (make_log epoch result)) as (Hrun & Hem).
    destruct (monitor (set_objs o (set_last_epoch epoch t)) cnt
                (make_log epoch result)) as [m best] eqn:Hm.
    cbn [fst snd] in *.
    change (performed (Assign (set_last_epoch epoch) :: Assign (set_objs o) :: ?l) t)
      with (performed l (set_objs o (set_last_epoch epoch t))).
    change (emitted_by (Assign (set_last_epoch epoch) :: Assign (set_objs o) :: ?l))
      with (emitted_by l).
    rewrite !performed_app, !emitted_by_app, performed_emit, emitted_by_emit,
      Hrun, Hem.
    destruct (st_flow m); cbn [st_trainer st_events];
      try (by rewrite app_nil_r).
    unfold save_effects, save_if_due.
    destruct (save_period _ =? 0); [by rewrite app_nil_r|].
    destruct (_ || _); cbn [st_trainer st_events].
    + by rewrite performed_emit, emitted_by_emit, app_assoc.
    + by rewrite app_nil_r.
  - split; reflexivity.
Qed.

(** The state when the interrupt arrives after the first [i] effects of
    an iteration: the settings are those of the trainer; from [i = 1] on
    the recorded epoch is the epoch of the iteration; and either the
    iteration has written no checkpoint yet, or it has written the one of
    lines 137-138, to the path and with the record that
    [_save_checkpoint] gives in this state. *)
Lemma interrupted_body (t : trainer) (cnt epoch : Z) (i : nat) :
  let effects := take i (body_effects _train_epoch t cnt epoch) in
  let t' := performed effects t in
  config t' = config t /\ checkpoint_dir t' = checkpoint_dir t /\
  save_period t' = save_period t /\
  (i = 0%nat -> t' = t /\ emitted_by effects = []) /\
  ((1 <= i)%nat -> _last_epoch t' = epoch) /\
  (saved_epochs (emitted_by effects) = [] \/
   (st_flow (loop_body _train_epoch t cnt epoch) = Continue /\
    save_period t <> 0 /\
    (epoch mod save_period t = 0 \/
     marked_best _train_epoch t cnt epoch = true) /\
    saved_epochs (emitted_by effects) = [epoch] /\
    saved_records (emitted_by effects)
      = saved_records (_save_checkpoint t' epoch false false) /\
    saved_paths (emitted_by effects)
      = saved_paths (_save_checkpoint t' epoch false false))).
Proof.
  destruct (body_effects_split t cnt epoch)
    as (pre & sv & Hbody & Hkeep & Hns & Hsv).
  rewrite Hbody. destruct i as [|j]; cbn zeta.
  { repeat split; auto. intros H. lia. }
  change (take (S j) (Assign (set_last_epoch epoch) :: pre ++ sv))
    with (Assign (set_last_epoch epoch) :: take j (pre ++ sv)).
  change (performed (Assign (set_last_epoch epoch) :: ?l) t)
    with (performed l (set_last_epoch epoch t)).
  change (emitted_by (Assign (set_last_epoch epoch) :: ?l)) with (emitted_by l).
  destruct (performed_keeps (take j (pre ++ sv)) (set_last_epoch epoch t)
              (Forall_take _ _ _ Hkeep)) as (Hc & Hd & Hp & Hl).
  split; [exact Hc|]. split; [exact Hd|]. split; [exact Hp|].
  split; [discriminate|]. split; [intros _; exact Hl|].
  destruct (le_lt_dec j (length pre)) as [Hj|Hj].
  - left. rewrite take_app_le by exact Hj.
    destruct (omap_take (fun a => match a with
                                  | Emit ev => Some ev
                                  | Assign _ => None
                                  end) pre j) as (j1 & H1).
    fold (emitted_by (take j pre)) in H1. fold (emitted_by pre) in H1.
    rewrite H1.
    destruct (omap_take (fun ev => match ev with
                                   | TorchSave state _ => Some (ck_epoch state)
                                   | _ => None
                                   end) (emitted_by pre) j1) as (j2 & H2).
    fold (saved_epochs (take j1 (emitted_by pre))) in H2.
    fold (saved_epochs (emitted_by pre)) in H2.
    rewrite H2, Hns. apply take_nil.
  - rewrite take_app_ge by lia.
    destruct Hsv as [->|(Hfl & Hsp & Hdue & ->)].
    + left. rewrite take_nil, app_nil_r. exact Hns.
    + right. split; [exact Hfl|]. split; [exact Hsp|]. split; [exact Hdue|].
      destruct (j - length pre)%nat as [|k] eqn:Hk; [lia|].
      cbn [_save_checkpoint fmap list_fmap take].
      rewrite performed_app, !emitted_by_app.
      set (tm := performed pre (set_last_epoch epoch t)).
      assert (Htm : performed
                      (Emit (TorchSave
                               {| ck_g_arch := class_name (generator (objs tm));
                                  ck_d_arch := class_name (discriminator (objs tm));
                                  ck_epoch := epoch;
                                  ck_generator_state_dict :=
                                    parameters (generator (objs tm));
                                  ck_discriminator_state_dict :=
                                    parameters (discriminator (objs tm));
                                  ck_g_optimizer := g_optimizer (objs tm);
                                  ck_d_optimizer := d_optimizer (objs tm);
                                  ck_monitor_best := mnt_best tm;
                                  ck_config := config tm;
                                  ck_d_lr_scheduler := d_lr_scheduler (objs tm);
                                  ck_g_lr_scheduler := g_lr_scheduler (objs tm) |}
                               (PathDiv (checkpoint_dir tm)
                                  ("checkpoint-epoch" ++ pretty epoch ++ ".pth")))
                       :: take k [Emit (Info (MsgSavingCheckpoint
                                     (PathDiv (checkpoint_dir tm)
                                        ("checkpoint-epoch" ++ pretty epoch
                                           ++ ".pth"))))]) tm = tm).
      { destruct k as [|[|k]]; reflexivity. }
      rewrite Htm.
      destruct (no_save_records _ Hns) as (Hnr & Hnp).
      unfold saved_epochs, saved_records, saved_paths in *.
      rewrite !omap_app, Hns, Hnr, Hnp.
      destruct k as [|[|k]]; repeat split; reflexivity.
Qed.


(** *** C8: the user interrupts an epoch *)

Lemma range_split (a k b : Z) :
  a <= k < b -> Py.range a b = Py.range a k ++ k :: Py.range (k + 1) b.
Proof.
  intros H. unfold Py.range.
  replace (b - a) with ((k - a) + (b - k)) by lia.
  rewrite seqZ_app by lia. f_equal.
  replace (a + (k - a)) with k by lia.
  rewrite seqZ_cons by lia. f_equal. f_equal; lia.
Qed.

(** When the loop runs to its end, the epoch recorded last is the last
    of the list. *)
Lemma for_epochs_last_epoch (es : list Z) (t : trainer) (cnt : Z) :
  st_flow (for_epochs _train_epoch es t cnt) = Continue ->
  _last_epoch (st_trainer (for_epochs _train_epoch es t cnt))
    = default (_last_epoch t) (last es).
Proof.
  revert t cnt. induction es as [|e es IH]; intros t cnt; [reflexivity|].
  simpl for_epochs.
  pose proof (loop_body_frame t cnt e) as Hf. cbn zeta in Hf.
  destruct Hf as (_ & _ & _ & _ & _ & _ & _ & Hlast).
  destruct (st_flow (loop_body _train_epoch t cnt e)) eqn:Hfl;
    [|rewrite Hfl; discriminate|rewrite Hfl; discriminate].
  cbn [st_flow st_trainer]. intros H. rewrite (IH _ _ H), Hlast.
  rewrite (last_cons e es). destruct (last es); reflexivity.
Qed.

Lemma range_last (a k : Z) : a < k -> last (Py.range a k) = Some (k - 1).
Proof.
  intros H. rewrite (range_split a (k - 1) k) by lia.
  replace (k - 1 + 1) with k by lia.
  unfold Py.range at 2. rewrite Z.sub_diag. simpl.
  apply last_snoc.
Qed.

(** C8. Let the user's interrupt arrive in the iteration of epoch [K] of
    the run, the epochs before it having run to their end; the loop has
    then written no checkpoint for [K] in the earlier iterations.
    - If it interrupts the hook, [train] logs the notice, writes one
      checkpoint, for epoch [K], through
      [_save_checkpoint(K, save_best=False)], whatever the save period,
      and raises the interrupt again; it is the only checkpoint of the
      run for [K].
    - If it arrives anywhere after line 89 of the iteration (after the
      first [i >= 1] effects of the body), [train] does the same: the
      notice, one call [_save_checkpoint(K, save_best=False)], the
      interrupt raised again, whatever the save period. This checkpoint
      is the only one of the run for [K], unless the loop had already
      written the checkpoint of epoch [K] (lines 137-138) when the
      interrupt arrived: then the run writes two checkpoints for [K],
      the second one to the same path and with the same record as the
      first. When [K] is neither a multiple of the save period nor the
      best epoch so far, there is one.
    - If it arrives before line 89 of the iteration, the checkpoint is
      for the epoch recorded last: [K - 1], or, in the first iteration,
      the value [_last_epoch] had before the run. *)
Theorem C8_interrupt_checkpoints_last_recorded_epoch (t : trainer) (K : Z) :
  start_epoch t <= K <= epochs t ->
  let before := for_epochs _train_epoch (Py.range (start_epoch t) K) t 0 in
  st_flow before = Continue ->
  let body := loop_body _train_epoch (st_trainer before) (st_count before) K in
  let due :=
    K mod save_period t = 0 \/
    marked_best _train_epoch (st_trainer before) (st_count before) K = true in
  (K ∉ saved_epochs (st_events before)) /\
  (forall o : objects,
     _train_epoch K (objs (st_trainer before)) = Interrupted o ->
     let r := train _train_epoch t in
     st_flow r = Raise KeyboardInterrupt /\
     _last_epoch (st_trainer r) = K /\
     st_events r =
       st_events before ++
       Info MsgKeyboardInterrupt :: _save_checkpoint (st_trainer r) K false false /\
     saved_epochs (st_events r) = saved_epochs (st_events before) ++ [K] /\
     (forall i : nat, (2 <= i)%nat -> interrupted_train _train_epoch t K i = r)) /\
  (forall i : nat,
     (1 <= i)%nat ->
     let r := interrupted_train _train_epoch t K i in
     st_flow r = Raise KeyboardInterrupt /\
     _last_epoch (st_trainer r) = K /\
     (exists during : list event,
        st_events r =
          st_events before ++ during ++
          Info MsgKeyboardInterrupt ::
          _save_checkpoint (st_trainer r) K false false /\
        ((saved_epochs during = [] /\
          saved_epochs (st_events r) = saved_epochs (st_events before) ++ [K]) \/
         (st_flow body = Continue /\ save_period t <> 0 /\ due /\
          saved_epochs during = [K] /\
          saved_epochs (st_events r)
            = saved_epochs (st_events before) ++ [K; K] /\
          saved_records during
            = saved_records (_save_checkpoint (st_trainer r) K false false) /\
          saved_paths during
            = saved_paths (_save_checkpoint (st_trainer r) K false false)))) /\
     (~ due ->
      saved_epochs (st_events r) = saved_epochs (st_events before) ++ [K])) /\
  (let r := interrupted_train _train_epoch t K 0 in
   st_flow r = Raise KeyboardInterrupt /\
   st_trainer r = st_trainer before /\
   st_events r =
     st_events before ++
     Info MsgKeyboardInterrupt ::
     _save_checkpoint (st_trainer before) (_last_epoch (st_trainer before))
       false false /\
   (start_epoch t < K -> _last_epoch (st_trainer r) = K - 1) /\
   (start_epoch t = K -> _last_epoch (st_trainer r) = _last_epoch t)).
Proof.
  intros HK before Hbefore body due.
  pose proof (for_epochs_frame (Py.range (start_epoch t) K) t 0) as Hfr.
  cbn zeta in Hfr. fold before in Hfr.
  destruct Hfr as (_ & _ & _ & Hsp & _).
  split; [|split; [|split]].
  - intros Hin. apply for_epochs_saved in Hin.
    apply elem_of_seqZ in Hin. lia.
  - intros o Hint r.
    assert (Hp : _train_process _train_epoch t =
                 {| st_trainer := set_objs o (set_last_epoch K (st_trainer before));
                    st_count := st_count before;
                    st_flow := Raise KeyboardInterrupt;
                    st_events := st_events before |}).
    { unfold _train_process.
      rewrite (range_split (start_epoch t) K (epochs t + 1)) by lia.
      rewrite for_epochs_app. fold before. simpl. rewrite Hbefore.
      rewrite (loop_body_interrupted _ _ _ _ Hint). simpl.
      rewrite app_nil_r. reflexivity. }
    subst r. unfold train. rewrite Hp. simpl.
    split; [reflexivity|]. split; [reflexivity|]. split; [reflexivity|].
    split; [rewrite saved_epochs_app; reflexivity|].
    intros i Hi. unfold interrupted_train. fold before.
    unfold body_effects. rewrite Hint.
    rewrite take_ge by (simpl; lia). reflexivity.
  - intros i Hi r.
    pose proof (interrupted_body (st_trainer before) (st_count before) K i) as Hb.
    cbn zeta in Hb. fold body in Hb.
    destruct Hb as (_ & _ & _ & _ & Hlast & Hsaved).
    specialize (Hlast Hi).
    subst r. unfold interrupted_train. fold before. cbn [st_flow st_trainer st_events].
    set (effects := take i (body_effects _train_epoch (st_trainer before)
                              (st_count before) K)) in *.
    rewrite Hlast.
    assert (Hone : saved_epochs (emitted_by effects) = [] ->
                   saved_epochs
                     (st_events before ++ emitted_by effects ++
                      Info MsgKeyboardInterrupt ::
                      _save_checkpoint (performed effects (st_trainer before)) K
                        false false)
                   = saved_epochs (st_events before) ++ [K]).
    { intros H. rewrite !saved_epochs_app, H. reflexivity. }
    split; [reflexivity|]. split; [reflexivity|]. split.
    + exists (emitted_by effects). split; [reflexivity|].
      destruct Hsaved as [Hnone|(Hfl & Hsp' & Hdue & Hse & Hrec & Hpath)].
      * left. split; [exact Hnone | exact (Hone Hnone)].
      * right. rewrite Hsp in Hsp', Hdue.
        split; [exact Hfl|]. split; [exact Hsp'|]. split; [exact Hdue|].
        split; [exact Hse|]. split; [|split; assumption].
        rewrite !saved_epochs_app, Hse. reflexivity.
    + intros Hnot.
      destruct Hsaved as [Hnone|(_ & _ & Hdue & _)]; [exact (Hone Hnone)|].
      rewrite Hsp in Hdue. contradiction.
  - cbn zeta. unfold interrupted_train. fold before. rewrite take_0.
    cbn [performed fold_left emitted_by omap list_omap app st_flow
         st_trainer st_events].
    split; [reflexivity|]. split; [reflexivity|]. split; [reflexivity|].
    split.
    + intros Hlt. unfold before.
      rewrite (for_epochs_last_epoch _ _ _ Hbefore), range_last by lia.
      reflexivity.
    + intros Heq. unfold before. rewrite Heq.
      unfold Py.range. rewrite Z.sub_diag. reflexivity.
Qed.


(** *** Resume *)

(** The generator's block touches the generator's optimizer and
    scheduler only. *)
Lemma resume_g_optimizer_frame (t : trainer) (checkpoint : CheckpointRecord) :
  let c := resume_g_optimizer t checkpoint in
  config (after c) = config t /\
  generator (objs (after c)) = generator (objs t) /\
  discriminator (objs (after c)) = discriminator (objs t) /\
  d_optimizer (objs (after c)) = d_optimizer (objs t) /\
  d_lr_scheduler (objs (after c)) = d_lr_scheduler (objs t).
Proof.
  unfold resume_g_optimizer. resume_block_cases; repeat split; reflexivity.
Qed.

(** The discriminator's block touches the discriminator's optimizer and
    scheduler only. *)
Lemma resume_d_optimizer_frame (t : trainer) (checkpoint : CheckpointRecord) :
  let c := resume_d_optimizer t checkpoint in
  config (after c) = config t /\
  generator (objs (after c)) = generator (objs t) /\
  discriminator (objs (after c)) = discriminator (objs t) /\
  g_optimizer (objs (after c)) = g_optimizer (objs t) /\
  g_lr_scheduler (objs (after c)) = g_lr_scheduler (objs t).
Proof.
  unfold resume_d_optimizer. resume_block_cases; repeat split; reflexivity.
Qed.

Lemma resume_g_scheduler (t : trainer) (checkpoint : CheckpointRecord)
    (fresh recorded : state_dict) :
  g_lr_scheduler (objs t) = Some fresh ->
  ck_g_lr_scheduler checkpoint = Some recorded ->
  let c := resume_g_optimizer t checkpoint in
  raised c = None /\
  g_lr_scheduler (objs (after c)) =
    if String.eqb (cfg_g_optimizer (ck_config checkpoint)) (cfg_g_optimizer (config t))
       && String.eqb (cfg_g_lr_scheduler (ck_config checkpoint))
            (cfg_g_lr_scheduler (config t))
    then Some recorded else Some fresh.
Proof.
  intros Hfresh Hrec. unfold resume_g_optimizer.
  destruct (String.eqb (cfg_g_optimizer _) _); simpl; [|auto].
  destruct (String.eqb (cfg_g_lr_scheduler _) _); simpl; [|auto].
  rewrite Hfresh, Hrec. simpl. auto.
Qed.

Lemma resume_g_mismatch (t : trainer) (checkpoint : CheckpointRecord) :
  cfg_g_optimizer (ck_config checkpoint) <> cfg_g_optimizer (config t) ->
  resume_g_optimizer t checkpoint =
    {| after := t; raised := None; emitted := [Warning MsgOptimizerDiffers] |}.
Proof.
  intros H. apply String.eqb_neq in H. unfold resume_g_optimizer.
  rewrite H. reflexivity.
Qed.

Lemma resume_d_mismatch (t : trainer) (checkpoint : CheckpointRecord) :
  cfg_d_optimizer (ck_config checkpoint) <> cfg_d_optimizer (config t) ->
  resume_d_optimizer t checkpoint =
    {| after := t; raised := None; emitted := [Warning MsgOptimizerDiffers] |}.
Proof.
  intros H. apply String.eqb_neq in H. unfold resume_d_optimizer.
  rewrite H. reflexivity.
Qed.

(** What resume has logged: everything its blocks logged, as far as it got,
    and the closing line when it returns. *)
Lemma resume_from_emitted (t : trainer) (checkpoint : CheckpointRecord) (ev : event) :
  let n := resume_networks t checkpoint in
  let g := resume_g_optimizer (after n) checkpoint in
  let d := resume_d_optimizer (after g) checkpoint in
  (In ev (emitted n) \/ In ev (emitted g) ->
   In ev (emitted (resume_from t checkpoint))) /\
  (raised (resume_from t checkpoint) = None ->
   raised g = None /\
   (In ev (emitted d) -> In ev (emitted (resume_from t checkpoint))) /\
   last (emitted (resume_from t checkpoint)) =
     Some (Info (MsgCheckpointLoaded (start_epoch (after d))))).
Proof.
  intros n g d. unfold resume_from. cbv zeta. fold n. fold g.
  destruct (raised g) eqn:Hg; cbn [emitted raised].
  - split; [|discriminate]. rewrite in_app_iff. tauto.
  - fold d. destruct (raised d) eqn:Hd; cbn [emitted raised].
    + split; [|discriminate]. rewrite !in_app_iff. tauto.
    + split; [rewrite !in_app_iff; tauto|]. intros _.
      split; [reflexivity|]. split; [rewrite !in_app_iff; tauto|].
      rewrite !app_assoc. apply last_snoc.
Qed.

(** C5. Resuming from the checkpoint stored at the path sets [start_epoch]
    to the recorded epoch plus one and [mnt_best] to the recorded
    [monitor_best], whatever they were before, and, when resume returns,
    ends by logging that start epoch. In particular, for a checkpoint
    written by [_save_checkpoint] at epoch [N], the run resumes at
    [N + 1] with the [mnt_best] of the trainer that wrote it. *)
Theorem C5_resume_start_epoch_and_best
    (t : trainer) (resume_path : string) (checkpoint : CheckpointRecord) :
  torch_load resume_path = Some checkpoint ->
  let c := _resume_checkpoint torch_load t resume_path in
  start_epoch (after c) = ck_epoch checkpoint + 1 /\
  mnt_best (after c) = ck_monitor_best checkpoint /\
  (raised c = None ->
   last (emitted c) = Some (Info (MsgCheckpointLoaded (ck_epoch checkpoint + 1)))) /\
  (forall (writer : trainer) (N : Z) (save_best only_best : bool) (filename : Path),
     In (TorchSave checkpoint filename)
        (_save_checkpoint writer N save_best only_best) ->
     start_epoch (after c) = N + 1 /\ mnt_best (after c) = mnt_best writer).
Proof.
  intros Hload c.
  assert (Hc : c = {| after := after (resume_from t checkpoint);
                      raised := raised (resume_from t checkpoint);
                      emitted := Info (MsgLoadingCheckpoint resume_path)
                                 :: emitted (resume_from t checkpoint) |}).
  { subst c. unfold _resume_checkpoint. rewrite Hload. reflexivity. }
  rewrite Hc. cbn [after raised emitted].
  destruct (resume_from_frame t checkpoint)
    as (_ & _ & _ & _ & _ & _ & _ & _ & H1 & H2).
  split; [exact H1|]. split; [exact H2|]. split.
  - intros Hr.
    destruct (proj2 (resume_from_emitted t checkpoint
                       (Info (MsgLoadingCheckpoint resume_path))) Hr)
      as (Hg & _ & Hlast).
    rewrite resume_from_after, Hg in H1.
    rewrite H1 in Hlast.
    destruct (emitted (resume_from t checkpoint)) as [|ev evs];
      [discriminate|exact Hlast].
  - intros writer N b1 b2 filename Hin. simpl in Hin.
    destruct Hin as [Hin|[Hin|[]]]; [|discriminate].
    injection Hin as Hck Hname. rewrite H1, H2, <- Hck. simpl. auto.
Qed.

(** C6. Resuming from the checkpoint stored at the path loads both
    networks' parameters from it in every case, a difference in the
    architecture entries only adding a warning. If the generator's
    optimizer entry differs from the recorded one, the generator's
    optimizer keeps the state it had and the warning is logged; the same
    for the discriminator, whose warning is logged when resume gets as far
    as its block, which it does whenever resume returns. *)
Theorem C6_optimizer_mismatch_keeps_state
    (t : trainer) (resume_path : string) (checkpoint : CheckpointRecord) :
  torch_load resume_path = Some checkpoint ->
  let c := _resume_checkpoint torch_load t resume_path in
  parameters (generator (objs (after c))) = ck_generator_state_dict checkpoint /\
  parameters (discriminator (objs (after c))) =
    ck_discriminator_state_dict checkpoint /\
  (cfg_generator (ck_config checkpoint) <> cfg_generator (config t) \/
   cfg_discriminator (ck_config checkpoint) <> cfg_discriminator (config t) ->
   In (Warning MsgArchitectureDiffers) (emitted c)) /\
  (cfg_g_optimizer (ck_config checkpoint) <> cfg_g_optimizer (config t) ->
   g_optimizer (objs (after c)) = g_optimizer (objs t) /\
   In (Warning MsgOptimizerDiffers) (emitted c)) /\
  (cfg_d_optimizer (ck_config checkpoint) <> cfg_d_optimizer (config t) ->
   d_optimizer (objs (after c)) = d_optimizer (objs t) /\
   (raised c = None -> In (Warning MsgOptimizerDiffers) (emitted c))).
Proof.
  intros Hload c.
  assert (Hc : c = {| after := after (resume_from t checkpoint);
                      raised := raised (resume_from t checkpoint);
                      emitted := Info (MsgLoadingCheckpoint resume_path)
                                 :: emitted (resume_from t checkpoint) |}).
  { subst c. unfold _resume_checkpoint. rewrite Hload. reflexivity. }
  rewrite Hc. cbn [after raised emitted]. clear c Hc.
  rewrite resume_from_after.
  destruct (resume_networks_after t checkpoint)
    as (_ & _ & Ngen & Ndis & Ngo & Ndo & _).
  destruct (resume_networks_fields t checkpoint) as (_ & Ncfg & _).
  pose proof (fun ev => resume_from_emitted t checkpoint ev) as Hem.
  cbv zeta in Hem.
  assert (Harch :
            cfg_generator (ck_config checkpoint) <> cfg_generator (config t) \/
            cfg_discriminator (ck_config checkpoint) <> cfg_discriminator (config t) ->
            emitted (resume_networks t checkpoint) = [Warning MsgArchitectureDiffers]).
  { intros H. unfold resume_networks. cbn [emitted]. simpl.
    destruct H as [H|H]; apply String.eqb_neq in H; rewrite H;
      [reflexivity | rewrite orb_true_r; reflexivity]. }
  set (n := after (resume_networks t checkpoint)) in *.
  destruct (resume_g_optimizer_frame n checkpoint) as (Gcfg & Ggen & Gdis & Gdo & _).
  pose proof (resume_g_mismatch n checkpoint) as Gmis.
  set (g := resume_g_optimizer n checkpoint) in *.
  destruct (resume_d_optimizer_frame (after g) checkpoint)
    as (Dcfg & Dgen & Ddis & Dgo & _).
  pose proof (resume_d_mismatch (after g) checkpoint) as Dmis.
  set (d := resume_d_optimizer (after g) checkpoint) in *.
  split; [destruct (raised g); congruence|].
  split; [destruct (raised g); congruence|].
  split; [|split].
  - intros H. right. apply (proj1 (Hem (Warning MsgArchitectureDiffers))). left.
    rewrite (Harch H). left. reflexivity.
  - intros H. rewrite <- Ncfg in H. specialize (Gmis H).
    split.
    + rewrite Gmis. cbn [raised after]. rewrite Dgo, Gmis. exact Ngo.
    + right. apply (proj1 (Hem (Warning MsgOptimizerDiffers))). right.
      rewrite Gmis. left. reflexivity.
  - intros H. rewrite <- Ncfg, <- Gcfg in H. specialize (Dmis H).
    split.
    + destruct (raised g); [congruence|].
      rewrite Dmis. cbn [after]. congruence.
    + intros Hr. right.
      destruct (proj2 (Hem (Warning MsgOptimizerDiffers)) Hr) as (_ & Hd & _).
      apply Hd. rewrite Dmis. left. reflexivity.
Qed.

(** C4 (amended). With a scheduler attached to the generator and its state
    recorded in the checkpoint, resume loads the generator scheduler's
    state exactly when the generator's optimizer entry and its scheduler
    entry are both unchanged from the recorded configuration; otherwise
    the scheduler keeps the state it had. For the discriminator, a changed
    optimizer entry leaves its scheduler with the state it had, and resume
    returns. *)
Theorem C4_generator_scheduler_restored_iff_unchanged
    (t : trainer) (resume_path : string) (checkpoint : CheckpointRecord)
    (fresh recorded : state_dict) :
  torch_load resume_path = Some checkpoint ->
  g_lr_scheduler (objs t) = Some fresh ->
  ck_g_lr_scheduler checkpoint = Some recorded ->
  let c := _resume_checkpoint torch_load t resume_path in
  (cfg_g_optimizer (ck_config checkpoint) = cfg_g_optimizer (config t) /\
   cfg_g_lr_scheduler (ck_config checkpoint) = cfg_g_lr_scheduler (config t) ->
   g_lr_scheduler (objs (after c)) = Some recorded) /\
  (~ (cfg_g_optimizer (ck_config checkpoint) = cfg_g_optimizer (config t) /\
      cfg_g_lr_scheduler (ck_config checkpoint) = cfg_g_lr_scheduler (config t)) ->
   g_lr_scheduler (objs (after c)) = Some fresh) /\
  (cfg_d_optimizer (ck_config checkpoint) <> cfg_d_optimizer (config t) ->
   d_lr_scheduler (objs (after c)) = d_lr_scheduler (objs t) /\
   raised c = None).
Proof.
  intros Hload Hfresh Hrec c. subst c. unfold _resume_checkpoint.
  rewrite Hload. unfold resume_from. cbv zeta.
  match goal with
  | |- context [resume_g_optimizer ?t0 checkpoint] => set (T := t0)
  end.
  assert (HT : config T = config t /\
               g_lr_scheduler (objs T) = g_lr_scheduler (objs t) /\
               d_lr_scheduler (objs T) = d_lr_scheduler (objs t))
    by (repeat split; reflexivity).
  destruct HT as (HTc & HTg & HTd).
  rewrite <- HTc, <- HTd. rewrite <- HTg in Hfresh. clearbody T.
  destruct (resume_g_scheduler T checkpoint fresh recorded Hfresh Hrec)
    as (Hraised & Hsched).
  destruct (resume_g_optimizer_frame T checkpoint) as (Hgc & _ & _ & _ & Hgd).
  set (g := resume_g_optimizer T checkpoint) in *.
  rewrite Hraised.
  destruct (resume_d_optimizer_frame (after g) checkpoint)
    as (_ & _ & _ & _ & Hdg).
  assert (Hafter : g_lr_scheduler
                     (objs (after (resume_d_optimizer (after g) checkpoint))) =
                   if String.eqb (cfg_g_optimizer (ck_config checkpoint))
                        (cfg_g_optimizer (config T))
                      && String.eqb (cfg_g_lr_scheduler (ck_config checkpoint))
                           (cfg_g_lr_scheduler (config T))
                   then Some recorded else Some fresh)
    by (rewrite Hdg; exact Hsched).
  split; [|split].
  - intros [H1 H2]. apply String.eqb_eq in H1, H2.
    rewrite H1, H2 in Hafter.
    destruct (raised (resume_d_optimizer (after g) checkpoint)); exact Hafter.
  - intros Hn.
    destruct (String.eqb (cfg_g_optimizer (ck_config checkpoint))
                (cfg_g_optimizer (config T))) eqn:H1;
    destruct (String.eqb (cfg_g_lr_scheduler (ck_config checkpoint))
                (cfg_g_lr_scheduler (config T))) eqn:H2; simpl in Hafter;
    try (destruct (raised (resume_d_optimizer (after g) checkpoint));
         exact Hafter).
    exfalso. apply Hn. split; by apply String.eqb_eq.
  - intros Hd. rewrite <- Hgc in Hd.
    rewrite (resume_d_mismatch (after g) checkpoint Hd). simpl.
    split; [exact Hgd | reflexivity].
Qed.

(** *** C9: the flags of [_save_checkpoint] *)

(** C9. Whatever the two flags, [_save_checkpoint] does the same thing: it
    writes one record, with the epoch number in it, to the one path made of
    the checkpoint directory and the file name "checkpoint-epoch",
    the epoch number in decimal, ".pth", and logs that path; nothing else
    is written. *)
Theorem C9_save_checkpoint_ignores_flags
    (t : trainer) (epoch : Z) (save_best only_best save_best' only_best' : bool) :
  _save_checkpoint t epoch save_best only_best =
    _save_checkpoint t epoch save_best' only_best' /\
  saved_paths (_save_checkpoint t epoch save_best only_best) =
    [PathDiv (checkpoint_dir t) ("checkpoint-epoch" ++ pretty epoch ++ ".pth")] /\
  saved_epochs (_save_checkpoint t epoch save_best only_best) = [epoch] /\
  (forall (t' : trainer),
     checkpoint_dir t' = checkpoint_dir t ->
     saved_paths (_save_checkpoint t' epoch save_best' only_best') =
       saved_paths (_save_checkpoint t epoch save_best only_best)).
Proof.
  split; [reflexivity|]. split; [reflexivity|]. split; [reflexivity|].
  intros t' H. unfold _save_checkpoint, saved_paths. simpl. rewrite H.
  reflexivity.
Qed.


(** *** C10: the counter is local to one run *)

Lemma monitor_count_free_events (t : trainer) (c1 c2 : Z) (log : gmap string Py.num) :
  st_flow (fst (monitor t c1 log)) = Continue ->
  st_flow (fst (monitor t c2 log)) = Continue ->
  st_events (fst (monitor t c1 log)) = st_events (fst (monitor t c2 log)).
Proof.
  unfold monitor, check_improved;
  destruct (String.eqb (mnt_mode t) "min");
  [| destruct (String.eqb (mnt_mode t) "max")];
  (destruct (log !! mnt_metric t) as [v|] eqn:Hlog; simpl; rewrite ?Hlog; simpl);
  repeat match goal with
         | |- context [if ?b then _ else _] => destruct b; simpl; rewrite ?Hlog; simpl
         end;
  auto; discriminate.
Qed.

(** The counter an epoch starts with decides whether the loop stops and
    nothing else: not the trainer afterwards, and, when the epoch runs to
    its end, not what is logged and written. *)
Lemma loop_body_count_free (t : trainer) (c1 c2 epoch : Z) :
  st_trainer (loop_body _train_epoch t c1 epoch) =
    st_trainer (loop_body _train_epoch t c2 epoch) /\
  (st_flow (loop_body _train_epoch t c1 epoch) = Continue ->
   st_flow (loop_body _train_epoch t c2 epoch) = Continue ->
   st_events (loop_body _train_epoch t c1 epoch) =
     st_events (loop_body _train_epoch t c2 epoch)).
Proof.
  destruct (_train_epoch epoch (objs t)) as [result o|o] eqn:Hhook.
  - destruct (String.eqb (mnt_mode t) "off") eqn:Hoff.
    + apply String.eqb_eq in Hoff.
      rewrite !(loop_body_off t _ epoch result o Hhook Hoff).
      unfold save_if_due. simpl.
      destruct (save_period t =? 0); [split; [reflexivity|discriminate]|].
      destruct (_ || _); simpl; auto.
    + apply String.eqb_neq in Hoff.
      rewrite !(loop_body_on t _ epoch result o Hhook Hoff).
      set (T := set_objs o (set_last_epoch epoch t)).
      set (log := make_log epoch result). cbv zeta.
      destruct (monitor_count_free T c1 c2 log) as (Ht & Hb & _).
      pose proof (monitor_count_free_events T c1 c2 log) as He.
      assert (Hs1 : forall c,
                st_trainer
                  match st_flow (fst (monitor T c log)) with
                  | Continue =>
                      save_if_due (st_trainer (fst (monitor T c log)))
                        (st_count (fst (monitor T c log))) epoch
                        (snd (monitor T c log))
                        (log_lines log ++ st_events (fst (monitor T c log)))
                  | _ =>
                      {| st_trainer := st_trainer (fst (monitor T c log));
                         st_count := st_count (fst (monitor T c log));
                         st_flow := st_flow (fst (monitor T c log));
                         st_events :=
                           log_lines log ++ st_events (fst (monitor T c log)) |}
                  end = st_trainer (fst (monitor T c log))).
      { intros c. destruct (st_flow (fst (monitor T c log))); simpl;
          [apply save_if_due_frame | reflexivity..]. }
      split; [rewrite !Hs1; exact Ht|].
      destruct (st_flow (fst (monitor T c1 log))) eqn:H1; simpl;
        [|rewrite ?H1; discriminate..].
      destruct (st_flow (fst (monitor T c2 log))) eqn:H2; simpl;
        [|intros _; rewrite ?H2; discriminate..].
      rewrite <- Ht, <- Hb, <- (He eq_refl eq_refl).
      unfold save_if_due.
      destruct (save_period _ =? 0); [discriminate|].
      destruct (_ || _); simpl; auto.
  - rewrite !(loop_body_interrupted t _ epoch o Hhook). simpl.
    split; [reflexivity|discriminate].
Qed.

Lemma range_nth (a n : Z) (pre post : list Z) (e : Z) :
  seqZ a n = pre ++ e :: post -> e = a + Z.of_nat (length pre).
Proof.
  intros H.
  assert (Hl : seqZ a n !! length pre = Some e)
    by (rewrite H; apply list_lookup_middle; reflexivity).
  apply lookup_seqZ in Hl. tauto.
Qed.

(** A run that stops early has attempted more epochs than the patience. *)
Lemma train_process_streak (t : trainer) :
  let r := _train_process _train_epoch t in
  st_flow r = Break ->
  Py.gt (Py.Int (_last_epoch (st_trainer r) - start_epoch t + 1)) (early_stop t)
    = true.
Proof.
  intros r Hbreak. subst r. unfold _train_process in *.
  set (es := Py.range (start_epoch t) (epochs t + 1)) in *.
  destruct (for_epochs_patience es t 0) as (Hp & _).
  specialize (Hp Hbreak).
  destruct (for_epochs_left es t 0) as (pre & e & post & Hes & Hlast & Hcnt).
  { rewrite Hbreak. discriminate. }
  apply range_nth in Hes. rewrite Hlast, Hes.
  eapply gt_int_mono; [|exact Hp]. lia.
Qed.

(** C10. The not-improved counter is the local variable of one call of
    [_train_process]: every run starts its loop with the counter at 0, and
    so does the run of a trainer resumed from a checkpoint, which attempts
    the epochs after the recorded one and stops early only after more
    epochs of its own than the patience. The counter an epoch starts
    with does not reach the trainer nor, when the epoch runs to its end,
    anything logged or written, so no checkpoint record depends on it. *)
Theorem C10_counter_restarts_at_zero :
  (forall t : trainer,
     _train_process _train_epoch t =
       for_epochs _train_epoch (Py.range (start_epoch t) (epochs t + 1)) t 0) /\
  (forall (t : trainer) (resume_path : string) (checkpoint : CheckpointRecord),
     torch_load resume_path = Some checkpoint ->
     let t' := after (_resume_checkpoint torch_load t resume_path) in
     let r := train _train_epoch t' in
     _train_process _train_epoch t' =
       for_epochs _train_epoch
         (Py.range (ck_epoch checkpoint + 1) (epochs t + 1)) t' 0 /\
     (st_flow r = Break ->
      Py.gt (Py.Int (_last_epoch (st_trainer r) - ck_epoch checkpoint))
        (early_stop t) = true)) /\
  (forall (t : trainer) (c1 c2 epoch : Z),
     st_trainer (loop_body _train_epoch t c1 epoch) =
       st_trainer (loop_body _train_epoch t c2 epoch) /\
     (st_flow (loop_body _train_epoch t c1 epoch) = Continue ->
      st_flow (loop_body _train_epoch t c2 epoch) = Continue ->
      st_events (loop_body _train_epoch t c1 epoch) =
        st_events (loop_body _train_epoch t c2 epoch))).
Proof.
  split; [reflexivity|]. split; [|apply loop_body_count_free].
  intros t resume_path checkpoint Hload t' r.
  assert (Hf : start_epoch t' = ck_epoch checkpoint + 1 /\
               epochs t' = epochs t /\ early_stop t' = early_stop t).
  { subst t'. unfold _resume_checkpoint. rewrite Hload. simpl.
    pose proof (resume_from_frame t checkpoint) as Hf. simpl in Hf. tauto. }
  destruct Hf as (Hstart & Hepochs & Hes).
  split.
  - unfold _train_process. rewrite Hstart, Hepochs. reflexivity.
  - intros Hbreak. destruct (train_flow t') as (Hfl & _ & Htr).
    subst r. rewrite Hfl in Hbreak. rewrite Htr.
    pose proof (train_process_streak t' Hbreak) as H.
    rewrite Hstart, Hes in H.
    replace (_last_epoch (st_trainer (_train_process _train_epoch t')) -
             ck_epoch checkpoint)
      with (_last_epoch (st_trainer (_train_process _train_epoch t')) -
            (ck_epoch checkpoint + 1) + 1) by lia.
    exact H.
Qed.


(** *** The monitor mode of a constructed trainer *)

Lemma init_monitor_mode (cfg : trainer_config) (mode metric : string)
    (best patience : Py.num) :
  init_monitor cfg = inr (mode, metric, best, patience) ->
  mode = "off" \/ mode = "min" \/ mode = "max".
Proof.
  unfold init_monitor.
  destruct (String.eqb (default "off" (cfg_monitor cfg)) "off").
  { intros H. inversion H. auto. }
  destruct (Py.split (default "off" (cfg_monitor cfg))) as [|a [|b [|? ?]]];
    try discriminate.
  destruct (String.eqb a "min") eqn:Hmin; simpl.
  { intros H. inversion H; subst. apply String.eqb_eq in Hmin. auto. }
  destruct (String.eqb a "max") eqn:Hmax; [|discriminate].
  intros H. inversion H; subst. apply String.eqb_eq in Hmax. auto.
Qed.

Lemma init_mode (generator discriminator : nn_module)
    (g_optimizer d_optimizer : state_dict)
    (g_lr_scheduler d_lr_scheduler : option state_dict) (config : Config) (c : call) :
  __init__ torch_load generator discriminator g_optimizer d_optimizer
    g_lr_scheduler d_lr_scheduler config = inr c ->
  mnt_mode (after c) = "off" \/ mnt_mode (after c) = "min" \/
  mnt_mode (after c) = "max".
Proof.
  unfold __init__.
  destruct (init_monitor (cfg_trainer config)) as [e|[[[mode metric] best] patience]] eqn:Hi;
    [discriminate|].
  apply init_monitor_mode in Hi.
  destruct (cfg_resume config) as [p|]; intros H; inversion H; subst; simpl.
  - match goal with
    | |- context [_resume_checkpoint torch_load ?t p] =>
        pose proof (resume_checkpoint_frame t p) as Hf
    end.
    simpl in Hf. destruct Hf as (_ & _ & _ & _ & -> & _). exact Hi.
  - exact Hi.
Qed.

Lemma monitor_keeps_or_switches_off (t : trainer) (cnt : Z) (log : gmap string Py.num) :
  mnt_mode (st_trainer (fst (monitor t cnt log))) = mnt_mode t \/
  mnt_mode (st_trainer (fst (monitor t cnt log))) = "off".
Proof. monitor_cases t log; auto. Qed.

Lemma loop_body_mode (t : trainer) (cnt epoch : Z) :
  mnt_mode (st_trainer (loop_body _train_epoch t cnt epoch)) = mnt_mode t \/
  mnt_mode (st_trainer (loop_body _train_epoch t cnt epoch)) = "off".
Proof.
  loop_cases t cnt epoch.
  - destruct (save_if_due_frame (set_objs o (set_last_epoch epoch t)) cnt epoch
                false (log_lines (make_log epoch result))) as (-> & _).
    left. reflexivity.
  - pose proof (monitor_keeps_or_switches_off
                  (set_objs o (set_last_epoch epoch t)) cnt
                  (make_log epoch result)) as Hm. simpl in Hm. simpl.
    destruct (st_flow _); simpl;
      [match goal with
       | |- context [save_if_due ?a ?b ?c ?d ?e] =>
           destruct (save_if_due_frame a b c d e) as (-> & _)
       end|..]; exact Hm.
  - left. reflexivity.
Qed.

Lemma for_epochs_mode (es : list Z) (t : trainer) (cnt : Z) :
  mnt_mode (st_trainer (for_epochs _train_epoch es t cnt)) = mnt_mode t \/
  mnt_mode (st_trainer (for_epochs _train_epoch es t cnt)) = "off".
Proof.
  revert t cnt. induction es as [|e es IH]; intros t cnt; simpl.
  - left. reflexivity.
  - pose proof (loop_body_mode t cnt e) as Hb.
    destruct (st_flow (loop_body _train_epoch t cnt e)); simpl; [|exact Hb..].
    destruct (IH (st_trainer (loop_body _train_epoch t cnt e))
                (st_count (loop_body _train_epoch t cnt e))) as [H|H];
      [rewrite H; exact Hb | right; exact H].
Qed.

(** X1. The monitor mode of a trainer built by the constructor is "off",
    "min" or "max", and it still is after [train]: a run keeps the
    mode or switches it to "off". *)
Theorem constructed_mode_off_min_max
    (generator discriminator : nn_module) (g_optimizer d_optimizer : state_dict)
    (g_lr_scheduler d_lr_scheduler : option state_dict) (config : Config) (c : call) :
  __init__ torch_load generator discriminator g_optimizer d_optimizer
    g_lr_scheduler d_lr_scheduler config = inr c ->
  let before := mnt_mode (after c) in
  let later := mnt_mode (st_trainer (train _train_epoch (after c))) in
  (before = "off" \/ before = "min" \/ before = "max") /\
  (later = before \/ later = "off").
Proof.
  intros Hinit before later.
  split; [exact (init_mode _ _ _ _ _ _ _ _ Hinit)|].
  subst later before. destruct (train_flow (after c)) as (_ & _ & ->).
  apply for_epochs_mode.
Qed.


(** *** Runs in which the metric is always reported *)

Lemma monitor_reported (t : trainer) (cnt : Z) (log : gmap string Py.num) :
  is_Some (log !! mnt_metric t) ->
  warnings (st_events (fst (monitor t cnt log))) = [] /\
  mnt_mode (st_trainer (fst (monitor t cnt log))) = mnt_mode t.
Proof.
  intros [v Hv]. monitor_cases t log; try congruence; split; reflexivity.
Qed.

Lemma loop_body_reported (t : trainer) (cnt epoch : Z) :
  (forall result o,
     _train_epoch epoch (objs t) = Returned result o ->
     is_Some (result !! mnt_metric t)) ->
  warnings (st_events (loop_body _train_epoch t cnt epoch)) = [] /\
  mnt_mode (st_trainer (loop_body _train_epoch t cnt epoch)) = mnt_mode t.
Proof.
  intros Hrep. loop_cases t cnt epoch.
  - destruct (loop_body_unmonitored t cnt epoch Hoff) as (H1 & _ & _ & _ & H5).
    rewrite (loop_body_off t cnt epoch result o Hhook Hoff) in H1, H5.
    rewrite H1, H5, Hoff. auto.
  - destruct (Hrep result o eq_refl) as [v Hv].
    assert (Hlog : is_Some (make_log epoch result
                              !! mnt_metric (set_objs o (set_last_epoch epoch t))))
      by (exists v; apply make_log_result; exact Hv).
    destruct (monitor_reported (set_objs o (set_last_epoch epoch t)) cnt
                (make_log epoch result) Hlog) as (Hw & Hm).
    simpl in Hm. simpl.
    destruct (st_flow _); simpl;
      [match goal with
       | |- context [save_if_due ?a ?b ?c ?d ?e] =>
           destruct (save_if_due_frame a b c d e) as (-> & _ & _ & ->)
       end|..];
      rewrite warnings_app, log_lines_no_warning, Hw; auto.
  - simpl. auto.
Qed.

Lemma for_epochs_reported (es : list Z) (t : trainer) (cnt : Z) :
  (forall e o result o',
     _train_epoch e o = Returned result o' -> is_Some (result !! mnt_metric t)) ->
  warnings (st_events (for_epochs _train_epoch es t cnt)) = [] /\
  mnt_mode (st_trainer (for_epochs _train_epoch es t cnt)) = mnt_mode t.
Proof.
  intros Hrep. revert t cnt Hrep.
  induction es as [|e es IH]; intros t cnt Hrep; simpl.
  - auto.
  - destruct (loop_body_reported t cnt e) as (Hw & Hm); [eauto|].
    pose proof (loop_body_frame t cnt e) as Hf. simpl in Hf.
    destruct Hf as (_ & _ & _ & _ & _ & _ & Hmetric & _).
    destruct (st_flow (loop_body _train_epoch t cnt e)); simpl; [|auto..].
    destruct (IH (st_trainer (loop_body _train_epoch t cnt e))
                (st_count (loop_body _train_epoch t cnt e))) as (Iw & Im).
    { intros e' o result o' H. rewrite Hmetric. eauto. }
    rewrite warnings_app, Hw, Iw, Im. auto.
Qed.

(** X2. If every result the hook returns holds the monitored metric, a
    run logs no warning and ends with the monitor mode it started with:
    monitoring is switched off by a missing metric only. *)
Theorem reported_metric_keeps_monitoring (t : trainer) :
  (forall e o result o',
     _train_epoch e o = Returned result o' -> is_Some (result !! mnt_metric t)) ->
  warnings (st_events (train _train_epoch t)) = [] /\
  mnt_mode (st_trainer (train _train_epoch t)) = mnt_mode t.
Proof.
  intros Hrep.
  destruct (for_epochs_reported (Py.range (start_epoch t) (epochs t + 1)) t 0 Hrep)
    as (Hw & Hm).
  fold (_train_process _train_epoch t) in Hw, Hm.
  destruct (train_flow t) as (_ & _ & Ht). rewrite Ht. split; [|exact Hm].
  unfold train.
  destruct (st_flow (_train_process _train_epoch t)) as [| |[]]; simpl;
    try exact Hw.
  rewrite warnings_app, Hw. reflexivity.
Qed.

(** *** An epoch marked best *)

Lemma monitor_best_resets (t : trainer) (cnt : Z) (log : gmap string Py.num) :
  snd (monitor t cnt log) = true -> st_count (fst (monitor t cnt log)) = 0.
Proof. monitor_cases t log; try discriminate; reflexivity. Qed.

(** X3. With a patience that is not negative (as the constructor leaves
    it), an epoch marked best leaves the counter at 0 and does not stop
    the loop; with a non-zero save period it runs to its end and writes
    its checkpoint, whatever the epoch number. *)
Theorem best_epoch_is_saved (t : trainer) (cnt epoch : Z) :
  Py.gt (Py.Int 0) (early_stop t) = false ->
  marked_best _train_epoch t cnt epoch = true ->
  let s := loop_body _train_epoch t cnt epoch in
  st_count s = 0 /\ st_flow s <> Break /\
  (save_period t <> 0 ->
   st_flow s = Continue /\ saved_epochs (st_events s) = [epoch]).
Proof.
  intros Hes Hbest s.
  assert (Hbest' := Hbest). unfold marked_best in Hbest'.
  destruct (_train_epoch epoch (objs t)) as [result o|o] eqn:Hhook;
    [|discriminate].
  apply andb_true_iff in Hbest'. destruct Hbest' as (Hon & Hb).
  apply negb_true_iff, String.eqb_neq in Hon.
  set (T := set_objs o (set_last_epoch epoch t)) in *.
  pose proof (monitor_best_resets T cnt _ Hb) as Hc.
  pose proof (monitor_flow T cnt (make_log epoch result)) as Hfl.
  rewrite Hc in Hfl. simpl in Hfl. rewrite Hes in Hfl.
  pose proof (monitor_frame T cnt (make_log epoch result)) as Hf.
  simpl in Hf. destruct Hf as (_ & _ & _ & _ & Hsp & _).
  pose proof (loop_body_saved t cnt epoch) as (Hsaved & _). fold s in Hsaved.
  assert (Hs : s = save_if_due (st_trainer (fst (monitor T cnt (make_log epoch result))))
                     0 epoch true
                     (log_lines (make_log epoch result) ++
                      st_events (fst (monitor T cnt (make_log epoch result))))).
  { subst s. rewrite (loop_body_on t cnt epoch result o Hhook Hon). fold T.
    cbv zeta. rewrite Hfl, Hc, Hb. reflexivity. }
  destruct (save_if_due_frame
              (st_trainer (fst (monitor T cnt (make_log epoch result)))) 0 epoch
              true (log_lines (make_log epoch result) ++
                    st_events (fst (monitor T cnt (make_log epoch result)))))
    as (_ & Hcount & Hnb & _).
  rewrite <- Hs in Hcount, Hnb.
  split; [exact Hcount|]. split; [exact Hnb|].
  intros Hne.
  assert (Hcont : st_flow s = Continue).
  { rewrite Hs. unfold save_if_due. rewrite Hsp. simpl.
    apply Z.eqb_neq in Hne. rewrite Hne. rewrite orb_true_r. reflexivity. }
  split; [exact Hcont|].
  rewrite (Hsaved Hcont), Hbest, orb_true_r. reflexivity.
Qed.


(** *** Runs without monitoring *)

Lemma init_mode_off (generator discriminator : nn_module)
    (g_optimizer d_optimizer : state_dict)
    (g_lr_scheduler d_lr_scheduler : option state_dict) (config : Config) (c : call) :
  __init__ torch_load generator discriminator g_optimizer d_optimizer
    g_lr_scheduler d_lr_scheduler config = inr c ->
  default "off" (cfg_monitor (cfg_trainer config)) = "off" ->
  mnt_mode (after c) = "off" /\
  save_period (after c) = cfg_save_period (cfg_trainer config) /\
  epochs (after c) = cfg_epochs (cfg_trainer config) /\
  (cfg_resume config = None ->
   mnt_best (after c) = Py.Int 0 /\ start_epoch (after c) = 1).
Proof.
  unfold __init__, init_monitor. intros H Hoff. rewrite Hoff in H. simpl in H.
  destruct (cfg_resume config) as [p|]; inversion H; subst; clear H; simpl.
  - match goal with
    | |- context [_resume_checkpoint torch_load ?t p] =>
        pose proof (resume_checkpoint_frame t p) as Hf
    end.
    simpl in Hf. destruct Hf as (_ & _ & -> & -> & -> & _).
    repeat split; discriminate.
  - repeat split; reflexivity.
Qed.

Lemma for_epochs_unmonitored_saved (es : list Z) (t : trainer) (cnt : Z) :
  mnt_mode t = "off" -> save_period t <> 0 ->
  (forall e o, exists result o', _train_epoch e o = Returned result o') ->
  st_flow (for_epochs _train_epoch es t cnt) = Continue /\
  saved_epochs (st_events (for_epochs _train_epoch es t cnt)) =
    List.filter (fun e => e mod save_period t =? 0) es.
Proof.
  intros Hoff Hsp Hret. revert t cnt Hoff Hsp.
  induction es as [|e es IH]; intros t cnt Hoff Hsp; simpl.
  - auto.
  - destruct (Hret e (objs t)) as (result & o & Hhook).
    assert (Hfl : st_flow (loop_body _train_epoch t cnt e) = Continue).
    { rewrite (loop_body_off t cnt e result o Hhook Hoff).
      unfold save_if_due. simpl. apply Z.eqb_neq in Hsp. rewrite Hsp.
      destruct ((e mod save_period t =? 0) || false); reflexivity. }
    destruct (loop_body_saved t cnt e) as (Hsaved & _).
    specialize (Hsaved Hfl).
    assert (Hnb : marked_best _train_epoch t cnt e = false).
    { unfold marked_best. rewrite Hhook. apply String.eqb_eq in Hoff.
      rewrite Hoff. reflexivity. }
    rewrite Hnb, orb_false_r in Hsaved.
    destruct (loop_body_unmonitored t cnt e Hoff) as (Hm & _).
    pose proof (loop_body_frame t cnt e) as Hf. simpl in Hf.
    destruct Hf as (_ & _ & _ & Hsp' & _).
    rewrite Hfl. simpl.
    destruct (IH (st_trainer (loop_body _train_epoch t cnt e))
                (st_count (loop_body _train_epoch t cnt e)) Hm) as (Ifl & Isaved).
    { rewrite Hsp'. exact Hsp. }
    split; [exact Ifl|].
    rewrite saved_epochs_app, Hsaved, Isaved, Hsp'.
    destruct (e mod save_period t =? 0); reflexivity.
Qed.


(** X4. A trainer built from a configuration without monitoring (no
    [monitor] key, or "off"), with a non-zero save period and a hook that
    always returns: the run goes through every epoch, logs no warning,
    leaves [mnt_best] and the counter as they were, and writes a
    checkpoint for exactly the epochs of the range that are multiples of
    the save period, in order. Without resume that is [mnt_best] 0 from
    epoch 1. *)
Theorem unmonitored_run_saves_every_period
    (generator discriminator : nn_module) (g_optimizer d_optimizer : state_dict)
    (g_lr_scheduler d_lr_scheduler : option state_dict) (config : Config) (c : call) :
  __init__ torch_load generator discriminator g_optimizer d_optimizer
    g_lr_scheduler d_lr_scheduler config = inr c ->
  default "off" (cfg_monitor (cfg_trainer config)) = "off" ->
  cfg_save_period (cfg_trainer config) <> 0 ->
  (forall e o, exists result o', _train_epoch e o = Returned result o') ->
  let t := after c in
  let r := train _train_epoch t in
  st_flow r = Continue /\ st_count r = 0 /\
  warnings (st_events r) = [] /\
  mnt_best (st_trainer r) = mnt_best t /\
  saved_epochs (st_events r) =
    List.filter (fun e => e mod cfg_save_period (cfg_trainer config) =? 0)
      (Py.range (start_epoch t) (cfg_epochs (cfg_trainer config) + 1)) /\
  (cfg_resume config = None -> mnt_best t = Py.Int 0 /\ start_epoch t = 1).
Proof.
  intros Hinit Hmon Hsp Hret t r.
  destruct (init_mode_off _ _ _ _ _ _ _ _ Hinit Hmon) as (Hoff & Hp & He & Hfresh).
  fold t in Hoff, Hp, He, Hfresh.
  assert (Hsp' : save_period t <> 0) by (rewrite Hp; exact Hsp).
  destruct (for_epochs_unmonitored_saved
              (Py.range (start_epoch t) (epochs t + 1)) t 0 Hoff Hsp' Hret)
    as (Hfl & Hsaved).
  destruct (for_epochs_unmonitored
              (Py.range (start_epoch t) (epochs t + 1)) t 0 Hoff)
    as (_ & Hbest & Hcnt & _ & Hw).
  fold (_train_process _train_epoch t) in Hfl, Hsaved, Hbest, Hcnt, Hw.
  assert (Hr : r = _train_process _train_epoch t).
  { subst r. unfold train. rewrite Hfl. reflexivity. }
  rewrite Hr, Hsaved, Hp, He. auto 7.
Qed.

(** *** A save period of zero *)

Lemma loop_body_zero_period (t : trainer) (cnt epoch : Z) :
  save_period t = 0 ->
  let s := loop_body _train_epoch t cnt epoch in
  saved_epochs (st_events s) = [] /\
  ((exists result o, _train_epoch epoch (objs t) = Returned result o) ->
   st_flow s = Break \/ st_flow s = Raise ZeroDivisionError).
Proof.
  intros Hsp s.
  assert (Hflow : (st_flow s = Break \/ st_flow s = Raise ZeroDivisionError) \/
                  (st_flow s = Raise KeyboardInterrupt /\
                   ~ exists result o,
                       _train_epoch epoch (objs t) = Returned result o)).
  { subst s. loop_cases t cnt epoch.
    - unfold save_if_due. simpl. rewrite Hsp. simpl. auto.
    - pose proof (monitor_flow (set_objs o (set_last_epoch epoch t)) cnt
                    (make_log epoch result)) as Hfl. simpl in Hfl.
      pose proof (monitor_frame (set_objs o (set_last_epoch epoch t)) cnt
                    (make_log epoch result)) as Hf.
      simpl in Hf. destruct Hf as (_ & _ & _ & _ & Hsp' & _).
      simpl. destruct (Py.gt _ _); rewrite Hfl; simpl; [auto|].
      unfold save_if_due. rewrite Hsp', Hsp. simpl. auto.
    - simpl. right. split; [reflexivity|].
      intros (result & o' & H). discriminate. }
  split.
  - apply (proj2 (loop_body_saved t cnt epoch)). fold s.
    destruct Hflow as [[->| ->]|[-> _]]; discriminate.
  - intros Hret. destruct Hflow as [H|[_ H]]; [exact H | contradiction].
Qed.

(** X5. With a save period of 0 the test of line 137 divides by zero: a
    run with at least one epoch never gets past its first epoch and the
    loop writes no checkpoint. If the hook returns in that epoch, [train]
    ends by the early stop or, otherwise, raises [ZeroDivisionError]. *)
Theorem zero_save_period_first_epoch (t : trainer) (result : EpochResult) (o : objects) :
  save_period t = 0 ->
  start_epoch t <= epochs t ->
  _train_epoch (start_epoch t) (objs t) = Returned result o ->
  let r := train _train_epoch t in
  (st_flow r = Break \/ st_flow r = Raise ZeroDivisionError) /\
  _last_epoch (st_trainer r) = start_epoch t /\
  saved_epochs (st_events r) = [].
Proof.
  intros Hsp Hrange Hhook r.
  assert (Hes : Py.range (start_epoch t) (epochs t + 1) =
                start_epoch t :: Py.range (start_epoch t + 1) (epochs t + 1)).
  { rewrite (range_split (start_epoch t) (start_epoch t) (epochs t + 1)) by lia.
    unfold Py.range at 1. rewrite Z.sub_diag. reflexivity. }
  destruct (loop_body_zero_period t 0 (start_epoch t) Hsp) as (Hsaved & Hflow).
  specialize (Hflow (ex_intro _ result (ex_intro _ o Hhook))).
  pose proof (loop_body_frame t 0 (start_epoch t)) as Hf. simpl in Hf.
  destruct Hf as (_ & _ & _ & _ & _ & _ & _ & Hlast).
  assert (Hp : _train_process _train_epoch t =
               loop_body _train_epoch t 0 (start_epoch t)).
  { unfold _train_process. rewrite Hes. simpl.
    destruct Hflow as [-> | ->]; reflexivity. }
  assert (Hr : r = loop_body _train_epoch t 0 (start_epoch t)).
  { subst r. unfold train. rewrite Hp.
    destruct Hflow as [-> | ->]; reflexivity. }
  rewrite Hr. auto.
Qed.


(** *** Where and what a run writes *)

Lemma string_length_app (s1 s2 : string) :
  String.length (s1 ++ s2) = (String.length s1 + String.length s2)%nat.
Proof. induction s1 as [|c s1 IH]; simpl; [reflexivity | by rewrite IH]. Qed.

Lemma string_app_inj_r (s s1 s2 : string) : (s1 ++ s = s2 ++ s)%string -> s1 = s2.
Proof.
  revert s2. induction s1 as [|c s1 IH]; intros [|c' s2] H; simpl in H.
  - reflexivity.
  - apply (f_equal String.length) in H. simpl in H.
    rewrite !string_length_app in H. simpl in H. lia.
  - apply (f_equal String.length) in H. simpl in H.
    rewrite !string_length_app in H. simpl in H. lia.
  - injection H as -> H. f_equal. by apply IH.
Qed.

(** Different epochs have different checkpoint files. *)
Lemma checkpoint_file_inj (dir : Path) (e1 e2 : Z) :
  checkpoint_file dir e1 = checkpoint_file dir e2 -> e1 = e2.
Proof.
  unfold checkpoint_file. intros H. injection H as H.
  change (pretty e1 ++ ".pth" = pretty e2 ++ ".pth")%string in H.
  apply string_app_inj_r in H. by apply pretty_Z_inj in H.
Qed.

Lemma placed_log_lines (dir : Path) (cfg : Config) (log : gmap string Py.num) :
  Forall (placed dir cfg) (log_lines log).
Proof.
  unfold log_lines. induction (map_to_list log) as [|kv l IH]; constructor;
    [exact I | exact IH].
Qed.

Lemma placed_monitor (dir : Path) (cfg : Config) (t : trainer) (cnt : Z)
    (log : gmap string Py.num) :
  Forall (placed dir cfg) (st_events (fst (monitor t cnt log))).
Proof. monitor_cases t log; repeat constructor. Qed.

Lemma placed_save_checkpoint (t : trainer) (epoch : Z) (b1 b2 : bool) :
  Forall (placed (checkpoint_dir t) (config t)) (_save_checkpoint t epoch b1 b2).
Proof. repeat constructor. Qed.

Lemma placed_save_if_due (t : trainer) (cnt epoch : Z) (best : bool)
    (evs : list event) :
  Forall (placed (checkpoint_dir t) (config t)) evs ->
  Forall (placed (checkpoint_dir t) (config t))
    (st_events (save_if_due t cnt epoch best evs)).
Proof.
  intros H. unfold save_if_due.
  destruct (save_period t =? 0); [exact H|].
  destruct (_ || _); simpl; [|exact H].
  apply Forall_app. split; [exact H | apply placed_save_checkpoint].
Qed.

Lemma loop_body_placed (t : trainer) (cnt epoch : Z) :
  Forall (placed (checkpoint_dir t) (config t))
    (st_events (loop_body _train_epoch t cnt epoch)).
Proof.
  loop_cases t cnt epoch.
  - apply (placed_save_if_due (set_objs o (set_last_epoch epoch t))).
    apply placed_log_lines.
  - pose proof (monitor_frame (set_objs o (set_last_epoch epoch t)) cnt
                  (make_log epoch result)) as Hf.
    simpl in Hf. destruct Hf as (_ & _ & Hcfg & _ & _ & _ & Hdir & _).
    assert (Hev : Forall (placed (checkpoint_dir t) (config t))
                    (log_lines (make_log epoch result) ++
                     st_events (fst (monitor (set_objs o (set_last_epoch epoch t))
                                       cnt (make_log epoch result)))))
      by (apply Forall_app; split; [apply placed_log_lines | apply placed_monitor]).
    simpl. destruct (st_flow _); simpl; try exact Hev.
    rewrite <- Hcfg, <- Hdir in Hev |- *. by apply placed_save_if_due.
  - constructor.
Qed.

Lemma for_epochs_placed (es : list Z) (t : trainer) (cnt : Z) :
  Forall (placed (checkpoint_dir t) (config t))
    (st_events (for_epochs _train_epoch es t cnt)).
Proof.
  revert t cnt. induction es as [|e es IH]; intros t cnt; simpl.
  - constructor.
  - pose proof (loop_body_placed t cnt e) as Hb.
    pose proof (loop_body_frame t cnt e) as Hf. simpl in Hf.
    destruct Hf as (_ & Hcfg & _ & _ & _ & Hdir & _).
    destruct (st_flow (loop_body _train_epoch t cnt e)); simpl; try exact Hb.
    apply Forall_app. split; [exact Hb|].
    rewrite <- Hcfg, <- Hdir. apply IH.
Qed.

Lemma train_placed (t : trainer) :
  Forall (placed (checkpoint_dir t) (config t)) (st_events (train _train_epoch t)).
Proof.
  pose proof (for_epochs_placed (Py.range (start_epoch t) (epochs t + 1)) t 0) as H.
  pose proof (for_epochs_frame (Py.range (start_epoch t) (epochs t + 1)) t 0) as Hf.
  simpl in Hf. destruct Hf as (_ & Hcfg & _ & _ & _ & Hdir & _).
  fold (_train_process _train_epoch t) in H, Hcfg, Hdir.
  unfold train.
  destruct (st_flow (_train_process _train_epoch t)) as [| |[]]; simpl;
    try exact H.
  apply Forall_app. split; [exact H|]. constructor; [exact I|].
  rewrite <- Hcfg, <- Hdir. apply placed_save_checkpoint.
Qed.

Lemma placed_paths (dir : Path) (cfg : Config) (evs : list event) :
  Forall (placed dir cfg) evs ->
  saved_paths evs = checkpoint_file dir <$> saved_epochs evs /\
  Forall (fun state => ck_config state = cfg) (saved_records evs).
Proof.
  induction 1 as [|ev evs Hev _ IH]; [split; [reflexivity | constructor]|].
  destruct IH as (IH1 & IH2).
  destruct ev as [m|m|state filename]; simpl; try (split; assumption).
  destruct Hev as (-> & Hcfg). split; [by rewrite IH1 | by constructor].
Qed.

(** The checkpoints of the loop are for epochs of the list, in the order
    of the list, each at most once; when the loop is left early, they are
    for epochs before the one in which it is left. *)
Lemma for_epochs_saved_sublist (es : list Z) (t : trainer) (cnt : Z) :
  let r := for_epochs _train_epoch es t cnt in
  saved_epochs (st_events r) `sublist_of` es /\
  (st_flow r <> Continue ->
   exists pre post,
     es = pre ++ _last_epoch (st_trainer r) :: post /\
     saved_epochs (st_events r) `sublist_of` pre).
Proof.
  revert t cnt. induction es as [|e es IH]; intros t cnt; simpl.
  - split; [constructor | intros H; contradiction].
  - destruct (loop_body_saved t cnt e) as (Hs1 & Hs2).
    pose proof (loop_body_frame t cnt e) as Hf. simpl in Hf.
    destruct Hf as (_ & _ & _ & _ & _ & _ & _ & Hlast).
    destruct (st_flow (loop_body _train_epoch t cnt e)) eqn:Hfl; simpl.
    + destruct (IH (st_trainer (loop_body _train_epoch t cnt e))
                  (st_count (loop_body _train_epoch t cnt e))) as (I1 & I2).
      assert (Hstep : saved_epochs (st_events (loop_body _train_epoch t cnt e))
                      `sublist_of` [e]).
      { rewrite (Hs1 eq_refl). destruct (_ || _); [reflexivity|].
        apply sublist_nil_l. }
      rewrite saved_epochs_app. split.
      * apply (sublist_app _ [e] _ es); assumption.
      * intros H. destruct (I2 H) as (pre & post & Hes & Hsub).
        exists (e :: pre), post. split; [simpl; f_equal; exact Hes|].
        apply (sublist_app _ [e] _ pre); assumption.
    + rewrite Hs2 by discriminate. split; [apply sublist_nil_l|].
      intros _. exists [], es. rewrite Hlast. split; [reflexivity|constructor].
    + rewrite Hs2 by discriminate. split; [apply sublist_nil_l|].
      intros _. exists [], es. rewrite Hlast. split; [reflexivity|constructor].
Qed.

Lemma train_saved_sublist (t : trainer) :
  saved_epochs (st_events (train _train_epoch t))
    `sublist_of` Py.range (start_epoch t) (epochs t + 1).
Proof.
  destruct (for_epochs_saved_sublist (Py.range (start_epoch t) (epochs t + 1)) t 0)
    as (H1 & H2).
  fold (_train_process _train_epoch t) in H1, H2.
  unfold train.
  destruct (st_flow (_train_process _train_epoch t)) as [| |[]] eqn:Hfl; simpl;
    try exact H1.
  destruct H2 as (pre & post & Hes & Hsub); [discriminate|].
  rewrite saved_epochs_app. simpl. rewrite Hes.
  apply sublist_app; [exact Hsub|].
  apply sublist_skip, sublist_nil_l.
Qed.

Lemma saved_paths_app (l1 l2 : list event) :
  saved_paths (l1 ++ l2) = saved_paths l1 ++ saved_paths l2.
Proof. apply omap_app. Qed.

Lemma saved_epochs_NoDup_paths (dir : Path) (evs : list event) (es : list Z) :
  saved_paths evs = checkpoint_file dir <$> saved_epochs evs ->
  saved_epochs evs `sublist_of` es -> NoDup es ->
  NoDup (saved_paths evs).
Proof.
  intros Hpaths Hsub Hes. rewrite Hpaths. apply NoDup_fmap_2_strong.
  - intros x y _ _. apply checkpoint_file_inj.
  - eapply sublist_NoDup; [exact Hes | exact Hsub].
Qed.

(** What the loop has emitted when the interrupt arrives after the first
    [i] effects of the iteration of epoch [K]. *)
Lemma interrupted_loop_events (t : trainer) (K : Z) (i : nat) :
  start_epoch t <= K <= epochs t ->
  let before := for_epochs _train_epoch (Py.range (start_epoch t) K) t 0 in
  let effects :=
    take i (body_effects _train_epoch (st_trainer before) (st_count before) K) in
  let loop_events := st_events before ++ emitted_by effects in
  Forall (placed (checkpoint_dir t) (config t)) loop_events /\
  saved_epochs loop_events `sublist_of` Py.range (start_epoch t) (K + 1).
Proof.
  intros HK before effects loop_events.
  pose proof (for_epochs_frame (Py.range (start_epoch t) K) t 0) as Hfr.
  cbn zeta in Hfr. fold before in Hfr.
  destruct Hfr as (_ & Hcfg & _ & _ & _ & Hdir & _).
  split.
  - apply Forall_app. split; [apply for_epochs_placed|].
    destruct (omap_take (fun a => match a with
                                  | Emit ev => Some ev
                                  | Assign _ => None
                                  end)
                (body_effects _train_epoch (st_trainer before) (st_count before) K)
                i) as (j & Hj).
    fold effects in Hj. fold (emitted_by effects) in Hj.
    rewrite Hj.
    fold (emitted_by (body_effects _train_epoch (st_trainer before)
                        (st_count before) K)).
    rewrite (proj2 (body_effects_run (st_trainer before) (st_count before) K)).
    apply Forall_take. rewrite <- Hcfg, <- Hdir. apply loop_body_placed.
  - unfold loop_events. rewrite saved_epochs_app.
    rewrite (range_split (start_epoch t) K (K + 1)) by lia.
    replace (Py.range (K + 1) (K + 1)) with (@nil Z)
      by (unfold Py.range; by rewrite Z.sub_diag).
    apply sublist_app.
    + apply (proj1 (for_epochs_saved_sublist (Py.range (start_epoch t) K) t 0)).
    + pose proof (interrupted_body (st_trainer before) (st_count before) K i)
        as Hb.
      cbn zeta in Hb. fold effects in Hb.
      destruct Hb as (_ & _ & _ & _ & _ & [->|(_ & _ & _ & -> & _)]);
        [apply sublist_nil_l | reflexivity].
Qed.

(** X6. The checkpoints the loop writes are for epochs of the run, in
    increasing order and each epoch at most once; each is written to the
    file of its epoch under the checkpoint directory and records the
    trainer's configuration; so no two of them are written to the same
    path. The same holds of all the checkpoints of [train] when the
    interrupt comes out of the hook. When the interrupt arrives between
    two statements of the loop, it holds of the checkpoints the loop had
    written by then; the checkpoint of the handler goes to the file of
    the epoch recorded last, and it is the only one of the run that can
    be written to a path written before: it is, exactly when the loop had
    written a checkpoint for that epoch. *)
Theorem only_the_interrupt_checkpoint_can_repeat_a_path (t : trainer) :
  (let evs := st_events (_train_process _train_epoch t) in
   saved_epochs evs `sublist_of` Py.range (start_epoch t) (epochs t + 1) /\
   saved_paths evs = checkpoint_file (checkpoint_dir t) <$> saved_epochs evs /\
   Forall (fun state => ck_config state = config t) (saved_records evs) /\
   NoDup (saved_paths evs)) /\
  (forall (K : Z) (o : objects),
     start_epoch t <= K <= epochs t ->
     let before := for_epochs _train_epoch (Py.range (start_epoch t) K) t 0 in
     st_flow before = Continue ->
     _train_epoch K (objs (st_trainer before)) = Interrupted o ->
     let evs := st_events (train _train_epoch t) in
     saved_epochs evs `sublist_of` Py.range (start_epoch t) (epochs t + 1) /\
     saved_paths evs = checkpoint_file (checkpoint_dir t) <$> saved_epochs evs /\
     Forall (fun state => ck_config state = config t) (saved_records evs) /\
     NoDup (saved_paths evs)) /\
  (forall (K : Z) (i : nat),
     start_epoch t <= K <= epochs t ->
     let before := for_epochs _train_epoch (Py.range (start_epoch t) K) t 0 in
     st_flow before = Continue ->
     let r := interrupted_train _train_epoch t K i in
     let last_recorded := _last_epoch (st_trainer r) in
     exists loop_events : list event,
       st_events r =
         loop_events ++
         Info MsgKeyboardInterrupt ::
         _save_checkpoint (st_trainer r) last_recorded false false /\
       saved_epochs loop_events `sublist_of` Py.range (start_epoch t) (K + 1) /\
       NoDup (saved_paths loop_events) /\
       saved_paths (st_events r)
         = checkpoint_file (checkpoint_dir t) <$> saved_epochs (st_events r) /\
       Forall (fun state => ck_config state = config t)
         (saved_records (st_events r)) /\
       saved_epochs (st_events r) = saved_epochs loop_events ++ [last_recorded] /\
       saved_paths (st_events r) =
         saved_paths loop_events ++
         [checkpoint_file (checkpoint_dir t) last_recorded] /\
       (NoDup (saved_paths (st_events r)) <->
        last_recorded ∉ saved_epochs loop_events)).
Proof.
  split; [|split].
  - intros evs.
    pose proof (proj1 (for_epochs_saved_sublist
                         (Py.range (start_epoch t) (epochs t + 1)) t 0)) as Hsub.
    destruct (placed_paths _ _ _
                (for_epochs_placed (Py.range (start_epoch t) (epochs t + 1)) t 0))
      as (Hpaths & Hcfg).
    fold (_train_process _train_epoch t) in Hsub, Hpaths, Hcfg.
    fold evs in Hsub, Hpaths, Hcfg.
    split; [exact Hsub|]. split; [exact Hpaths|]. split; [exact Hcfg|].
    exact (saved_epochs_NoDup_paths _ _ _ Hpaths Hsub (NoDup_seqZ _ _)).
  - intros K o _ before _ _ evs.
    pose proof (train_saved_sublist t) as Hsub. fold evs in Hsub.
    destruct (placed_paths _ _ _ (train_placed t)) as (Hpaths & Hcfg).
    fold evs in Hpaths, Hcfg.
    split; [exact Hsub|]. split; [exact Hpaths|]. split; [exact Hcfg|].
    exact (saved_epochs_NoDup_paths _ _ _ Hpaths Hsub (NoDup_seqZ _ _)).
  - intros K i HK before Hbefore r last_recorded.
    destruct (interrupted_loop_events t K i HK) as (Hplaced & Hsub).
    fold before in Hplaced, Hsub.
    pose proof (for_epochs_frame (Py.range (start_epoch t) K) t 0) as Hfr.
    cbn zeta in Hfr. fold before in Hfr.
    destruct Hfr as (_ & Hcfg & _ & _ & _ & Hdir & _).
    pose proof (interrupted_body (st_trainer before) (st_count before) K i) as Hb.
    cbn zeta in Hb. destruct Hb as (Hc & Hd & _).
    unfold last_recorded, r, interrupted_train. fold before.
    cbn [st_trainer st_events].
    set (effects := take i (body_effects _train_epoch (st_trainer before)
                              (st_count before) K)) in *.
    set (t' := performed effects (st_trainer before)) in *.
    set (loop_events := st_events before ++ emitted_by effects) in *.
    rewrite Hcfg in Hc. rewrite Hdir in Hd.
    assert (Hall : Forall (placed (checkpoint_dir t) (config t))
                     (loop_events ++ Info MsgKeyboardInterrupt ::
                      _save_checkpoint t' (_last_epoch t') false false)).
    { apply Forall_app. split; [exact Hplaced|]. constructor; [exact I|].
      rewrite <- Hc, <- Hd. apply placed_save_checkpoint. }
    destruct (placed_paths _ _ _ Hplaced) as (Hlp & _).
    destruct (placed_paths _ _ _ Hall) as (Hpaths & Hrec).
    assert (Hnd : NoDup (saved_paths loop_events))
      by exact (saved_epochs_NoDup_paths _ _ _ Hlp Hsub (NoDup_seqZ _ _)).
    assert (Hse : saved_epochs (loop_events ++ Info MsgKeyboardInterrupt ::
                                _save_checkpoint t' (_last_epoch t') false false)
                  = saved_epochs loop_events ++ [_last_epoch t'])
      by (rewrite saved_epochs_app; reflexivity).
    assert (Hsp : saved_paths (loop_events ++ Info MsgKeyboardInterrupt ::
                               _save_checkpoint t' (_last_epoch t') false false)
                  = saved_paths loop_events ++
                    [checkpoint_file (checkpoint_dir t) (_last_epoch t')])
      by (rewrite saved_paths_app, <- Hd; reflexivity).
    exists loop_events.
    split; [unfold loop_events; by rewrite <- app_assoc|].
    rewrite (app_assoc (st_events before)). fold loop_events.
    split; [exact Hsub|]. split; [exact Hnd|]. split; [exact Hpaths|].
    split; [exact Hrec|]. split; [exact Hse|]. split; [exact Hsp|].
    rewrite Hsp, Hlp. rewrite NoDup_app. split.
    + intros (_ & Hdisj & _) Hin.
      apply (Hdisj (checkpoint_file (checkpoint_dir t) (_last_epoch t'))).
      * apply list_elem_of_fmap. eauto.
      * apply list_elem_of_singleton. reflexivity.
    + intros Hnot. split; [rewrite <- Hlp; exact Hnd|]. split.
      * intros p Hp Hp'. apply list_elem_of_singleton in Hp'. subst p.
        apply list_elem_of_fmap in Hp. destruct Hp as (e & He & Hin).
        apply checkpoint_file_inj in He. subst e. contradiction.
      * apply NoDup_singleton.
Qed.


Lemma sublist_elem_of (k : Z) (l1 l2 : list Z) :
  l1 `sublist_of` l2 -> k ∈ l1 -> k ∈ l2.
Proof.
  intros Hsub Hin. apply singleton_sublist_l.
  transitivity l1; [by apply singleton_sublist_l | exact Hsub].
Qed.

Lemma range_before (a n : Z) (pre post : list Z) (e k : Z) :
  seqZ a n = pre ++ e :: post -> k ∈ pre -> a <= k < e.
Proof.
  intros H Hin. pose proof (range_nth a n pre post e H) as He.
  apply list_elem_of_lookup in Hin. destruct Hin as (i & Hi).
  pose proof (lookup_lt_Some _ _ _ Hi) as Hlt.
  assert (Hl : seqZ a n !! i = Some k)
    by (rewrite H; apply lookup_app_l_Some; exact Hi).
  apply lookup_seqZ in Hl. lia.
Qed.

(** X7. When a run stops early, the epoch in which it stops is an epoch
    of the run and gets no checkpoint, not even when its number is a
    multiple of the save period: every checkpoint of the run is for an
    earlier epoch. *)
Theorem early_stop_epoch_is_not_saved (t : trainer) :
  let r := train _train_epoch t in
  st_flow r = Break ->
  start_epoch t <= _last_epoch (st_trainer r) <= epochs t /\
  (forall k, k ∈ saved_epochs (st_events r) ->
             start_epoch t <= k < _last_epoch (st_trainer r)).
Proof.
  intros r Hbreak.
  destruct (train_flow t) as (Hfl & _ & _).
  assert (Hr : r = _train_process _train_epoch t).
  { unfold r in Hbreak |- *. rewrite Hfl in Hbreak. unfold train.
    rewrite Hbreak. reflexivity. }
  clearbody r. subst r. unfold _train_process in *.
  destruct (for_epochs_saved_sublist
              (Py.range (start_epoch t) (epochs t + 1)) t 0) as (_ & Hleft).
  destruct Hleft as (pre & post & Hes & Hsub); [rewrite Hbreak; discriminate|].
  unfold Py.range in Hes. split.
  - pose proof (range_nth _ _ _ _ _ Hes) as He.
    assert (Hl : seqZ (start_epoch t) (epochs t + 1 - start_epoch t)
                   !! length pre
                 = Some (_last_epoch
                           (st_trainer
                              (for_epochs _train_epoch
                                 (Py.range (start_epoch t) (epochs t + 1)) t 0))))
      by (rewrite Hes; apply list_lookup_middle; reflexivity).
    apply lookup_seqZ in Hl. lia.
  - intros k Hk. eapply range_before; [exact Hes|].
    eapply sublist_elem_of; [exact Hsub | exact Hk].
Qed.

(** *** Resuming at the end of the schedule *)

(** X8. Resuming from a checkpoint whose epoch is the last epoch of the
    schedule or a later one leaves nothing to train: [train] calls the
    hook for no epoch, logs and writes nothing, and returns with the
    trainer as resume left it. *)
Theorem resume_after_last_epoch_trains_nothing
    (t : trainer) (resume_path : string) (checkpoint : CheckpointRecord) :
  torch_load resume_path = Some checkpoint ->
  epochs t <= ck_epoch checkpoint ->
  let t' := after (_resume_checkpoint torch_load t resume_path) in
  train _train_epoch t' =
    {| st_trainer := t'; st_count := 0; st_flow := Continue; st_events := [] |}.
Proof.
  intros Hload Hlast t'.
  assert (Hf : start_epoch t' = ck_epoch checkpoint + 1 /\ epochs t' = epochs t).
  { subst t'. unfold _resume_checkpoint. rewrite Hload. simpl.
    pose proof (resume_from_frame t checkpoint) as Hf. simpl in Hf. tauto. }
  destruct Hf as (Hstart & Hepochs).
  unfold train, _train_process, Py.range. rewrite Hstart, Hepochs.
  rewrite seqZ_nil by lia. reflexivity.
Qed.


(** *** Saving, then resuming *)

Lemma resume_g_loaded (t : trainer) (checkpoint : CheckpointRecord)
    (fresh recorded : state_dict) :
  cfg_g_optimizer (ck_config checkpoint) = cfg_g_optimizer (config t) ->
  cfg_g_lr_scheduler (ck_config checkpoint) = cfg_g_lr_scheduler (config t) ->
  g_lr_scheduler (objs t) = Some fresh ->
  ck_g_lr_scheduler checkpoint = Some recorded ->
  resume_g_optimizer t checkpoint =
    {| after :=
         set_objs
           (set_g_lr_scheduler (Some recorded)
              (set_g_optimizer (ck_g_optimizer checkpoint) (objs t))) t;
       raised := None; emitted := [] |}.
Proof.
  intros H1 H2 Hf Hr. unfold resume_g_optimizer.
  rewrite H1, H2, !String.eqb_refl. simpl. rewrite Hf, Hr. reflexivity.
Qed.

Lemma resume_d_same (t : trainer) (checkpoint : CheckpointRecord) :
  cfg_d_optimizer (ck_config checkpoint) = cfg_d_optimizer (config t) ->
  cfg_d_lr_scheduler (ck_config checkpoint) = cfg_d_lr_scheduler (config t) ->
  resume_d_optimizer t checkpoint =
    {| after := set_objs (set_d_optimizer (ck_d_optimizer checkpoint) (objs t)) t;
       raised := None; emitted := [] |}.
Proof.
  intros H1 H2. unfold resume_d_optimizer.
  rewrite H1, H2, !String.eqb_refl. reflexivity.
Qed.

(** X9. Round trip. A checkpoint written by [_save_checkpoint] at epoch
    [N], resumed by a trainer with the same configuration, the generator's
    scheduler being attached on both sides: resume returns without a
    warning, and the trainer has the writer's parameters for both
    networks, the writer's state for both optimizers and for the
    generator's scheduler, the writer's [mnt_best], and starts at
    [N + 1]. *)
Theorem save_then_resume_restores
    (writer t : trainer) (N : Z) (save_best only_best : bool)
    (checkpoint : CheckpointRecord) (filename : Path) (resume_path : string)
    (recorded fresh : state_dict) :
  In (TorchSave checkpoint filename)
     (_save_checkpoint writer N save_best only_best) ->
  torch_load resume_path = Some checkpoint ->
  config t = config writer ->
  g_lr_scheduler (objs writer) = Some recorded ->
  g_lr_scheduler (objs t) = Some fresh ->
  let c := _resume_checkpoint torch_load t resume_path in
  raised c = None /\ warnings (emitted c) = [] /\
  start_epoch (after c) = N + 1 /\
  mnt_best (after c) = mnt_best writer /\
  parameters (generator (objs (after c))) = parameters (generator (objs writer)) /\
  parameters (discriminator (objs (after c))) =
    parameters (discriminator (objs writer)) /\
  g_optimizer (objs (after c)) = g_optimizer (objs writer) /\
  d_optimizer (objs (after c)) = d_optimizer (objs writer) /\
  g_lr_scheduler (objs (after c)) = Some recorded.
Proof.
  intros Hin Hload Hcfg Hrec Hfresh c.
  simpl in Hin. destruct Hin as [Hin|[Hin|[]]]; [|discriminate].
  injection Hin as Hck _.
  assert (Hckcfg : ck_config checkpoint = config t)
    by (rewrite <- Hck, Hcfg; reflexivity).
  assert (Hcks : ck_g_lr_scheduler checkpoint = Some recorded)
    by (rewrite <- Hck; exact Hrec).
  subst c. unfold _resume_checkpoint. rewrite Hload.
  unfold resume_from. cbv zeta.
  assert (Hn : emitted (resume_networks t checkpoint) = []).
  { unfold resume_networks. cbn [emitted]. simpl.
    rewrite Hckcfg, !String.eqb_refl. reflexivity. }
  rewrite Hn.
  rewrite (resume_g_loaded (after (resume_networks t checkpoint)) checkpoint
             fresh recorded);
    [|simpl; rewrite Hckcfg; reflexivity..|exact Hfresh|exact Hcks].
  cbn [raised after emitted].
  rewrite resume_d_same; [|simpl; rewrite Hckcfg; reflexivity..].
  cbn [raised after emitted]. rewrite <- Hck. simpl.
  repeat split; reflexivity.
Qed.

(** *** Resume without the generator's scheduler *)

(** X10. When the generator's optimizer entry and scheduler entry are both
    unchanged, resume reads the trainer's scheduler and the checkpoint's
    scheduler state without testing for them: with no scheduler attached
    it raises [AttributeError], with one attached but none recorded it
    raises [KeyError]. Either way it stops there: the start epoch, the
    best value, both networks' parameters and the generator's optimizer
    have been loaded, the discriminator's optimizer has not, and the
    closing line is not logged. *)
Theorem resume_raises_without_generator_scheduler
    (t : trainer) (resume_path : string) (checkpoint : CheckpointRecord) :
  torch_load resume_path = Some checkpoint ->
  cfg_g_optimizer (ck_config checkpoint) = cfg_g_optimizer (config t) ->
  cfg_g_lr_scheduler (ck_config checkpoint) = cfg_g_lr_scheduler (config t) ->
  g_lr_scheduler (objs t) = None \/ ck_g_lr_scheduler checkpoint = None ->
  let c := _resume_checkpoint torch_load t resume_path in
  raised c =
    Some (match g_lr_scheduler (objs t) with
          | None => AttributeError
          | Some _ => KeyError
          end) /\
  start_epoch (after c) = ck_epoch checkpoint + 1 /\
  mnt_best (after c) = ck_monitor_best checkpoint /\
  parameters (generator (objs (after c))) = ck_generator_state_dict checkpoint /\
  parameters (discriminator (objs (after c))) =
    ck_discriminator_state_dict checkpoint /\
  g_optimizer (objs (after c)) = ck_g_optimizer checkpoint /\
  d_optimizer (objs (after c)) = d_optimizer (objs t) /\
  g_lr_scheduler (objs (after c)) = g_lr_scheduler (objs t) /\
  ~ In (Info (MsgCheckpointLoaded (ck_epoch checkpoint + 1))) (emitted c).
Proof.
  intros Hload Hgo Hgs Hmissing c.
  subst c. unfold _resume_checkpoint. rewrite Hload.
  unfold resume_from. cbv zeta.
  assert (Hg : resume_g_optimizer (after (resume_networks t checkpoint)) checkpoint =
               {| after :=
                    set_objs (set_g_optimizer (ck_g_optimizer checkpoint)
                                (objs (after (resume_networks t checkpoint))))
                      (after (resume_networks t checkpoint));
                  raised := Some (match g_lr_scheduler (objs t) with
                                  | None => AttributeError
                                  | Some _ => KeyError
                                  end);
                  emitted := [] |}).
  { unfold resume_g_optimizer. simpl. rewrite Hgo, Hgs, !String.eqb_refl. simpl.
    destruct (g_lr_scheduler (objs t)) as [s|]; [|reflexivity].
    destruct Hmissing as [H|H]; [discriminate|]. rewrite H. reflexivity. }
  rewrite Hg. cbn [raised after emitted]. simpl.
  repeat split; try reflexivity.
  rewrite app_nil_r. intros [H|H]; [discriminate|].
  destruct (_ || _); simpl in H; [destruct H as [H|[]]; discriminate | exact H].
Qed.


(** *** An interrupt, then a resume *)

Lemma train_interrupted (t : trainer) (K : Z) (o : objects) :
  start_epoch t <= K <= epochs t ->
  let before := for_epochs _train_epoch (Py.range (start_epoch t) K) t 0 in
  st_flow before = Continue ->
  _train_epoch K (objs (st_trainer before)) = Interrupted o ->
  let t' := set_objs o (set_last_epoch K (st_trainer before)) in
  train _train_epoch t =
    {| st_trainer := t'; st_count := st_count before;
       st_flow := Raise KeyboardInterrupt;
       st_events :=
         st_events before ++
         Info MsgKeyboardInterrupt :: _save_checkpoint t' K false false |}.
Proof.
  intros HK before Hbefore Hint t'.
  assert (Hp : _train_process _train_epoch t =
               {| st_trainer := t'; st_count := st_count before;
                  st_flow := Raise KeyboardInterrupt;
                  st_events := st_events before |}).
  { unfold _train_process.
    rewrite (range_split (start_epoch t) K (epochs t + 1)) by lia.
    rewrite for_epochs_app. fold before. simpl. rewrite Hbefore.
    rewrite (loop_body_interrupted _ _ _ _ Hint). simpl.
    rewrite app_nil_r. reflexivity. }
  unfold train. rewrite Hp. reflexivity.
Qed.

(** X11. If the hook is interrupted in epoch [K], the checkpoint [train]
    writes holds the objects as the interrupted hook left them and the
    best value of the epochs before; and a trainer resumed from that
    checkpoint has these parameters and starts at [K + 1]: the epoch that
    was cut short is not run again. *)
Theorem interrupted_epoch_is_not_rerun (t : trainer) (K : Z) (o : objects) :
  start_epoch t <= K <= epochs t ->
  let before := for_epochs _train_epoch (Py.range (start_epoch t) K) t 0 in
  st_flow before = Continue ->
  _train_epoch K (objs (st_trainer before)) = Interrupted o ->
  exists (checkpoint : CheckpointRecord),
    saved_records (st_events (train _train_epoch t)) =
      saved_records (st_events before) ++ [checkpoint] /\
    ck_epoch checkpoint = K /\
    ck_generator_state_dict checkpoint = parameters (generator o) /\
    ck_discriminator_state_dict checkpoint = parameters (discriminator o) /\
    ck_g_optimizer checkpoint = g_optimizer o /\
    ck_d_optimizer checkpoint = d_optimizer o /\
    ck_monitor_best checkpoint = mnt_best (st_trainer before) /\
    (forall (t2 : trainer) (resume_path : string),
       torch_load resume_path = Some checkpoint ->
       let c := _resume_checkpoint torch_load t2 resume_path in
       start_epoch (after c) = K + 1 /\
       parameters (generator (objs (after c))) = parameters (generator o) /\
       parameters (discriminator (objs (after c))) = parameters (discriminator o)).
Proof.
  intros HK before Hbefore Hint.
  rewrite (train_interrupted t K o HK Hbefore Hint). fold before.
  cbn [st_events].
  set (t' := set_objs o (set_last_epoch K (st_trainer before))).
  eexists. split.
  { unfold saved_records. rewrite omap_app. simpl. reflexivity. }
  do 6 (split; [reflexivity|]).
  intros t2 resume_path Hload.
  match goal with
  | H : torch_load resume_path = Some ?ck |- _ => set (checkpoint := ck) in *
  end.
  assert (Hc : after (_resume_checkpoint torch_load t2 resume_path)
               = after (resume_from t2 checkpoint)).
  { unfold _resume_checkpoint. rewrite Hload. reflexivity. }
  rewrite Hc.
  destruct (resume_from_frame t2 checkpoint)
    as (_ & _ & _ & _ & _ & _ & _ & _ & Hs & _).
  split; [exact Hs|].
  rewrite resume_from_after.
  destruct (resume_networks_after t2 checkpoint) as (_ & _ & Hg & Hd & _).
  destruct (resume_g_optimizer_frame (after (resume_networks t2 checkpoint))
              checkpoint) as (_ & Gg & Gd & _).
  destruct (resume_d_optimizer_frame
              (after (resume_g_optimizer (after (resume_networks t2 checkpoint))
                        checkpoint)) checkpoint) as (_ & Dg & Dd & _).
  change (ck_generator_state_dict checkpoint) with (parameters (generator o)) in Hg.
  change (ck_discriminator_state_dict checkpoint)
    with (parameters (discriminator o)) in Hd.
  destruct (raised (resume_g_optimizer (after (resume_networks t2 checkpoint))
                      checkpoint)); split; congruence.
Qed.


(** *** What an epoch's checkpoint holds *)

Lemma records_log_lines (epoch : Z) (o : objects) (best : Py.num)
    (log : gmap string Py.num) :
  Forall (records epoch o best) (log_lines log).
Proof.
  unfold log_lines. induction (map_to_list log) as [|kv l IH]; constructor;
    [exact I | exact IH].
Qed.

Lemma records_monitor (epoch : Z) (o : objects) (best : Py.num) (t : trainer)
    (cnt : Z) (log : gmap string Py.num) :
  Forall (records epoch o best) (st_events (fst (monitor t cnt log))).
Proof. monitor_cases t log; repeat constructor. Qed.

Lemma records_save_if_due (t : trainer) (cnt epoch : Z) (best : bool)
    (evs : list event) :
  Forall (records epoch (objs t) (mnt_best t)) evs ->
  Forall (records epoch (objs t) (mnt_best t))
    (st_events (save_if_due t cnt epoch best evs)).
Proof.
  intros H. unfold save_if_due.
  destruct (save_period t =? 0); [exact H|].
  destruct (_ || _); simpl; [|exact H].
  apply Forall_app. split; [exact H|]. repeat constructor.
Qed.

Lemma records_saved (epoch : Z) (o : objects) (best : Py.num) (evs : list event) :
  Forall (records epoch o best) evs ->
  Forall (fun state => records epoch o best (TorchSave state (PathOf "")))
    (saved_records evs).
Proof.
  induction 1 as [|ev evs Hev _ IH]; [constructor|].
  destruct ev as [m|m|state filename]; simpl; try exact IH.
  constructor; [exact Hev | exact IH].
Qed.

(** X12. After an epoch in which the hook returned, the trainer holds the
    objects the hook returned, and every checkpoint written in the epoch
    records them: the epoch number, both class names, both networks'
    parameters, both optimizers' and both schedulers' states as returned,
    and as [monitor_best] the best value with this epoch taken into
    account. *)
Theorem epoch_checkpoint_holds_hook_objects
    (t : trainer) (cnt epoch : Z) (result : EpochResult) (o : objects) :
  _train_epoch epoch (objs t) = Returned result o ->
  let s := loop_body _train_epoch t cnt epoch in
  objs (st_trainer s) = o /\
  Forall (fun state =>
            ck_epoch state = epoch /\
            ck_g_arch state = class_name (generator o) /\
            ck_d_arch state = class_name (discriminator o) /\
            ck_generator_state_dict state = parameters (generator o) /\
            ck_discriminator_state_dict state = parameters (discriminator o) /\
            ck_g_optimizer state = g_optimizer o /\
            ck_d_optimizer state = d_optimizer o /\
            ck_g_lr_scheduler state = g_lr_scheduler o /\
            ck_d_lr_scheduler state = d_lr_scheduler o /\
            ck_monitor_best state = mnt_best (st_trainer s))
    (saved_records (st_events s)).
Proof.
  intros Hhook s.
  assert (H : objs (st_trainer s) = o /\
              Forall (records epoch o (mnt_best (st_trainer s))) (st_events s)).
  { subst s. destruct (String.eqb (mnt_mode t) "off") eqn:Hoff.
    - apply String.eqb_eq in Hoff.
      rewrite (loop_body_off t cnt epoch result o Hhook Hoff).
      set (T := set_objs o (set_last_epoch epoch t)).
      destruct (save_if_due_frame T cnt epoch false
                  (log_lines (make_log epoch result))) as (-> & _).
      split; [reflexivity|].
      apply (records_save_if_due T). apply records_log_lines.
    - apply String.eqb_neq in Hoff.
      rewrite (loop_body_on t cnt epoch result o Hhook Hoff).
      set (T := set_objs o (set_last_epoch epoch t)).
      set (log := make_log epoch result). cbv zeta.
      pose proof (monitor_frame T cnt log) as Hf. simpl in Hf.
      destruct Hf as (_ & Hobjs & _).
      assert (Hev : forall best,
                Forall (records epoch o best)
                  (log_lines log ++ st_events (fst (monitor T cnt log))))
        by (intros best; apply Forall_app; split;
            [apply records_log_lines | apply records_monitor]).
      destruct (st_flow (fst (monitor T cnt log))); simpl;
        try (split; [exact Hobjs | apply Hev]).
      match goal with
      | |- context [save_if_due ?a ?b ?c ?d ?e] =>
          destruct (save_if_due_frame a b c d e) as (-> & _)
      end.
      split; [exact Hobjs|].
      rewrite <- Hobjs at 1.
      apply records_save_if_due. rewrite Hobjs. apply Hev. }
  destruct H as (H1 & H2). split; [exact H1|].
  exact (records_saved _ _ _ _ H2).
Qed.


(** *** Epochs that do not improve *)

Lemma loop_body_no_raise (t : trainer) (cnt epoch : Z) (result : EpochResult)
    (o : objects) :
  _train_epoch epoch (objs t) = Returned result o ->
  save_period t <> 0 ->
  st_flow (loop_body _train_epoch t cnt epoch) = Continue \/
  st_flow (loop_body _train_epoch t cnt epoch) = Break.
Proof.
  intros Hhook Hsp. apply Z.eqb_neq in Hsp.
  destruct (String.eqb (mnt_mode t) "off") eqn:Hoff.
  - apply String.eqb_eq in Hoff.
    rewrite (loop_body_off t cnt epoch result o Hhook Hoff).
    unfold save_if_due. simpl. rewrite Hsp.
    destruct ((epoch mod save_period t =? 0) || false); auto.
  - apply String.eqb_neq in Hoff.
    rewrite (loop_body_on t cnt epoch result o Hhook Hoff).
    pose proof (monitor_flow (set_objs o (set_last_epoch epoch t)) cnt
                  (make_log epoch result)) as Hfl. simpl in Hfl.
    pose proof (monitor_frame (set_objs o (set_last_epoch epoch t)) cnt
                  (make_log epoch result)) as Hf.
    simpl in Hf. destruct Hf as (_ & _ & _ & _ & Hsp' & _).
    simpl. destruct (Py.gt _ _); rewrite Hfl; simpl; [auto|].
    unfold save_if_due. rewrite Hsp', Hsp.
    destruct (_ || _); auto.
Qed.

Lemma loop_body_not_better (t : trainer) (cnt epoch p : Z) (result : EpochResult)
    (o : objects) (v : Py.num) :
  _train_epoch epoch (objs t) = Returned result o ->
  result !! mnt_metric t = Some v ->
  not_better t v ->
  save_period t <> 0 ->
  early_stop t = Py.Int p ->
  let s := loop_body _train_epoch t cnt epoch in
  st_count s = cnt + 1 /\ same_monitor t (st_trainer s) /\
  _last_epoch (st_trainer s) = epoch /\
  st_flow s = (if p <? cnt + 1 then Break else Continue).
Proof.
  intros Hhook Hv Hnb Hsp Hes s.
  assert (Hfound : mnt_best (st_trainer s) = mnt_best t /\ st_count s = cnt + 1).
  { destruct (loop_body_found t cnt epoch result o v false Hhook Hv) as (_ & H1 & H2).
    - destruct Hnb as [[Hm Hle]|[Hm Hge]]; [left | right]; auto.
    - auto. }
  destruct Hfound as (Hbest & Hcnt).
  destruct (loop_body_reported t cnt epoch) as (_ & Hmode).
  { intros r o' H. rewrite Hhook in H. injection H as <- _. eauto. }
  pose proof (loop_body_frame t cnt epoch) as Hf. simpl in Hf.
  destruct Hf as (Hes' & _ & _ & Hsp' & _ & _ & Hmetric & Hlast).
  fold s in Hmode, Hes', Hsp', Hmetric, Hlast.
  split; [exact Hcnt|]. split; [repeat split; assumption|].
  split; [exact Hlast|].
  pose proof (loop_body_break t cnt epoch) as Hbreak. simpl in Hbreak.
  fold s in Hbreak. rewrite Hes, Hcnt in Hbreak.
  change (Py.gt (Py.Int (cnt + 1)) (Py.Int p)) with (p <? cnt + 1) in Hbreak.
  assert (Hon : mnt_mode t <> "off")
    by (destruct Hnb as [[-> _]|[-> _]]; discriminate).
  destruct (p <? cnt + 1).
  - apply Hbreak. split; [eauto|]. split; [exact Hon | reflexivity].
  - destruct (loop_body_no_raise t cnt epoch result o Hhook Hsp) as [H|H];
      [exact H|].
    fold s in H. apply Hbreak in H. destruct H as (_ & _ & H). discriminate.
Qed.

Lemma for_epochs_not_better (t : trainer) (p : Z) :
  (forall e o, exists result o' v,
      _train_epoch e o = Returned result o' /\
      result !! mnt_metric t = Some v /\ not_better t v) ->
  save_period t <> 0 ->
  early_stop t = Py.Int p ->
  forall (es : list Z) (t' : trainer) (cnt : Z),
    same_monitor t t' ->
    cnt + Z.of_nat (length es) <= p ->
    let r := for_epochs _train_epoch es t' cnt in
    st_flow r = Continue /\ st_count r = cnt + Z.of_nat (length es) /\
    same_monitor t (st_trainer r).
Proof.
  intros Hworse Hsp Hes es.
  induction es as [|e es IH]; intros t' cnt Hsame Hlen; simpl.
  - split; [reflexivity|]. split; [lia | exact Hsame].
  - simpl length in Hlen.
    destruct Hsame as (Hm & Hmet & Hb & Hpat & Hper).
    destruct (Hworse e (objs t')) as (result & o & v & Hhook & Hv & Hnb).
    destruct (loop_body_not_better t' cnt e p result o v) as (Hc & Hs & _ & Hfl);
      [exact Hhook | by rewrite Hmet | | by rewrite Hper | by rewrite Hpat |].
    { unfold not_better. rewrite Hm, Hb. exact Hnb. }
    assert (Hlt : (p <? cnt + 1) = false) by (apply Z.ltb_ge; lia).
    rewrite Hlt in Hfl. rewrite Hfl.
    assert (Hsame' : same_monitor t (st_trainer (loop_body _train_epoch t' cnt e))).
    { destruct Hs as (S1 & S2 & S3 & S4 & S5). repeat split; congruence. }
    destruct (IH (st_trainer (loop_body _train_epoch t' cnt e))
                (st_count (loop_body _train_epoch t' cnt e)) Hsame')
      as (I1 & I2 & I3); [lia|].
    simpl. split; [exact I1|]. split; [lia | exact I3].
Qed.

(** X13. Patience counted exactly. In mode "min" or "max", with an
    integer patience [p >= 0], a non-zero save period and a hook whose
    every result reports the metric with a value that does not improve on
    the trainer's best: if the schedule has more than [p] epochs left, the
    run stops early in its [(p + 1)]-th epoch, with the counter at
    [p + 1] and the best value unchanged. *)
Theorem patience_counts_consecutive_epochs (t : trainer) (p : Z) :
  (forall e o, exists result o' v,
      _train_epoch e o = Returned result o' /\
      result !! mnt_metric t = Some v /\ not_better t v) ->
  save_period t <> 0 ->
  early_stop t = Py.Int p ->
  0 <= p ->
  start_epoch t + p <= epochs t ->
  let r := train _train_epoch t in
  st_flow r = Break /\
  _last_epoch (st_trainer r) = start_epoch t + p /\
  st_count r = p + 1 /\
  mnt_best (st_trainer r) = mnt_best t.
Proof.
  intros Hworse Hsp Hes Hp Hlen r.
  set (K := start_epoch t + p).
  set (pre := for_epochs _train_epoch (Py.range (start_epoch t) K) t 0).
  assert (Hsame0 : same_monitor t t) by (repeat split; reflexivity).
  destruct (for_epochs_not_better t p Hworse Hsp Hes
              (Py.range (start_epoch t) K) t 0 Hsame0) as (Hfl & Hcnt & Hsame).
  { unfold Py.range. rewrite length_seqZ. subst K. lia. }
  fold pre in Hfl, Hcnt, Hsame.
  assert (Hcnt' : st_count pre = p).
  { rewrite Hcnt. unfold Py.range. rewrite length_seqZ. subst K. lia. }
  destruct Hsame as (Hm & Hmet & Hb & Hpat & Hper).
  destruct (Hworse K (objs (st_trainer pre))) as (result & o & v & Hhook & Hv & Hnb).
  destruct (loop_body_not_better (st_trainer pre) (st_count pre) K p result o v)
    as (Hc & Hs & Hlast & Hflow);
    [exact Hhook | by rewrite Hmet | | by rewrite Hper | by rewrite Hpat |].
  { unfold not_better. rewrite Hm, Hb. exact Hnb. }
  assert (Hgt : (p <? st_count pre + 1) = true) by (apply Z.ltb_lt; lia).
  rewrite Hgt in Hflow.
  assert (Hproc : _train_process _train_epoch t =
                  {| st_trainer :=
                       st_trainer (loop_body _train_epoch (st_trainer pre)
                                     (st_count pre) K);
                     st_count :=
                       st_count (loop_body _train_epoch (st_trainer pre)
                                   (st_count pre) K);
                     st_flow := Break;
                     st_events :=
                       st_events pre ++
                       st_events (loop_body _train_epoch (st_trainer pre)
                                    (st_count pre) K) |}).
  { unfold _train_process.
    rewrite (range_split (start_epoch t) K (epochs t + 1)) by (subst K; lia).
    rewrite for_epochs_app. fold pre. cbv zeta. rewrite Hfl. simpl.
    rewrite Hflow. rewrite <- Hflow at 1.
    destruct (loop_body _train_epoch (st_trainer pre) (st_count pre) K).
    simpl in *. rewrite Hflow. reflexivity. }
  assert (Hr : r = _train_process _train_epoch t).
  { subst r. unfold train. rewrite Hproc. reflexivity. }
  rewrite Hr, Hproc. simpl.
  split; [reflexivity|]. split; [exact Hlast|]. split; [lia|].
  destruct Hs as (_ & _ & S3 & _). congruence.
Qed.


(** *** NaN and the first value of a run *)

Lemma le_nan_l (v best : Py.num) : is_nan v -> Py.le v best = false.
Proof.
  destruct v as [a|f]; [contradiction|]. simpl. intros Hnan.
  destruct best as [b|g]; simpl.
  - unfold Py.compare_int_float. rewrite Hnan. reflexivity.
  - rewrite leb_spec, Hnan. reflexivity.
Qed.

Lemma le_nan_r (v best : Py.num) : is_nan v -> Py.le best v = false.
Proof.
  destruct v as [a|f]; [contradiction|]. simpl. intros Hnan.
  destruct best as [b|g]; simpl.
  - unfold Py.compare_int_float. rewrite Hnan. reflexivity.
  - rewrite leb_spec, Hnan. destruct (Prim2SF g) as [[]|[]| |[] ? ?]; reflexivity.
Qed.

Lemma le_inf (v : Py.num) : ~ is_nan v -> Py.le v Py.inf = true.
Proof.
  destruct v as [a|f]; simpl; [reflexivity|]. intros Hnan.
  rewrite leb_spec. change (Prim2SF infinity) with (S754_infinity false).
  destruct (Prim2SF f) as [[]|[]| |[] ? ?]; try reflexivity. contradiction.
Qed.

Lemma ge_neg_inf (v : Py.num) : ~ is_nan v -> Py.ge v Py.neg_inf = true.
Proof.
  destruct v as [a|f]; unfold Py.ge; simpl; [reflexivity|]. intros Hnan.
  rewrite leb_spec. change (Prim2SF neg_infinity) with (S754_infinity true).
  destruct (Prim2SF f) as [[]|[]| |[] ? ?]; try reflexivity. contradiction.
Qed.

(** X14. A NaN never improves. In mode "min" or "max", an epoch whose
    monitored metric is a float NaN is not marked best whatever the best
    value so far: [mnt_best] stays and the counter grows by one. *)
Theorem nan_metric_never_improves
    (t : trainer) (cnt epoch : Z) (result : EpochResult) (o : objects) (v : Py.num) :
  _train_epoch epoch (objs t) = Returned result o ->
  result !! mnt_metric t = Some v ->
  mnt_mode t = "min" \/ mnt_mode t = "max" ->
  is_nan v ->
  let s := loop_body _train_epoch t cnt epoch in
  marked_best _train_epoch t cnt epoch = false /\
  mnt_best (st_trainer s) = mnt_best t /\
  st_count s = cnt + 1.
Proof.
  intros Hhook Hv Hmode Hnan s.
  apply (loop_body_found t cnt epoch result o v false Hhook Hv).
  destruct Hmode as [Hm|Hm]; [left | right]; split; try exact Hm.
  - symmetry. by apply le_nan_l.
  - symmetry. unfold Py.ge. by apply le_nan_r.
Qed.

(** X15. The first value of a fresh run. With the best value the
    constructor sets (infinity in mode "min", minus infinity in mode
    "max"), an epoch that reports the metric with any integer or any
    float other than NaN is marked best: the value becomes [mnt_best] and
    the counter is 0. *)
Theorem fresh_run_first_value_is_best
    (t : trainer) (cnt epoch : Z) (result : EpochResult) (o : objects) (v : Py.num) :
  _train_epoch epoch (objs t) = Returned result o ->
  result !! mnt_metric t = Some v ->
  fresh_best t ->
  ~ is_nan v ->
  let s := loop_body _train_epoch t cnt epoch in
  marked_best _train_epoch t cnt epoch = true /\
  mnt_best (st_trainer s) = v /\
  st_count s = 0.
Proof.
  intros Hhook Hv Hfresh Hnan s.
  apply (loop_body_found t cnt epoch result o v true Hhook Hv).
  destruct Hfresh as [[Hm Hb]|[Hm Hb]]; [left | right]; split; try exact Hm;
    rewrite Hb; symmetry.
  - by apply le_inf.
  - by apply ge_neg_inf.
Qed.



(** *** What the constructor takes from the configuration *)

Lemma init_monitor_fresh (cfg : trainer_config) (mode metric : string)
    (best patience : Py.num) :
  init_monitor cfg = inr (mode, metric, best, patience) ->
  mode <> "off" ->
  (mode = "min" /\ best = Py.inf) \/ (mode = "max" /\ best = Py.neg_inf).
Proof.
  unfold init_monitor.
  destruct (String.eqb (default "off" (cfg_monitor cfg)) "off").
  { intros H. inversion H. contradiction. }
  destruct (Py.split (default "off" (cfg_monitor cfg))) as [|a [|b [|? ?]]];
    try discriminate.
  destruct (String.eqb a "min") eqn:Hmin; simpl.
  { intros H _. inversion H; subst. apply String.eqb_eq in Hmin. auto. }
  destruct (String.eqb a "max") eqn:Hmax; [|discriminate].
  intros H _. inversion H; subst. apply String.eqb_eq in Hmax. auto.
Qed.

(** X16. Whatever checkpoint the constructor resumes from, the trainer's
    schedule and monitoring come from the current configuration and never
    from the one recorded in the checkpoint: the configuration itself, the
    number of epochs, the save period, the checkpoint directory, and the
    mode, metric and patience read from the [monitor] and [early_stop]
    keys. Without a resume path the constructor logs nothing, starts at
    epoch 1 and, when monitoring is on, with the best value of a fresh
    run. *)
Theorem constructed_settings_come_from_config
    (generator discriminator : nn_module) (g_optimizer d_optimizer : state_dict)
    (g_lr_scheduler d_lr_scheduler : option state_dict) (cfg : Config) (c : call) :
  __init__ torch_load generator discriminator g_optimizer d_optimizer
    g_lr_scheduler d_lr_scheduler cfg = inr c ->
  let t := after c in
  config t = cfg /\
  epochs t = cfg_epochs (cfg_trainer cfg) /\
  save_period t = cfg_save_period (cfg_trainer cfg) /\
  checkpoint_dir t = PathOf (cfg_save_dir (cfg_trainer cfg)) /\
  (exists best,
     init_monitor (cfg_trainer cfg) =
       inr (mnt_mode t, mnt_metric t, best, early_stop t) /\
     (cfg_resume cfg = None ->
      raised c = None /\ emitted c = [] /\ start_epoch t = 1 /\
      mnt_best t = best /\ (mnt_mode t <> "off" -> fresh_best t))).
Proof.
  unfold __init__.
  destruct (init_monitor (cfg_trainer cfg)) as [e|[[[mode metric] best] patience]] eqn:Hi;
    [discriminate|].
  pose proof (init_monitor_fresh _ _ _ _ _ Hi) as Hfresh.
  destruct (cfg_resume cfg) as [p|]; intros H; inversion H; subst; clear H.
  - match goal with
    | |- context [_resume_checkpoint torch_load ?t p] =>
        pose proof (resume_checkpoint_frame t p) as Hf
    end.
    cbv zeta in Hf. cbn [after] in *.
    destruct Hf as (H1 & H2 & H3 & H4 & H5 & H6 & H7 & _).
    cbv zeta. rewrite H1, H2, H3, H4, H5, H6, H7. simpl.
    repeat split. exists best. split; [reflexivity | discriminate].
  - simpl. repeat split. exists best. split; [reflexivity|].
    intros _. repeat split. exact Hfresh.
Qed.

End Properties.

(** ** Runs evaluated *)

Example split_monitor : Py.split "min  val_loss" = ["min"; "val_loss"].
Proof. reflexivity. Qed.

(** Integers and floats are compared exactly. *)
Example compare_mixed :
  Py.le (Py.Int 3) (Py.Float 3.5) = true /\
  Py.le (Py.Int 9007199254740993) (Py.Float 9007199254740992) = false /\
  Py.le (Py.Float nan) (Py.Int 0) = false /\
  Py.gt (Py.Int 1) Py.inf = false.
Proof. vm_compute. repeat split; reflexivity. Qed.

(** A monitor string that is neither "off" nor a mode and a metric. *)
Example init_rejects_monitor :
  init_monitor (Sample.trainer_section (Some "median loss") None 3 1)
    = inl AssertionError /\
  init_monitor (Sample.trainer_section (Some "min") None 3 1) = inl ValueError.
Proof. vm_compute. split; reflexivity. Qed.

(** Patience 2 and a loss that grows: epoch 1 is the best, epochs 2, 3, 4
    are not, and the run stops in epoch 4 with the counter at 3. *)
Example early_stop_patience_two :
  let t := Sample.a_trainer
             (Sample.optimizers_config
                (Sample.trainer_section (Some "min loss") (Some (Py.Int 2)) 10 100)
                None)
             "min" "loss" Py.inf (Py.Int 2) in
  let r := train Sample.growing_loss t in
  st_flow r = Break /\ _last_epoch (st_trainer r) = 4 /\ st_count r = 3 /\
  saved_epochs (st_events r) = [1].
Proof. vm_compute. repeat split; reflexivity. Qed.

(** Line 213: with both of the discriminator's entries unchanged its
    scheduler is not loaded; with the scheduler entry changed it is. *)
Example resume_discriminator_scheduler :
  let changed :=
    Sample.cfg (cfg_trainer Sample.resumed_config)
      "Adam lr=2e-4" "Adam lr=2e-4" "ExponentialLR 0.999" "StepLR 10" None in
  d_lr_scheduler
    (objs (after (resume_from Sample.resuming_trainer Sample.checkpoint5)))
    = Some 6 /\
  d_lr_scheduler
    (objs (after (resume_from
                    (Sample.a_trainer changed "min" "loss" Py.inf (Py.Int 2))
                    Sample.checkpoint5)))
    = Some 60.
Proof. vm_compute. split; reflexivity. Qed.

(** Lines 200-201 with no scheduler attached to the trainer. *)
Example resume_without_scheduler :
  let t := Sample.a_trainer Sample.recorded_config "min" "loss" Py.inf (Py.Int 2) in
  let bare := set_objs (set_g_lr_scheduler None (objs t)) t in
  raised (resume_from bare Sample.checkpoint5) = Some AttributeError.
Proof. reflexivity. Qed.

(** ** The properties at concrete runs *)

(** C1 at a run: mode "min", best so far 3.0, the epoch reports 2.0
    with the counter at 4: the counter is reset and 2.0 is the new best. *)
Lemma C1_witness :
  let hook := Sample.constant_loss (Py.Float 2) in
  let t := Sample.a_trainer (Sample.min_loss_config 3 1) "min" "loss"
             (Py.Float 3) Py.inf in
  (hook 1 (objs t) = Returned {[ "loss" := Py.Float 2 ]} (objs t) /\
   ({[ "loss" := Py.Float 2 ]} : EpochResult) !! mnt_metric t = Some (Py.Float 2) /\
   mnt_mode t = "min") /\
  st_count (loop_body hook t 4 1) = 0 /\
  mnt_best (st_trainer (loop_body hook t 4 1)) = Py.Float 2.
Proof.
  intros hook t.
  assert (Hhook : hook 1 (objs t) = Returned {[ "loss" := Py.Float 2 ]} (objs t))
    by reflexivity.
  assert (Hv : ({[ "loss" := Py.Float 2 ]} : EpochResult) !! mnt_metric t
               = Some (Py.Float 2)) by reflexivity.
  assert (Hm : mnt_mode t = "min") by reflexivity.
  split; [auto|].
  destruct (proj1 (C1_improved_iff_not_worse hook) t 4 1 _ _ _ Hhook Hv)
    as (Hmin & _).
  destruct (Hmin Hm) as (_ & Hb & Hc).
  split; [exact Hc | exact Hb].
Defined.

(** C2 at two runs with a loss that never improves after the first
    epoch: with patience 0 in the configuration the run does not stop
    early; with patience 2 the patience is 2 and the run stops with the
    counter above 2. *)
Lemma C2_witness :
  let c := {| after := Sample.a_trainer Sample.zero_patience_config
                         "min" "loss" Py.inf Py.inf;
              raised := None; emitted := [] |} in
  let c2 := {| after := Sample.a_trainer Runs.patient_config
                          "min" "loss" Py.inf (Py.Int 2);
               raised := None; emitted := [] |} in
  let r2 := train Sample.growing_loss (after c2) in
  (__init__ Sample.no_files (Sample.net "Generator" 1)
     (Sample.net "Discriminator" 2) 3 4 (Some 5) (Some 6)
     Sample.zero_patience_config = inr c /\
   cfg_early_stop (cfg_trainer Sample.zero_patience_config) = Some (Py.Int 0) /\
   Py.le (Py.Int 0) (Py.Int 0) = true) /\
  (early_stop (after c) = Py.inf /\
   st_flow (train Sample.growing_loss (after c)) <> Break) /\
  (__init__ Sample.no_files (Sample.net "Generator" 1)
     (Sample.net "Discriminator" 2) 3 4 (Some 5) (Some 6)
     Runs.patient_config = inr c2 /\
   mnt_mode (after c2) <> "off" /\
   cfg_early_stop (cfg_trainer Runs.patient_config) = Some (Py.Int 2) /\
   Py.le (Py.Int 2) (Py.Int 0) = false /\
   st_flow r2 = Break) /\
  early_stop (after c2) = Py.Int 2 /\
  Py.gt (Py.Int (st_count r2)) (Py.Int 2) = true.
Proof.
  intros c c2 r2.
  assert (Hinit : __init__ Sample.no_files (Sample.net "Generator" 1)
                    (Sample.net "Discriminator" 2) 3 4 (Some 5) (Some 6)
                    Sample.zero_patience_config = inr c) by reflexivity.
  assert (Hcfg : cfg_early_stop (cfg_trainer Sample.zero_patience_config)
                 = Some (Py.Int 0)) by reflexivity.
  assert (Hle : Py.le (Py.Int 0) (Py.Int 0) = true) by reflexivity.
  assert (Hinit2 : __init__ Sample.no_files (Sample.net "Generator" 1)
                     (Sample.net "Discriminator" 2) 3 4 (Some 5) (Some 6)
                     Runs.patient_config = inr c2) by reflexivity.
  assert (Hon : mnt_mode (after c2) <> "off") by discriminate.
  assert (Hcfg2 : cfg_early_stop (cfg_trainer Runs.patient_config)
                  = Some (Py.Int 2)) by reflexivity.
  assert (Hle2 : Py.le (Py.Int 2) (Py.Int 0) = false) by reflexivity.
  assert (Hbreak : st_flow r2 = Break) by reflexivity.
  split; [auto|]. split.
  - destruct (proj2 (C2_early_stop_above_patience Sample.growing_loss
                       Sample.no_files) _ _ _ _ _ _ _ _ Hinit)
      as (_ & _ & H & _).
    exact (H _ Hcfg Hle).
  - split; [auto 6|].
    destruct (proj2 (C2_early_stop_above_patience Sample.growing_loss
                       Sample.no_files) _ _ _ _ _ _ _ _ Hinit2)
      as (_ & _ & _ & H).
    destruct (proj1 (H Hon) _ Hcfg2 Hle2) as (H1 & H2 & _).
    split; [exact H1 | exact (H2 Hbreak)].
Defined.

(** The claim C3 as written fails when the monitored metric is named
    "epoch": the hook reports no metric at all, yet the lookup finds the
    key the trainer added to the log, no warning is logged, monitoring
    stays on and the epoch counts as the best so far. *)
Lemma C3_counterexample_metric_named_epoch :
  let t := Sample.max_epoch_trainer in
  let s := loop_body Sample.no_metrics t 0 1 in
  Sample.fresh Sample.no_files Sample.max_epoch_config = Some t /\
  Sample.no_metrics 1 (objs t) = Returned ∅ (objs t) /\
  mnt_mode t = "max" /\
  (∅ : EpochResult) !! mnt_metric t = None /\
  warnings (st_events s) = [] /\
  mnt_mode (st_trainer s) <> "off" /\
  marked_best Sample.no_metrics t 0 1 = true /\
  mnt_best (st_trainer s) = Py.Int 1.
Proof.
  vm_compute. repeat split; try reflexivity. discriminate.
Qed.

(** C3 at a run: mode "min" on "loss", the hook reports no metric. *)
Lemma C3_witness :
  let hook := Sample.no_metrics in
  let t := Sample.a_trainer (Sample.min_loss_config 3 1) "min" "loss"
             Py.inf Py.inf in
  (hook 1 (objs t) = Returned ∅ (objs t) /\
   (mnt_mode t = "min" \/ mnt_mode t = "max") /\
   (∅ : EpochResult) !! mnt_metric t = None /\
   mnt_metric t <> "epoch") /\
  mnt_mode (st_trainer (loop_body hook t 0 1)) = "off" /\
  st_count (loop_body hook t 0 1) = 1.
Proof.
  intros hook t.
  assert (Hhook : hook 1 (objs t) = Returned ∅ (objs t)) by reflexivity.
  assert (Hm : mnt_mode t = "min" \/ mnt_mode t = "max") by (left; reflexivity).
  assert (Hv : (∅ : EpochResult) !! mnt_metric t = None) by reflexivity.
  assert (Hn : mnt_metric t <> "epoch") by discriminate.
  split; [auto|].
  destruct (C3_missing_metric_turns_monitoring_off hook t 0 1 ∅ (objs t)
              Hhook Hm Hv Hn) as (_ & Hoff & _ & _ & Hc & _).
  split; [exact Hoff | exact Hc].
Defined.

(** The claim C4 as written fails at this resume. Both schedulers are
    attached, both scheduler entries are unchanged from the recorded
    configuration and both states are in the checkpoint; resume returns,
    and neither scheduler's state has been loaded: the generator's because
    its optimizer entry changed, the discriminator's because line 213 loads
    it when its entry differs. *)
Lemma C4_counterexample_schedulers_not_restored :
  let t := Sample.resuming_trainer in
  let checkpoint := Sample.checkpoint5 in
  let c := _resume_checkpoint
             (Sample.one_file "saved/checkpoint-epoch5.pth" checkpoint) t
             "saved/checkpoint-epoch5.pth" in
  raised c = None /\
  (g_lr_scheduler (objs t) = Some 5 /\
   cfg_g_lr_scheduler (ck_config checkpoint) = cfg_g_lr_scheduler (config t) /\
   ck_g_lr_scheduler checkpoint = Some 50 /\
   g_lr_scheduler (objs (after c)) <> ck_g_lr_scheduler checkpoint) /\
  (d_lr_scheduler (objs t) = Some 6 /\
   cfg_d_lr_scheduler (ck_config checkpoint) = cfg_d_lr_scheduler (config t) /\
   ck_d_lr_scheduler checkpoint = Some 60 /\
   d_lr_scheduler (objs (after c)) <> ck_d_lr_scheduler checkpoint).
Proof.
  vm_compute. repeat split; try reflexivity; discriminate.
Qed.

(** C4 at a resume: the generator's optimizer entry changed, so its
    scheduler keeps the state it had. *)
Lemma C4_witness :
  let load := Sample.one_file "saved/checkpoint-epoch5.pth" Sample.checkpoint5 in
  let t := Sample.resuming_trainer in
  let c := _resume_checkpoint load t "saved/checkpoint-epoch5.pth" in
  (load "saved/checkpoint-epoch5.pth" = Some Sample.checkpoint5 /\
   g_lr_scheduler (objs t) = Some 5 /\
   ck_g_lr_scheduler Sample.checkpoint5 = Some 50) /\
  g_lr_scheduler (objs (after c)) = Some 5.
Proof.
  intros load t c.
  assert (Hload : load "saved/checkpoint-epoch5.pth" = Some Sample.checkpoint5)
    by reflexivity.
  assert (Hf : g_lr_scheduler (objs t) = Some 5) by reflexivity.
  assert (Hr : ck_g_lr_scheduler Sample.checkpoint5 = Some 50) by reflexivity.
  split; [auto|].
  destruct (C4_generator_scheduler_restored_iff_unchanged load t
              "saved/checkpoint-epoch5.pth" Sample.checkpoint5 5 50 Hload Hf Hr)
    as (_ & H & _).
  apply H. intros [Hgo _]. discriminate Hgo.
Defined.

(** C5 at a resume: the checkpoint of epoch 5. *)
Lemma C5_witness :
  let load := Sample.one_file "saved/checkpoint-epoch5.pth" Sample.checkpoint5 in
  let c := _resume_checkpoint load Sample.resuming_trainer
             "saved/checkpoint-epoch5.pth" in
  load "saved/checkpoint-epoch5.pth" = Some Sample.checkpoint5 /\
  start_epoch (after c) = 6 /\
  mnt_best (after c) = Py.Float 0.5.
Proof.
  intros load c.
  assert (Hload : load "saved/checkpoint-epoch5.pth" = Some Sample.checkpoint5)
    by reflexivity.
  split; [exact Hload|].
  destruct (C5_resume_start_epoch_and_best load Sample.resuming_trainer
              "saved/checkpoint-epoch5.pth" Sample.checkpoint5 Hload)
    as (H1 & H2 & _).
  split; [exact H1 | exact H2].
Defined.

(** C6 at a resume: the generator's optimizer entry changed. *)
Lemma C6_witness :
  let load := Sample.one_file "saved/checkpoint-epoch5.pth" Sample.checkpoint5 in
  let t := Sample.resuming_trainer in
  let c := _resume_checkpoint load t "saved/checkpoint-epoch5.pth" in
  (load "saved/checkpoint-epoch5.pth" = Some Sample.checkpoint5 /\
   cfg_g_optimizer (ck_config Sample.checkpoint5) <> cfg_g_optimizer (config t)) /\
  parameters (generator (objs (after c))) = 10 /\
  parameters (discriminator (objs (after c))) = 20 /\
  g_optimizer (objs (after c)) = 3 /\
  In (Warning MsgOptimizerDiffers) (emitted c).
Proof.
  intros load t c.
  assert (Hload : load "saved/checkpoint-epoch5.pth" = Some Sample.checkpoint5)
    by reflexivity.
  assert (Hne : cfg_g_optimizer (ck_config Sample.checkpoint5)
                <> cfg_g_optimizer (config t)) by discriminate.
  split; [auto|].
  destruct (C6_optimizer_mismatch_keeps_state load t
              "saved/checkpoint-epoch5.pth" Sample.checkpoint5 Hload)
    as (H1 & H2 & _ & H4 & _).
  destruct (H4 Hne) as (H5 & H6).
  repeat split; assumption.
Defined.

(** C7 at a run: monitoring off, a checkpoint every second epoch, epoch 4. *)
Lemma C7_witness :
  let hook := Sample.constant_loss (Py.Float 2) in
  let t := Sample.a_trainer Sample.unmonitored_config "off" "" (Py.Int 0)
             Py.inf in
  (Sample.fresh Sample.no_files Sample.unmonitored_config = Some t /\
   hook 4 (objs t) = Returned {[ "loss" := Py.Float 2 ]} (objs t) /\
   mnt_mode t = "off" /\ save_period t <> 0 /\ 4 mod save_period t = 0) /\
  st_flow (loop_body hook t 0 4) = Continue /\
  saved_epochs (st_events (loop_body hook t 0 4)) = [4].
Proof.
  intros hook t.
  assert (Hfresh : Sample.fresh Sample.no_files Sample.unmonitored_config
                   = Some t) by reflexivity.
  assert (Hhook : hook 4 (objs t) = Returned {[ "loss" := Py.Float 2 ]} (objs t))
    by reflexivity.
  assert (Hoff : mnt_mode t = "off") by reflexivity.
  assert (Hsp : save_period t <> 0) by discriminate.
  assert (Hdiv : 4 mod save_period t = 0) by reflexivity.
  split; [auto 6|].
  exact (proj2 (C7_checkpoint_iff_due_or_best hook t 0 4) _ _ Hhook Hoff Hsp Hdiv).
Defined.

(** The claim C8 as written fails when the interrupt arrives after the
    loop's own save of the epoch. No monitoring, a checkpoint every
    second epoch, four epochs; the interrupt arrives in the iteration of
    epoch 2, after the last of the six effects of its body (line 138 has
    returned). The loop has written the checkpoint of epoch 2, the
    handler writes it again: two checkpoints for epoch 2, to the same
    path. *)
Lemma C8_counterexample_interrupt_after_save :
  let hook := Sample.growing_loss in
  let t := Sample.a_trainer Sample.unmonitored_config "off" "" (Py.Int 0)
             Py.inf in
  let before := for_epochs hook (Py.range (start_epoch t) 2) t 0 in
  let r := interrupted_train hook t 2 6 in
  Sample.fresh Sample.no_files Sample.unmonitored_config = Some t /\
  2 < epochs t /\
  st_flow before = Continue /\
  length (body_effects hook (st_trainer before) (st_count before) 2) = 6%nat /\
  st_flow r = Raise KeyboardInterrupt /\
  _last_epoch (st_trainer r) = 2 /\
  saved_epochs (st_events r) = [2; 2] /\
  saved_paths (st_events r) =
    [checkpoint_file (checkpoint_dir t) 2; checkpoint_file (checkpoint_dir t) 2].
Proof.
  vm_compute. repeat split; reflexivity.
Qed.

(** C8 at two runs. Three epochs, monitoring "min loss", a checkpoint
    every tenth epoch, the user interrupts the hook in epoch 2: epoch 1
    was the best so far and was saved; the interrupt adds the checkpoint
    of epoch 2. Four epochs, no monitoring, a checkpoint every second
    epoch, the interrupt arrives in epoch 3 after the hook has returned:
    the loop saved epoch 2, the interrupt adds the one checkpoint of
    epoch 3. *)
Lemma C8_witness :
  let hook := Sample.interrupted_at 2 in
  let t := Sample.a_trainer (Sample.min_loss_config 3 10) "min" "loss"
             Py.inf Py.inf in
  let before := for_epochs hook (Py.range (start_epoch t) 2) t 0 in
  let hook' := Sample.growing_loss in
  let t' := Sample.a_trainer Sample.unmonitored_config "off" "" (Py.Int 0)
              Py.inf in
  let before' := for_epochs hook' (Py.range (start_epoch t') 3) t' 0 in
  let r' := interrupted_train hook' t' 3 2 in
  (start_epoch t <= 2 <= epochs t /\
   st_flow before = Continue /\
   hook 2 (objs (st_trainer before)) = Interrupted (objs t)) /\
  (st_flow (train hook t) = Raise KeyboardInterrupt /\
   saved_epochs (st_events (train hook t)) = [1; 2]) /\
  (start_epoch t' <= 3 <= epochs t' /\
   st_flow before' = Continue /\
   (1 <= 2)%nat /\
   ~ (3 mod save_period t' = 0 \/
      marked_best hook' (st_trainer before') (st_count before') 3 = true)) /\
  st_flow r' = Raise KeyboardInterrupt /\
  _last_epoch (st_trainer r') = 3 /\
  saved_epochs (st_events r') = [2; 3].
Proof.
  intros hook t before hook' t' before' r'.
  assert (HK : start_epoch t <= 2 <= epochs t) by (simpl; lia).
  assert (Hb : st_flow before = Continue) by reflexivity.
  assert (Hi : hook 2 (objs (st_trainer before)) = Interrupted (objs t))
    by reflexivity.
  assert (HK' : start_epoch t' <= 3 <= epochs t') by (simpl; lia).
  assert (Hb' : st_flow before' = Continue) by reflexivity.
  assert (Hi' : (1 <= 2)%nat) by lia.
  assert (Hnot : ~ (3 mod save_period t' = 0 \/
                    marked_best hook' (st_trainer before') (st_count before') 3
                    = true))
    by (intros [H|H]; vm_compute in H; discriminate).
  split; [auto|]. split.
  - destruct (C8_interrupt_checkpoints_last_recorded_epoch hook t 2 HK Hb)
      as (_ & HA & _).
    destruct (HA (objs t) Hi) as (H1 & _ & _ & H4 & _).
    split; [exact H1 | exact H4].
  - split; [auto|].
    destruct (C8_interrupt_checkpoints_last_recorded_epoch hook' t' 3 HK' Hb')
      as (_ & _ & HB & _).
    destruct (HB 2%nat Hi') as (H1 & H2 & _ & H4).
    split; [exact H1|]. split; [exact H2|].
    exact (eq_trans (H4 Hnot) eq_refl).
Defined.

(** C9 at two trainers that share the checkpoint directory. *)
Lemma C9_witness :
  checkpoint_dir Sample.max_epoch_trainer = checkpoint_dir Sample.resuming_trainer /\
  saved_paths (_save_checkpoint Sample.max_epoch_trainer 7 false false) =
    saved_paths (_save_checkpoint Sample.resuming_trainer 7 true true) /\
  saved_paths (_save_checkpoint Sample.resuming_trainer 7 true true) =
    [PathDiv (PathOf "saved") "checkpoint-epoch7.pth"].
Proof.
  assert (H : checkpoint_dir Sample.max_epoch_trainer
              = checkpoint_dir Sample.resuming_trainer) by reflexivity.
  split; [exact H|].
  destruct (C9_save_checkpoint_ignores_flags Sample.resuming_trainer 7
              true true false false) as (_ & H2 & _ & H4).
  split; [exact (H4 _ H) | exact H2].
Defined.

(** C10 at a resumed run: patience 2, resumed after epoch 5 with a loss
    that never improves: the run stops early in epoch 8, its third. *)
Lemma C10_witness :
  let load := Sample.one_file "saved/checkpoint-epoch5.pth" Sample.checkpoint5 in
  let t' := after (_resume_checkpoint load Sample.resuming_trainer
                     "saved/checkpoint-epoch5.pth") in
  let r := train Sample.growing_loss t' in
  (load "saved/checkpoint-epoch5.pth" = Some Sample.checkpoint5 /\
   st_flow r = Break) /\
  _last_epoch (st_trainer r) = 8 /\
  Py.gt (Py.Int (_last_epoch (st_trainer r) - 5)) (Py.Int 2) = true.
Proof.
  intros load t' r.
  assert (Hload : load "saved/checkpoint-epoch5.pth" = Some Sample.checkpoint5)
    by reflexivity.
  assert (Hbreak : st_flow r = Break) by reflexivity.
  split; [auto|]. split; [reflexivity|].
  destruct (proj1 (proj2 (C10_counter_restarts_at_zero Sample.growing_loss load))
              Sample.resuming_trainer "saved/checkpoint-epoch5.pth"
              Sample.checkpoint5 Hload) as (_ & H).
  exact (H Hbreak).
Defined.

(** ** The further properties at concrete runs *)

(** X1 at a fresh trainer in mode "min" whose hook reports no metric. *)
Lemma X1_witness :
  let c := {| after := Sample.a_trainer (Sample.min_loss_config 3 1)
                         "min" "loss" Py.inf Py.inf;
              raised := None; emitted := [] |} in
  let later := mnt_mode (st_trainer (train Sample.no_metrics (after c))) in
  __init__ Sample.no_files (Sample.net "Generator" 1)
    (Sample.net "Discriminator" 2) 3 4 (Some 5) (Some 6)
    (Sample.min_loss_config 3 1) = inr c /\
  (later = "min" \/ later = "off").
Proof.
  intros c later.
  assert (Hinit : __init__ Sample.no_files (Sample.net "Generator" 1)
                    (Sample.net "Discriminator" 2) 3 4 (Some 5) (Some 6)
                    (Sample.min_loss_config 3 1) = inr c) by reflexivity.
  split; [exact Hinit|].
  exact (proj2 (constructed_mode_off_min_max Sample.no_metrics Sample.no_files
                  _ _ _ _ _ _ _ _ Hinit)).
Defined.

(** X2 at a hook that reports "loss" in every epoch. *)
Lemma X2_witness :
  let t := Sample.a_trainer (Sample.min_loss_config 3 1) "min" "loss"
             Py.inf Py.inf in
  (forall e o result o',
     Sample.growing_loss e o = Returned result o' ->
     is_Some (result !! mnt_metric t)) /\
  warnings (st_events (train Sample.growing_loss t)) = [] /\
  mnt_mode (st_trainer (train Sample.growing_loss t)) = "min".
Proof.
  intros t.
  assert (Hrep : forall e o result o',
             Sample.growing_loss e o = Returned result o' ->
             is_Some (result !! mnt_metric t)).
  { intros e o result o' H. injection H as <- _.
    exists (Py.Int e). apply lookup_singleton_eq. }
  split; [exact Hrep|].
  exact (reported_metric_keeps_monitoring Sample.growing_loss t Hrep).
Defined.

(** X3 at the first epoch of a fresh run with a save period of 10. *)
Lemma X3_witness :
  let t := Sample.a_trainer (Sample.min_loss_config 3 10) "min" "loss"
             Py.inf Py.inf in
  let s := loop_body Sample.growing_loss t 2 1 in
  (Py.gt (Py.Int 0) (early_stop t) = false /\
   marked_best Sample.growing_loss t 2 1 = true /\ save_period t <> 0) /\
  st_count s = 0 /\ st_flow s = Continue /\ saved_epochs (st_events s) = [1].
Proof.
  intros t s.
  assert (Hes : Py.gt (Py.Int 0) (early_stop t) = false) by reflexivity.
  assert (Hbest : marked_best Sample.growing_loss t 2 1 = true) by reflexivity.
  assert (Hsp : save_period t <> 0) by discriminate.
  split; [auto|].
  destruct (best_epoch_is_saved Sample.growing_loss t 2 1 Hes Hbest)
    as (Hc & _ & Hsaved).
  destruct (Hsaved Hsp) as (H1 & H2). auto.
Defined.

(** X4 at four epochs without monitoring, a checkpoint every second. *)
Lemma X4_witness :
  let c := {| after := Sample.a_trainer Sample.unmonitored_config "off" ""
                         (Py.Int 0) Py.inf;
              raised := None; emitted := [] |} in
  let r := train Sample.growing_loss (after c) in
  (__init__ Sample.no_files (Sample.net "Generator" 1)
     (Sample.net "Discriminator" 2) 3 4 (Some 5) (Some 6)
     Sample.unmonitored_config = inr c /\
   default "off" (cfg_monitor (cfg_trainer Sample.unmonitored_config)) = "off" /\
   cfg_save_period (cfg_trainer Sample.unmonitored_config) <> 0 /\
   (forall e o, exists result o', Sample.growing_loss e o = Returned result o')) /\
  st_flow r = Continue /\ saved_epochs (st_events r) = [2; 4].
Proof.
  intros c r.
  assert (Hinit : __init__ Sample.no_files (Sample.net "Generator" 1)
                    (Sample.net "Discriminator" 2) 3 4 (Some 5) (Some 6)
                    Sample.unmonitored_config = inr c) by reflexivity.
  assert (Hmon : default "off" (cfg_monitor (cfg_trainer Sample.unmonitored_config))
                 = "off") by reflexivity.
  assert (Hsp : cfg_save_period (cfg_trainer Sample.unmonitored_config) <> 0)
    by discriminate.
  assert (Hret : forall e o, exists result o',
               Sample.growing_loss e o = Returned result o')
    by (intros e o; eexists; eexists; reflexivity).
  split; [auto|].
  destruct (unmonitored_run_saves_every_period Sample.growing_loss Sample.no_files
              _ _ _ _ _ _ _ _ Hinit Hmon Hsp Hret) as (H1 & _ & _ & _ & H5 & _).
  split; [exact H1 | exact H5].
Defined.

(** X5 at a run without monitoring and a save period of 0. *)
Lemma X5_witness :
  let t := Runs.zero_period_trainer in
  let r := train Sample.growing_loss t in
  (save_period t = 0 /\ start_epoch t <= epochs t /\
   Sample.growing_loss (start_epoch t) (objs t)
     = Returned {[ "loss" := Py.Int 1 ]} (objs t)) /\
  (st_flow r = Break \/ st_flow r = Raise ZeroDivisionError) /\
  _last_epoch (st_trainer r) = 1 /\
  saved_epochs (st_events r) = [].
Proof.
  intros t r.
  assert (Hsp : save_period t = 0) by reflexivity.
  assert (Hrange : start_epoch t <= epochs t) by (simpl; lia).
  assert (Hhook : Sample.growing_loss (start_epoch t) (objs t)
                  = Returned {[ "loss" := Py.Int 1 ]} (objs t)) by reflexivity.
  split; [auto|].
  exact (zero_save_period_first_epoch Sample.growing_loss t _ _ Hsp Hrange Hhook).
Defined.

(** X6 at two runs: the hook interrupted in epoch 2 of three, and, with a
    checkpoint every second epoch of four, an interrupt that arrives in
    epoch 2 after the loop has saved it. *)
Lemma X6_witness :
  let hook := Sample.interrupted_at 2 in
  let t := Sample.a_trainer (Sample.min_loss_config 3 10) "min" "loss"
             Py.inf Py.inf in
  let before := for_epochs hook (Py.range (start_epoch t) 2) t 0 in
  let hook' := Sample.growing_loss in
  let t' := Sample.a_trainer Sample.unmonitored_config "off" "" (Py.Int 0)
              Py.inf in
  let before' := for_epochs hook' (Py.range (start_epoch t') 2) t' 0 in
  let r' := interrupted_train hook' t' 2 6 in
  (start_epoch t <= 2 <= epochs t /\
   st_flow before = Continue /\
   hook 2 (objs (st_trainer before)) = Interrupted (objs t)) /\
  NoDup (saved_paths (st_events (train hook t))) /\
  (start_epoch t' <= 2 <= epochs t' /\ st_flow before' = Continue) /\
  exists loop_events : list event,
    NoDup (saved_paths loop_events) /\
    saved_paths (st_events r') =
      saved_paths loop_events ++
      [checkpoint_file (checkpoint_dir t') (_last_epoch (st_trainer r'))].
Proof.
  intros hook t before hook' t' before' r'.
  assert (HK : start_epoch t <= 2 <= epochs t) by (simpl; lia).
  assert (Hb : st_flow before = Continue) by reflexivity.
  assert (Hi : hook 2 (objs (st_trainer before)) = Interrupted (objs t))
    by reflexivity.
  assert (HK' : start_epoch t' <= 2 <= epochs t') by (simpl; lia).
  assert (Hb' : st_flow before' = Continue) by reflexivity.
  split; [auto|]. split.
  - destruct (only_the_interrupt_checkpoint_can_repeat_a_path hook t)
      as (_ & H & _).
    exact (proj2 (proj2 (proj2 (H 2 (objs t) HK Hb Hi)))).
  - split; [auto|].
    destruct (only_the_interrupt_checkpoint_can_repeat_a_path hook' t')
      as (_ & _ & H).
    destruct (H 2 6%nat HK' Hb') as (evs & _ & _ & Hnd & _ & _ & _ & Hp & _).
    exists evs. split; [exact Hnd | exact Hp].
Defined.


(** X7 at a run that stops early in its third epoch. *)
Lemma X7_witness :
  let t := Runs.patient_trainer in
  let r := train (Sample.constant_loss (Py.Float 2)) t in
  st_flow r = Break /\
  1 <= _last_epoch (st_trainer r) <= 10 /\
  (forall k, k ∈ saved_epochs (st_events r) -> 1 <= k < _last_epoch (st_trainer r)).
Proof.
  intros t r.
  assert (Hbreak : st_flow r = Break) by reflexivity.
  split; [exact Hbreak|].
  exact (early_stop_epoch_is_not_saved (Sample.constant_loss (Py.Float 2)) t Hbreak).
Defined.

(** X8 at a schedule of five epochs resumed after epoch 5. *)
Lemma X8_witness :
  let load := Sample.one_file "saved/checkpoint-epoch5.pth" Sample.checkpoint5 in
  let t := Runs.five_epochs_trainer in
  let t' := after (_resume_checkpoint load t "saved/checkpoint-epoch5.pth") in
  (load "saved/checkpoint-epoch5.pth" = Some Sample.checkpoint5 /\
   epochs t <= ck_epoch Sample.checkpoint5) /\
  st_events (train Sample.growing_loss t') = [] /\
  st_flow (train Sample.growing_loss t') = Continue.
Proof.
  intros load t t'.
  assert (Hload : load "saved/checkpoint-epoch5.pth" = Some Sample.checkpoint5)
    by reflexivity.
  assert (Hlast : epochs t <= ck_epoch Sample.checkpoint5) by (simpl; lia).
  split; [auto|].
  pose proof (resume_after_last_epoch_trains_nothing Sample.growing_loss load t
                "saved/checkpoint-epoch5.pth" Sample.checkpoint5 Hload Hlast) as H.
  fold t' in H. rewrite H. split; reflexivity.
Defined.

(** X9 at the checkpoint of epoch 7, resumed under the same configuration. *)
Lemma X9_witness :
  let load := Sample.one_file "saved/checkpoint-epoch7.pth" Runs.checkpoint7 in
  let t := Sample.resuming_trainer in
  let c := _resume_checkpoint load t "saved/checkpoint-epoch7.pth" in
  (In (TorchSave Runs.checkpoint7
         (PathDiv (PathOf "saved") "checkpoint-epoch7.pth"))
      (_save_checkpoint Runs.writer 7 false true) /\
   load "saved/checkpoint-epoch7.pth" = Some Runs.checkpoint7 /\
   config t = config Runs.writer /\
   g_lr_scheduler (objs Runs.writer) = Some 15 /\
   g_lr_scheduler (objs t) = Some 5) /\
  raised c = None /\ start_epoch (after c) = 8 /\
  parameters (generator (objs (after c))) = 11 /\
  g_optimizer (objs (after c)) = 13 /\
  g_lr_scheduler (objs (after c)) = Some 15.
Proof.
  intros load t c.
  assert (Hin : In (TorchSave Runs.checkpoint7
                      (PathDiv (PathOf "saved") "checkpoint-epoch7.pth"))
                   (_save_checkpoint Runs.writer 7 false true))
    by (left; reflexivity).
  assert (Hload : load "saved/checkpoint-epoch7.pth" = Some Runs.checkpoint7)
    by reflexivity.
  assert (Hcfg : config t = config Runs.writer) by reflexivity.
  assert (Hrec : g_lr_scheduler (objs Runs.writer) = Some 15) by reflexivity.
  assert (Hfresh : g_lr_scheduler (objs t) = Some 5) by reflexivity.
  split; [auto 6|].
  destruct (save_then_resume_restores load Runs.writer t 7 false true
              Runs.checkpoint7 _ "saved/checkpoint-epoch7.pth" 15 5
              Hin Hload Hcfg Hrec Hfresh)
    as (H1 & _ & H3 & _ & H5 & _ & H7 & _ & H9).
  auto 6.
Defined.

(** X10 at a trainer without a generator scheduler. *)
Lemma X10_witness :
  let load := Sample.one_file "saved/checkpoint-epoch5.pth" Sample.checkpoint5 in
  let t := Runs.bare_trainer in
  let c := _resume_checkpoint load t "saved/checkpoint-epoch5.pth" in
  (load "saved/checkpoint-epoch5.pth" = Some Sample.checkpoint5 /\
   cfg_g_optimizer (ck_config Sample.checkpoint5) = cfg_g_optimizer (config t) /\
   cfg_g_lr_scheduler (ck_config Sample.checkpoint5)
     = cfg_g_lr_scheduler (config t) /\
   g_lr_scheduler (objs t) = None) /\
  raised c = Some AttributeError /\
  g_optimizer (objs (after c)) = 30 /\
  d_optimizer (objs (after c)) = 4.
Proof.
  intros load t c.
  assert (Hload : load "saved/checkpoint-epoch5.pth" = Some Sample.checkpoint5)
    by reflexivity.
  assert (Hgo : cfg_g_optimizer (ck_config Sample.checkpoint5)
                = cfg_g_optimizer (config t)) by reflexivity.
  assert (Hgs : cfg_g_lr_scheduler (ck_config Sample.checkpoint5)
                = cfg_g_lr_scheduler (config t)) by reflexivity.
  assert (Hno : g_lr_scheduler (objs t) = None) by reflexivity.
  split; [auto|].
  destruct (resume_raises_without_generator_scheduler load t
              "saved/checkpoint-epoch5.pth" Sample.checkpoint5 Hload Hgo Hgs
              (or_introl Hno))
    as (H1 & _ & _ & _ & _ & H6 & H7 & _).
  auto.
Defined.

(** X11 at a run interrupted in epoch 2. *)
Lemma X11_witness :
  let hook := Sample.interrupted_at 2 in
  let t := Sample.a_trainer (Sample.min_loss_config 3 10) "min" "loss"
             Py.inf Py.inf in
  let before := for_epochs hook (Py.range (start_epoch t) 2) t 0 in
  (start_epoch t <= 2 <= epochs t /\
   st_flow before = Continue /\
   hook 2 (objs (st_trainer before)) = Interrupted (objs t)) /\
  exists checkpoint,
    saved_records (st_events (train hook t)) =
      saved_records (st_events before) ++ [checkpoint] /\
    ck_epoch checkpoint = 2 /\
    ck_monitor_best checkpoint = Py.Int 1.
Proof.
  intros hook t before.
  assert (HK : start_epoch t <= 2 <= epochs t) by (simpl; lia).
  assert (Hb : st_flow before = Continue) by reflexivity.
  assert (Hi : hook 2 (objs (st_trainer before)) = Interrupted (objs t))
    by reflexivity.
  split; [auto|].
  destruct (interrupted_epoch_is_not_rerun hook Sample.no_files t 2 (objs t)
              HK Hb Hi) as (ck & H1 & H2 & _ & _ & _ & _ & H7 & _).
  exists ck. split; [exact H1|]. split; [exact H2 | exact H7].
Defined.

(** X12 at the first epoch of a fresh run. *)
Lemma X12_witness :
  let t := Sample.a_trainer (Sample.min_loss_config 3 1) "min" "loss"
             Py.inf Py.inf in
  let s := loop_body Sample.growing_loss t 0 1 in
  Sample.growing_loss 1 (objs t) = Returned {[ "loss" := Py.Int 1 ]} (objs t) /\
  objs (st_trainer s) = objs t /\
  Forall (fun state => ck_epoch state = 1 /\ ck_monitor_best state = Py.Int 1)
    (saved_records (st_events s)).
Proof.
  intros t s.
  assert (Hhook : Sample.growing_loss 1 (objs t)
                  = Returned {[ "loss" := Py.Int 1 ]} (objs t)) by reflexivity.
  split; [exact Hhook|].
  destruct (epoch_checkpoint_holds_hook_objects Sample.growing_loss t 0 1 _ _ Hhook)
    as (H1 & H2).
  split; [exact H1|].
  eapply Forall_impl; [exact H2|].
  intros state (E & _ & _ & _ & _ & _ & _ & _ & _ & B). split; [exact E | exact B].
Defined.

(** X13 at patience 2 with a best loss of 0.5 and a hook that reports 2.0. *)
Lemma X13_witness :
  let hook := Sample.constant_loss (Py.Float 2) in
  let t := Runs.patient_trainer in
  let r := train hook t in
  ((forall e o, exists result o' v,
       hook e o = Returned result o' /\
       result !! mnt_metric t = Some v /\ not_better t v) /\
   save_period t <> 0 /\ early_stop t = Py.Int 2 /\ 0 <= 2 /\
   start_epoch t + 2 <= epochs t) /\
  st_flow r = Break /\ _last_epoch (st_trainer r) = 3 /\ st_count r = 3.
Proof.
  intros hook t r.
  assert (Hworse : forall e o, exists result o' v,
             hook e o = Returned result o' /\
             result !! mnt_metric t = Some v /\ not_better t v).
  { intros e o. exists {[ "loss" := Py.Float 2 ]}, o, (Py.Float 2).
    split; [reflexivity|]. split; [reflexivity|].
    left. split; reflexivity. }
  assert (Hsp : save_period t <> 0) by discriminate.
  assert (Hes : early_stop t = Py.Int 2) by reflexivity.
  assert (Hp : 0 <= 2) by lia.
  assert (Hlen : start_epoch t + 2 <= epochs t) by (simpl; lia).
  split; [auto 6|].
  destruct (patience_counts_consecutive_epochs hook t 2 Hworse Hsp Hes Hp Hlen)
    as (H1 & H2 & H3 & _).
  auto.
Defined.

(** X14 at an epoch whose loss is NaN. *)
Lemma X14_witness :
  let hook := Sample.constant_loss (Py.Float nan) in
  let t := Runs.patient_trainer in
  (hook 1 (objs t) = Returned {[ "loss" := Py.Float nan ]} (objs t) /\
   ({[ "loss" := Py.Float nan ]} : EpochResult) !! mnt_metric t
     = Some (Py.Float nan) /\
   (mnt_mode t = "min" \/ mnt_mode t = "max") /\
   is_nan (Py.Float nan)) /\
  marked_best hook t 0 1 = false /\
  st_count (loop_body hook t 0 1) = 1.
Proof.
  intros hook t.
  assert (Hhook : hook 1 (objs t)
                  = Returned {[ "loss" := Py.Float nan ]} (objs t)) by reflexivity.
  assert (Hv : ({[ "loss" := Py.Float nan ]} : EpochResult) !! mnt_metric t
               = Some (Py.Float nan)) by reflexivity.
  assert (Hm : mnt_mode t = "min" \/ mnt_mode t = "max") by (left; reflexivity).
  assert (Hnan : is_nan (Py.Float nan)) by reflexivity.
  split; [auto|].
  destruct (nan_metric_never_improves hook t 0 1 _ _ _ Hhook Hv Hm Hnan)
    as (H1 & _ & H3).
  split; [exact H1 | exact H3].
Defined.

(** X15 at the first epoch of a fresh run in mode "min". *)
Lemma X15_witness :
  let hook := Sample.constant_loss (Py.Float 2) in
  let t := Sample.a_trainer (Sample.min_loss_config 3 1) "min" "loss"
             Py.inf Py.inf in
  (hook 1 (objs t) = Returned {[ "loss" := Py.Float 2 ]} (objs t) /\
   ({[ "loss" := Py.Float 2 ]} : EpochResult) !! mnt_metric t = Some (Py.Float 2) /\
   fresh_best t /\ ~ is_nan (Py.Float 2)) /\
  marked_best hook t 5 1 = true /\
  mnt_best (st_trainer (loop_body hook t 5 1)) = Py.Float 2.
Proof.
  intros hook t.
  assert (Hhook : hook 1 (objs t)
                  = Returned {[ "loss" := Py.Float 2 ]} (objs t)) by reflexivity.
  assert (Hv : ({[ "loss" := Py.Float 2 ]} : EpochResult) !! mnt_metric t
               = Some (Py.Float 2)) by reflexivity.
  assert (Hfresh : fresh_best t) by (left; split; reflexivity).
  assert (Hnan : ~ is_nan (Py.Float 2)) by (intros H; cbv in H; discriminate H).
  split; [auto|].
  destruct (fresh_run_first_value_is_best hook t 5 1 _ _ _ Hhook Hv Hfresh Hnan)
    as (H1 & H2 & _).
  split; [exact H1 | exact H2].
Defined.

(** X16 at a constructor that resumes from a checkpoint recorded under
    another configuration. *)
Lemma X16_witness :
  let load := Sample.one_file "saved/checkpoint-epoch5.pth" Sample.checkpoint5 in
  let built := __init__ load (Sample.net "Generator" 1)
                 (Sample.net "Discriminator" 2) 3 4 (Some 5) (Some 6)
                 Sample.resumed_config in
  exists c, built = inr c /\
            config (after c) = Sample.resumed_config /\
            epochs (after c) = 10 /\ save_period (after c) = 5 /\
            start_epoch (after c) = 6.
Proof.
  intros load built. eexists. split; [reflexivity|].
  match goal with
  | |- config (after ?c) = _ /\ _ =>
      assert (Hinit : built = inr c) by reflexivity;
      destruct (constructed_settings_come_from_config load _ _ _ _ _ _ _ c Hinit)
        as (H1 & H2 & H3 & _)
  end.
  split; [exact H1|]. split; [exact H2|]. split; [exact H3 | reflexivity].
Defined.
